(** * Road accident risk scorer: [SmartAccidentPredictor] of app/fallback.py

    A shallow embedding of the scoring function [predict_accident_risk] and of
    its helpers, followed by the properties the specification states about it.

    Modelling conventions.
    - A Python [float] is an exact rational ([Q]): every decimal literal is
      the rational it is written as and [+ - * /] are exact.  The rounding
      error of binary64 arithmetic (about 1e-16 on the values met here) is
      not modelled; [round(x, n)] is round-half-even on the exact value.
      What binary64 cannot hold is modelled: an [int] too large for a float
      raises [OverflowError] where it meets one, a square that leaves the
      range raises it too, and a sum that leaves the range is [inf].
    - The [conditions] dict is a record with one optional field per key of
      the data model: [None] is an absent key, read through [get] with the
      default the source gives at that place.
    - A Python exception is a value of [exc]; the [try]/[except] of
      [predict_accident_risk] turns every [Raise] into the failure result.
    - The global generator of the [random] module is a state that is passed
      along; [hashlib.md5] and the Mersenne Twister behind [random.seed] and
      [random.random] are embedded in full, so that results are computed on
      concrete inputs.
    - [datetime.now().isoformat()] is an argument ([now]) of the function.
    - A [str] is a byte string (UTF-8).  [lower] is [str.lower] on ASCII
      strings; on other strings Python lowers with its Unicode tables, and
      what is stated through [lower] is stated for ASCII strings. *)

From Stdlib Require Import ZArith QArith Qround Qminmax Qabs.
From Stdlib Require Import String Ascii List Bool Lia Lqa DecimalString.
Import ListNotations.

Open Scope string_scope.
Open Scope Z_scope.
Open Scope Q_scope.

(** ** Python values and exceptions *)

Module Py.

Inductive exn : Type :=
| KeyError (key : string)
| ZeroDivisionError
| OverflowError.

Inductive exc (A : Type) : Type :=
| Return (a : A)
| Raise (e : exn).
Arguments Return {A} a.
Arguments Raise {A} e.

Definition bind {A B : Type} (m : exc A) (k : A -> exc B) : exc B :=
  match m with
  | Return a => k a
  | Raise e => Raise e
  end.

(** [d.get(key, default)] on an optional field of the conditions. *)
Definition get {A : Type} (field : option A) (default : A) : A :=
  match field with
  | Some v => v
  | None => default
  end.

(** A dict literal with string keys, in insertion order. *)
Definition dict (A : Type) : Type := list (string * A).

Fixpoint lookup {A : Type} (d : dict A) (key : string) : option A :=
  match d with
  | [] => None
  | (k, v) :: rest => if String.eqb k key then Some v else lookup rest key
  end.

(** [d[key]] *)
Definition index {A : Type} (d : dict A) (key : string) : exc A :=
  match lookup d key with
  | Some v => Return v
  | None => Raise (KeyError key)
  end.

(** [d.get(key, default)] on a dict literal. *)
Definition dict_get {A : Type} (d : dict A) (key : string) (default : A) : A :=
  match lookup d key with
  | Some v => v
  | None => default
  end.

Definition keys {A : Type} (d : dict A) : list string := map fst d.

(** [key in list_of_strings] *)
Definition mem (key : string) (l : list string) : bool :=
  existsb (String.eqb key) l.

(** Comparisons of floats. *)
Definition ltb (x y : Q) : bool := negb (Qle_bool y x).
Definition leb (x y : Q) : bool := Qle_bool x y.

(** [min(a, b)] keeps its first argument unless the second is smaller,
    [max(a, b)] unless the second is larger. *)
Definition min (a b : Q) : Q := if ltb b a then b else a.
Definition max (a b : Q) : Q := if ltb a b then b else a.

(** [a / b] on floats. *)
Definition div (a b : Q) : exc Q :=
  if Qeq_bool b 0 then Raise ZeroDivisionError else Return (a / b).

(** The first integer that does not round to a binary64 float: half an ulp
    over the largest one, [(2 ** 53 - 1) * 2 ** 971]. *)
Definition float_limit : Z := (2 ^ 1024 - 2 ^ 970)%Z.

(** An [int] where a float is wanted ([n * 0.01]): [OverflowError] (int too
    large to convert to float) from [float_limit] on. *)
Definition float_of_int (n : Z) : exc Q :=
  if (Z.abs n <? float_limit)%Z then Return (inject_Z n)
  else Raise OverflowError.

(** [x ** 2] on a float: [OverflowError] when the square leaves the range. *)
Definition square (x : Q) : exc Q :=
  if ltb (x * x) (inject_Z float_limit) then Return (x * x)
  else Raise OverflowError.

(** [round(x)] to the nearest integer, ties to the even one. *)
Definition round_half_even (x : Q) : Z :=
  let f := Qfloor x in
  let d := x - inject_Z f in
  if ltb d (1 # 2) then f
  else if ltb (1 # 2) d then (f + 1)%Z
  else if Z.even f then f else (f + 1)%Z.

(** [round(x, ndigits)] *)
Definition round (x : Q) (ndigits : positive) : Q :=
  Qmake (round_half_even (x * inject_Z (Zpos (10 ^ ndigits)))) (10 ^ ndigits).

(** [str(n)] for an int, as every Python prints one of at most 4300
    digits. *)
Definition str (n : Z) : string := NilZero.string_of_int (Z.to_int n).

(** [s.lower()] on an ASCII string: the letters A to Z are lowered, every
    other byte is kept.  (On a string with other letters Python uses its
    Unicode tables, which are not embedded.) *)
Definition lower_ascii (a : ascii) : ascii :=
  let n := nat_of_ascii a in
  if ((65 <=? n) && (n <=? 90))%nat then ascii_of_nat (n + 32) else a.

Fixpoint lower (s : string) : string :=
  match s with
  | EmptyString => EmptyString
  | String a rest => String (lower_ascii a) (lower rest)
  end.

(** [sub in s] for two strings. *)
Fixpoint contains (sub s : string) : bool :=
  if String.prefix sub s then true
  else match s with
       | EmptyString => false
       | String _ rest => contains sub rest
       end.

(** [s.encode()]: the bytes of the string. *)
Definition encode (s : string) : list Z :=
  map (fun a => Z.of_N (N_of_ascii a)) (list_ascii_of_string s).

End Py.

Notation "x <- m ;; k" := (Py.bind m (fun x => k))
  (at level 61, m at next level, right associativity).

(** ** [hashlib.md5]: the MD5 digest of RFC 1321 on 32-bit words *)

Module Hashlib.

Local Open Scope Z_scope.

Definition u32 (x : Z) : Z := (x mod 2 ^ 32)%Z.

Definition rotl (x c : Z) : Z :=
  u32 (Z.lor (Z.shiftl x c) (Z.shiftr x (32 - c))).

Definition lnot32 (x : Z) : Z := Z.lxor x 0xffffffff.

(** The sine table: [K i = floor (2^32 * |sin (i + 1)|)]. *)
Definition K : list Z :=
  [0xd76aa478; 0xe8c7b756; 0x242070db; 0xc1bdceee;
   0xf57c0faf; 0x4787c62a; 0xa8304613; 0xfd469501;
   0x698098d8; 0x8b44f7af; 0xffff5bb1; 0x895cd7be;
   0x6b901122; 0xfd987193; 0xa679438e; 0x49b40821;
   0xf61e2562; 0xc040b340; 0x265e5a51; 0xe9b6c7aa;
   0xd62f105d; 0x02441453; 0xd8a1e681; 0xe7d3fbc8;
   0x21e1cde6; 0xc33707d6; 0xf4d50d87; 0x455a14ed;
   0xa9e3e905; 0xfcefa3f8; 0x676f02d9; 0x8d2a4c8a;
   0xfffa3942; 0x8771f681; 0x6d9d6122; 0xfde5380c;
   0xa4beea44; 0x4bdecfa9; 0xf6bb4b60; 0xbebfbc70;
   0x289b7ec6; 0xeaa127fa; 0xd4ef3085; 0x04881d05;
   0xd9d4d039; 0xe6db99e5; 0x1fa27cf8; 0xc4ac5665;
   0xf4292244; 0x432aff97; 0xab9423a7; 0xfc93a039;
   0x655b59c3; 0x8f0ccc92; 0xffeff47d; 0x85845dd1;
   0x6fa87e4f; 0xfe2ce6e0; 0xa3014314; 0x4e0811a1;
   0xf7537e82; 0xbd3af235; 0x2ad7d2bb; 0xeb86d391]%Z.

(** The rotation amount of each of the 64 operations. *)
Definition shifts : list Z :=
  [7; 12; 17; 22; 7; 12; 17; 22; 7; 12; 17; 22; 7; 12; 17; 22;
   5; 9; 14; 20; 5; 9; 14; 20; 5; 9; 14; 20; 5; 9; 14; 20;
   4; 11; 16; 23; 4; 11; 16; 23; 4; 11; 16; 23; 4; 11; 16; 23;
   6; 10; 15; 21; 6; 10; 15; 21; 6; 10; 15; 21; 6; 10; 15; 21]%Z.

(** The [n] low bytes of [x], least significant first. *)
Definition le_bytes (n : nat) (x : Z) : list Z :=
  map (fun i => Z.land (Z.shiftr x (8 * Z.of_nat i)) 0xff) (seq 0 n).

(** Padding: a 1 bit, zeros up to 56 mod 64, the bit length on 64 bits. *)
Definition pad (msg : list Z) : list Z :=
  let len := Z.of_nat (length msg) in
  let zeros := Z.to_nat ((55 - len) mod 64) in
  msg ++ [0x80%Z] ++ repeat 0%Z zeros ++ le_bytes 8 ((8 * len) mod 2 ^ 64).

Fixpoint words (bs : list Z) : list Z :=
  match bs with
  | b0 :: b1 :: b2 :: b3 :: rest =>
      (b0 + Z.shiftl b1 8 + Z.shiftl b2 16 + Z.shiftl b3 24)%Z :: words rest
  | _ => []
  end.

Definition registers : Type := Z * Z * Z * Z.

Definition operation (M : list Z) (st : registers) (i : nat) : registers :=
  let '(A, B, C, D) := st in
  let iz := Z.of_nat i in
  let '(F, g) :=
    if (iz <? 16)%Z then
      (Z.lor (Z.land B C) (Z.land (lnot32 B) D), iz)
    else if (iz <? 32)%Z then
      (Z.lor (Z.land D B) (Z.land (lnot32 D) C), ((5 * iz + 1) mod 16)%Z)
    else if (iz <? 48)%Z then
      (Z.lxor (Z.lxor B C) D, ((3 * iz + 5) mod 16)%Z)
    else
      (Z.lxor C (Z.lor B (lnot32 D)), ((7 * iz) mod 16)%Z) in
  let F := u32 (F + A + nth i K 0 + nth (Z.to_nat g) M 0) in
  (D, u32 (B + rotl F (nth i shifts 0%Z)), B, C).

Definition block (st : registers) (M : list Z) : registers :=
  let '(a0, b0, c0, d0) := st in
  let '(A, B, C, D) := fold_left (operation M) (seq 0 64) st in
  (u32 (a0 + A), u32 (b0 + B), u32 (c0 + C), u32 (d0 + D)).

Fixpoint blocks (fuel : nat) (ws : list Z) : list (list Z) :=
  match fuel, ws with
  | O, _ => []
  | _, [] => []
  | S fuel', _ => firstn 16 ws :: blocks fuel' (skipn 16 ws)
  end.

(** [hashlib.md5(msg).digest()] *)
Definition md5 (msg : list Z) : list Z :=
  let ws := words (pad msg) in
  let '(a, b, c, d) :=
    fold_left block (blocks (length ws) ws)
      (0x67452301, 0xefcdab89, 0x98badcfe, 0x10325476)%Z in
  le_bytes 4 a ++ le_bytes 4 b ++ le_bytes 4 c ++ le_bytes 4 d.

Definition hex_digit (n : Z) : ascii :=
  nth (Z.to_nat n) (list_ascii_of_string "0123456789abcdef") "0"%char.

(** [.hexdigest()]: two lowercase hexadecimal digits per byte. *)
Fixpoint hexdigest (bs : list Z) : string :=
  match bs with
  | [] => EmptyString
  | b :: rest =>
      String (hex_digit (Z.shiftr b 4))
        (String (hex_digit (Z.land b 0xf)) (hexdigest rest))
  end.

Definition hex_value (a : ascii) : Z :=
  let n := Z.of_N (N_of_ascii a) in
  if ((48 <=? n) && (n <=? 57))%Z then (n - 48)%Z
  else if ((97 <=? n) && (n <=? 102))%Z then (n - 87)%Z
  else (n - 55)%Z.

(** [int(s, 16)] on a string of hexadecimal digits. *)
Definition int16 (s : string) : Z :=
  fold_left (fun acc a => (16 * acc + hex_value a)%Z) (list_ascii_of_string s) 0%Z.

End Hashlib.

(** ** The [random] module: MT19937 as CPython seeds and reads it *)

Module Random.

Local Open Scope Z_scope.

Definition N : nat := 624.
Definition M : nat := 397.
Definition MATRIX_A : Z := 0x9908b0df.
Definition UPPER_MASK : Z := 0x80000000.
Definition LOWER_MASK : Z := 0x7fffffff.

Definition u32 (x : Z) : Z := (x mod 2 ^ 32)%Z.

(** [mt[i] = v] *)
Fixpoint store (i : nat) (v : Z) (mt : list Z) : list Z :=
  match mt, i with
  | [], _ => []
  | _ :: rest, O => v :: rest
  | w :: rest, S j => w :: store j v rest
  end.

(** The generator: the 624 state words and the position of the next one. *)
Record state : Type := mk_state { mt : list Z; pos : nat }.

Fixpoint init_loop (n : nat) (mti : Z) (prev : Z) : list Z :=
  match n with
  | O => []
  | S n' =>
      let x := u32 (1812433253 * Z.lxor prev (Z.shiftr prev 30) + mti) in
      x :: init_loop n' (mti + 1)%Z x
  end.

Definition init_genrand (s : Z) : state :=
  mk_state (u32 s :: init_loop (N - 1) 1 (u32 s)) N.

(** One turn of the first loop of [init_by_array]. *)
Definition key_step (key : list Z) (acc : list Z * nat * nat) (_ : nat)
  : list Z * nat * nat :=
  let '(mt, i, j) := acc in
  let prev := nth (i - 1) mt 0%Z in
  let v := u32 (Z.lxor (nth i mt 0) (Z.lxor prev (Z.shiftr prev 30) * 1664525)
                + nth j key 0 + Z.of_nat j) in
  let mt := store i v mt in
  let i := S i in
  let j := S j in
  let '(mt, i) :=
    if (N <=? i)%nat then (store 0 (nth (N - 1) mt 0%Z) mt, 1%nat)
    else (mt, i) in
  let j := if (length key <=? j)%nat then O else j in
  (mt, i, j).

(** One turn of its second loop. *)
Definition mix_step (acc : list Z * nat) (_ : nat) : list Z * nat :=
  let '(mt, i) := acc in
  let prev := nth (i - 1) mt 0%Z in
  let v := u32 (Z.lxor (nth i mt 0) (Z.lxor prev (Z.shiftr prev 30) * 1566083941)
                - Z.of_nat i) in
  let mt := store i v mt in
  let i := S i in
  if (N <=? i)%nat then (store 0 (nth (N - 1) mt 0%Z) mt, 1%nat) else (mt, i).

Definition init_by_array (key : list Z) : state :=
  let s := init_genrand 19650218 in
  let k := Nat.max N (length key) in
  let '(mt1, i, _) := fold_left (key_step key) (seq 0 k) (mt s, 1%nat, O) in
  let '(mt2, _) := fold_left mix_step (seq 0 (N - 1)) (mt1, i) in
  mk_state (store 0 0x80000000%Z mt2) N.

(** The 32-bit digits of the absolute value of the seed, low digit first. *)
Fixpoint key_words (fuel : nat) (n : Z) : list Z :=
  match fuel with
  | O => []
  | S fuel' =>
      if (n <? 2 ^ 32)%Z then [n]
      else Z.land n 0xffffffff :: key_words fuel' (Z.shiftr n 32)
  end.

(** [random.seed(a)] for an int [a]. *)
Definition seed (a : Z) : state :=
  let n := Z.abs a in
  init_by_array (key_words (S (Z.to_nat (Z.log2 n))) n).

(** The regeneration of word [kk], in place. *)
Definition twist_step (mt : list Z) (kk : nat) : list Z :=
  let y := Z.lor (Z.land (nth kk mt 0) UPPER_MASK)
                 (Z.land (nth ((kk + 1) mod N) mt 0) LOWER_MASK) in
  let mag := if Z.odd y then MATRIX_A else 0%Z in
  store kk (Z.lxor (Z.lxor (nth ((kk + M) mod N) mt 0) (Z.shiftr y 1)) mag) mt.

Definition genrand_uint32 (s : state) : Z * state :=
  let s := if (N <=? pos s)%nat
           then mk_state (fold_left twist_step (seq 0 N) (mt s)) 0
           else s in
  let y := u32 (nth (pos s) (mt s) 0) in
  let y := u32 (Z.lxor y (Z.shiftr y 11)) in
  let y := u32 (Z.lxor y (Z.land (Z.shiftl y 7) 0x9d2c5680)) in
  let y := u32 (Z.lxor y (Z.land (Z.shiftl y 15) 0xefc60000)) in
  let y := u32 (Z.lxor y (Z.shiftr y 18)) in
  (y, mk_state (mt s) (S (pos s))).

(** [random.random()]: 53 random bits over 2^53. *)
Definition random (s : state) : Q * state :=
  let '(y1, s) := genrand_uint32 s in
  let '(y2, s) := genrand_uint32 s in
  let a := Z.shiftr y1 5 in
  let b := Z.shiftr y2 6 in
  ((inject_Z (a * 67108864 + b) / 9007199254740992)%Q, s).

(** [random.uniform(a, b)] is [a + (b - a) * random()]. *)
Definition uniform (a b : Q) (s : state) : Q * state :=
  let '(r, s) := random s in
  ((a + (b - a) * r)%Q, s).

End Random.

(** ** The conditions and the result *)

(** The [conditions] dict: one optional field per key. *)
Record Conditions : Type := mk_conditions {
  vehicle_type : option string;
  driver_age : option Z;
  experience : option Z;
  license_valid : option string;
  seatbelt : option string;
  weather : option string;
  road_surface : option string;
  visibility : option string;
  light_condition : option string;
  road_type : option string;
  road_design : option string;
  traffic_volume : option string;
  speed_limit : option Z;
  current_speed : option Z;
  time_of_day : option string;
  is_weekend : option bool;
  area_type : option string;
  overtaking : option string;
  alcohol : option string;
  phone_usage : option string;
  accident_history : option Z
}.

Definition present {A : Type} (field : option A) : nat :=
  match field with
  | Some _ => 1
  | None => 0
  end.

(** [len(conditions)]: the number of keys that are there. *)
Definition len (c : Conditions) : nat :=
  (present (vehicle_type c) + present (driver_age c) + present (experience c)
   + present (license_valid c) + present (seatbelt c) + present (weather c)
   + present (road_surface c) + present (visibility c)
   + present (light_condition c) + present (road_type c)
   + present (road_design c) + present (traffic_volume c)
   + present (speed_limit c) + present (current_speed c)
   + present (time_of_day c) + present (is_weekend c) + present (area_type c)
   + present (overtaking c) + present (alcohol c) + present (phone_usage c)
   + present (accident_history c))%nat.

Record Probabilities : Type := mk_probabilities {
  low : Q;
  medium : Q;
  high : Q
}.

Record ModelInfo : Type := mk_model_info {
  model_type : string;
  accuracy : string;
  features_analyzed : nat
}.

(** The dict returned when nothing was raised (['success': True]). *)
Record Prediction : Type := mk_prediction {
  location : string;
  timestamp : string;
  predicted_severity : string;
  severity_code : Z;
  confidence : Q;
  risk_score : Q;
  probabilities : Probabilities;
  color : string;
  recommendations : list string;
  risk_factors : list string;
  model_info : ModelInfo
}.

(** What [predict_accident_risk] returns: the prediction, or the dict with
    ['success': False], an error text and the location. *)
Inductive Result : Type :=
| Success (p : Prediction)
| Failure (error : string) (location : string).

(** ** [SmartAccidentPredictor] *)

Module SmartAccidentPredictor.

Import Py.

(** [self.risk_weights], one definition per entry. *)
Module risk_weights.

Definition vehicle_type : dict Q :=
  [("Car", 0.2); ("Bike", 0.7); ("Truck", 0.5); ("Bus", 0.4);
   ("Auto-rickshaw", 0.6)].
Definition driver_age : dict Q :=
  [("under_25", 0.6); ("25_40", 0.2); ("40_60", 0.1); ("over_60", 0.4)].
Definition experience : dict Q :=
  [("under_2", 0.7); ("2_5", 0.4); ("5_10", 0.2); ("over_10", 0.1)].
Definition license_valid : dict Q := [("yes", 0.0); ("no", 0.8)].
Definition seatbelt : dict Q := [("yes", 0.0); ("no", 0.6)].
Definition weather : dict Q :=
  [("Clear", 0.1); ("Rainy", 0.6); ("Foggy", 0.8); ("Snowy", 0.9);
   ("Stormy", 1.0)].
Definition road_surface : dict Q :=
  [("Dry", 0.1); ("Wet", 0.5); ("Icy", 0.9); ("Muddy", 0.7)].
Definition visibility : dict Q :=
  [("high", 0.1); ("medium", 0.4); ("low", 0.8)].
Definition light_condition : dict Q :=
  [("Daylight", 0.1); ("Night_with_lights", 0.4);
   ("Night_without_lights", 0.7)].
Definition road_type : dict Q :=
  [("Highway", 0.6); ("City_Road", 0.3); ("Rural_Road", 0.5)].
Definition road_design : dict Q :=
  [("Straight", 0.2); ("Curved", 0.5); ("Junction", 0.8);
   ("Roundabout", 0.4)].
Definition traffic_volume : dict Q :=
  [("Low", 0.2); ("Medium", 0.4); ("High", 0.7)].
Definition speed_factor : Q := 0.01.
Definition time_of_day : dict Q :=
  [("Morning", 0.3); ("Afternoon", 0.2); ("Evening", 0.5); ("Night", 0.6)].
Definition day_of_week : dict Q := [("weekday", 0.3); ("weekend", 0.5)].
Definition area_type : dict Q :=
  [("Urban", 0.4); ("Suburban", 0.3); ("Rural", 0.5)].
Definition overtaking : dict Q := [("yes", 0.7); ("no", 0.0)].
Definition alcohol : dict Q := [("yes", 1.0); ("no", 0.0)].
Definition phone_usage : dict Q := [("yes", 0.8); ("no", 0.0)].
Definition accident_history : Q := 0.1.

End risk_weights.

(** [self.location_risk_base] *)
Definition location_risk_base : dict Q :=
  [("mumbai", 0.6); ("delhi", 0.7); ("bangalore", 0.5); ("chennai", 0.5);
   ("kolkata", 0.6); ("hyderabad", 0.5); ("pune", 0.5); ("ahmedabad", 0.6);
   ("default_urban", 0.5); ("default_rural", 0.4)].

Definition _generate_seed (location : string) (conditions : Conditions) : Z :=
  let seed_string :=
    location ++ "_" ++ get (weather conditions) "" ++ "_"
    ++ get (time_of_day conditions) "" ++ "_"
    ++ get (road_type conditions) "" in
  Hashlib.int16
    (substring 0 8 (Hashlib.hexdigest (Hashlib.md5 (encode seed_string)))).

(** The loop over the cities: the first key found in the location wins. *)
Fixpoint first_city (d : dict Q) (location_lower : string) : option Q :=
  match d with
  | [] => None
  | (city, risk) :: rest =>
      if contains city location_lower then Some risk
      else first_city rest location_lower
  end.

Definition urban_keywords : list string :=
  ["city"; "metro"; "downtown"; "central"; "commercial"].
Definition rural_keywords : list string :=
  ["village"; "countryside"; "rural"; "outskirts"].

Definition _get_location_risk (location : string) : exc Q :=
  let location_lower := lower location in
  match first_city location_risk_base location_lower with
  | Some risk => Return risk
  | None =>
      if existsb (fun keyword => contains keyword location_lower) urban_keywords
      then index location_risk_base "default_urban"
      else if existsb (fun keyword => contains keyword location_lower)
                rural_keywords
      then index location_risk_base "default_rural"
      else Return 0.45
  end.

Definition _calculate_age_risk (age : Z) : string :=
  if (age <? 25)%Z then "under_25"
  else if (age <=? 40)%Z then "25_40"
  else if (age <=? 60)%Z then "40_60"
  else "over_60".

Definition _calculate_experience_risk (experience : Z) : string :=
  if (experience <? 2)%Z then "under_2"
  else if (experience <=? 5)%Z then "2_5"
  else if (experience <=? 10)%Z then "5_10"
  else "over_10".

Definition _calculate_speed_risk (current_speed speed_limit : Z) : exc Q :=
  if (current_speed <=? speed_limit)%Z then Return 0.0
  else
    let speed_over := (current_speed - speed_limit)%Z in
    speed_over <- float_of_int speed_over ;;
    Return (min (speed_over * risk_weights.speed_factor) 1.0).

(** [conditions[key]] *)
Definition item {A : Type} (field : option A) (key : string) : exc A :=
  match field with
  | Some v => Return v
  | None => Raise (KeyError key)
  end.

(** [predict_accident_risk] is embedded block by block, in the order of its
    body; the blocks are put together in [predict_accident_risk] below. *)

(** The accumulation of [total_risk], from the base risk of the location to
    the accident history. *)
Definition total_risk (location : string) (conditions : Conditions) : exc Q :=
  total_risk <- _get_location_risk location ;;
  let vehicle_type := get (vehicle_type conditions) "Car" in
  let total_risk :=
    total_risk + dict_get risk_weights.vehicle_type vehicle_type 0.3 in
  let driver_age := get (driver_age conditions) 30%Z in
  let age_category := _calculate_age_risk driver_age in
  w <- index risk_weights.driver_age age_category ;;
  let total_risk := total_risk + w in
  let experience := get (experience conditions) 5%Z in
  let exp_category := _calculate_experience_risk experience in
  w <- index risk_weights.experience exp_category ;;
  let total_risk := total_risk + w in
  let license_valid := get (license_valid conditions) "yes" in
  w <- index risk_weights.license_valid license_valid ;;
  let total_risk := total_risk + w in
  let seatbelt := get (seatbelt conditions) "yes" in
  w <- index risk_weights.seatbelt seatbelt ;;
  let total_risk := total_risk + w in
  let weather := get (weather conditions) "Clear" in
  let total_risk := total_risk + dict_get risk_weights.weather weather 0.3 in
  let road_surface := get (road_surface conditions) "Dry" in
  w <- index risk_weights.road_surface road_surface ;;
  let total_risk := total_risk + w in
  let visibility := get (visibility conditions) "high" in
  w <- index risk_weights.visibility visibility ;;
  let total_risk := total_risk + w in
  let light_condition := get (light_condition conditions) "Daylight" in
  w <- index risk_weights.light_condition light_condition ;;
  let total_risk := total_risk + w in
  let road_type := get (road_type conditions) "City_Road" in
  w <- index risk_weights.road_type road_type ;;
  let total_risk := total_risk + w in
  let road_design := get (road_design conditions) "Straight" in
  w <- index risk_weights.road_design road_design ;;
  let total_risk := total_risk + w in
  let traffic_volume := get (traffic_volume conditions) "Medium" in
  w <- index risk_weights.traffic_volume traffic_volume ;;
  let total_risk := total_risk + w in
  let current_speed := get (current_speed conditions) 40%Z in
  let speed_limit := get (speed_limit conditions) 50%Z in
  r <- _calculate_speed_risk current_speed speed_limit ;;
  let total_risk := total_risk + r in
  let time_of_day := get (time_of_day conditions) "Afternoon" in
  w <- index risk_weights.time_of_day time_of_day ;;
  let total_risk := total_risk + w in
  let is_weekend := get (is_weekend conditions) false in
  let day_type := if is_weekend then "weekend" else "weekday" in
  w <- index risk_weights.day_of_week day_type ;;
  let total_risk := total_risk + w in
  let area_type := get (area_type conditions) "Urban" in
  w <- index risk_weights.area_type area_type ;;
  let total_risk := total_risk + w in
  let overtaking := get (overtaking conditions) "no" in
  w <- index risk_weights.overtaking overtaking ;;
  let total_risk := total_risk + w in
  let alcohol := get (alcohol conditions) "no" in
  w <- index risk_weights.alcohol alcohol ;;
  let total_risk := total_risk + w in
  let phone_usage := get (phone_usage conditions) "no" in
  w <- index risk_weights.phone_usage phone_usage ;;
  let total_risk := total_risk + w in
  let accident_history := get (accident_history conditions) 0%Z in
  accident_history <- float_of_int accident_history ;;
  let total_risk :=
    total_risk + accident_history * risk_weights.accident_history in
  Return total_risk.

(** [normalized_risk]: the total over 8, kept between 5% and 95%. *)
Definition normalize (total_risk : Q) : Q :=
  min (max (total_risk / 8.0) 0.05) 0.95.

(** [final_risk]: the normalized risk times a factor drawn in 0.95..1.05,
    capped at 0.95. *)
Definition jitter (normalized_risk : Q) (rng : Random.state)
  : Q * Random.state :=
  let '(random_factor, rng) := Random.uniform 0.95 1.05 rng in
  (min (normalized_risk * random_factor) 0.95, rng).

(** [severity], [severity_code], [color] and [risk_level]. *)
Definition classify (final_risk : Q) : string * Z * string * string :=
  if ltb final_risk 0.3 then ("Low", 0%Z, "#28a745", "Low Risk")
  else if ltb final_risk 0.6 then ("Medium", 1%Z, "#ffc107", "Medium Risk")
  else ("High", 2%Z, "#dc3545", "High Risk").

(** [prob_low], [prob_medium] and [prob_high] before they are normalized. *)
Definition distribution (severity_code : Z) (final_risk : Q)
    (rng : Random.state) : Q * Q * Q * Random.state :=
  if (severity_code =? 0)%Z then
    let '(u, rng) := Random.uniform 0.4 0.5 rng in
    let prob_low := final_risk + u in
    let '(u, rng) := Random.uniform 0.6 0.8 rng in
    let prob_medium := (1 - prob_low) * u in
    let prob_high := 1 - prob_low - prob_medium in
    (prob_low, prob_medium, prob_high, rng)
  else if (severity_code =? 1)%Z then
    let '(u, rng) := Random.uniform 0.2 0.3 rng in
    let prob_medium := final_risk + u in
    let '(u, rng) := Random.uniform 0.3 0.6 rng in
    let prob_low := (1 - prob_medium) * u in
    let prob_high := 1 - prob_low - prob_medium in
    (prob_low, prob_medium, prob_high, rng)
  else
    let '(u, rng) := Random.uniform 0.1 0.2 rng in
    let prob_high := final_risk + u in
    let '(u, rng) := Random.uniform 0.4 0.7 rng in
    let prob_medium := (1 - prob_high) * u in
    let prob_low := 1 - prob_high - prob_medium in
    (prob_low, prob_medium, prob_high, rng).

(** The division of the three by their sum. *)
Definition normalize_probabilities (prob_low prob_medium prob_high : Q)
  : exc (Q * Q * Q) :=
  let total_prob := prob_low + prob_medium + prob_high in
  prob_low <- div prob_low total_prob ;;
  prob_medium <- div prob_medium total_prob ;;
  prob_high <- div prob_high total_prob ;;
  Return (prob_low, prob_medium, prob_high).

(** [confidence] *)
Definition confidence_score (final_risk : Q) (rng : Random.state)
  : Q * Random.state :=
  let '(u, rng) := Random.uniform 0.1 0.2 rng in
  (min (max (final_risk + u) 0.6) 0.95, rng).

Local Open Scope list_scope.

(** [_generate_recommendations]: the list grows by [append], test after
    test, and is cut to its first six entries at the end. *)
Definition _generate_recommendations (conditions : Conditions)
    (severity_code : Z) : list string :=
  let recommendations := [] in
  let weather := get (weather conditions) "Clear" in
  let recommendations :=
    if mem weather ["Rainy"; "Foggy"; "Snowy"; "Stormy"] then
      (recommendations
       ++ ["🌧️ Reduce speed due to adverse weather conditions"])
      ++ ["🚗 Increase following distance"]
    else recommendations in
  let current_speed := get (current_speed conditions) 0%Z in
  let speed_limit := get (speed_limit conditions) 50%Z in
  let recommendations :=
    if (speed_limit <? current_speed)%Z then
      recommendations
      ++ [("⚠️ Reduce speed to within " ++ str speed_limit ++ " km/h limit")%string]
    else recommendations in
  let light_condition := get (light_condition conditions) "Daylight" in
  let recommendations :=
    if contains "Night" light_condition then
      recommendations ++ ["🌙 Use headlights and drive cautiously at night"]
    else recommendations in
  let vehicle_type := get (vehicle_type conditions) "Car" in
  let recommendations :=
    if String.eqb vehicle_type "Bike" then
      recommendations ++ ["🏍️ Wear helmet and protective gear"]
    else recommendations in
  let seatbelt := get (seatbelt conditions) "yes" in
  let recommendations :=
    if String.eqb seatbelt "no" then
      recommendations ++ ["🔒 Always wear seatbelt for safety"]
    else recommendations in
  let recommendations :=
    if String.eqb (get (alcohol conditions) "no") "yes" then
      recommendations ++ ["🚫 Never drive under influence of alcohol"]
    else recommendations in
  let recommendations :=
    if String.eqb (get (phone_usage conditions) "no") "yes" then
      recommendations ++ ["📱 Avoid phone usage while driving"]
    else recommendations in
  let recommendations :=
    if (2 <=? severity_code)%Z then
      (recommendations ++ ["⚠️ Consider postponing travel if possible"])
      ++ ["🚨 Extra caution required - high risk conditions"]
    else if (severity_code =? 1)%Z then
      recommendations ++ ["⚡ Drive with increased attention"]
    else recommendations in
  firstn 6 recommendations.

(** [_identify_risk_factors] *)
Definition _identify_risk_factors (conditions : Conditions)
  : exc (list string) :=
  let risk_factors := [] in
  risk_factors <-
    (if negb (String.eqb (get (weather conditions) "Clear") "Clear") then
       w <- item (weather conditions) "weather" ;;
       Return (risk_factors ++ [("Weather: " ++ w)%string])
     else Return risk_factors) ;;
  risk_factors <-
    (if negb (String.eqb (get (road_surface conditions) "Dry") "Dry") then
       s <- item (road_surface conditions) "road_surface" ;;
       Return (risk_factors ++ [("Road Surface: " ++ s)%string])
     else Return risk_factors) ;;
  let risk_factors :=
    if negb (String.eqb (get (visibility conditions) "high") "high")
    then risk_factors ++ ["Poor Visibility"] else risk_factors in
  let risk_factors :=
    if contains "Night" (get (light_condition conditions) "Daylight")
    then risk_factors ++ ["Night Driving"] else risk_factors in
  let risk_factors :=
    if String.eqb (get (traffic_volume conditions) "Low") "High"
    then risk_factors ++ ["Heavy Traffic"] else risk_factors in
  let current_speed := get (current_speed conditions) 0%Z in
  let speed_limit := get (speed_limit conditions) 50%Z in
  let risk_factors :=
    if (speed_limit <? current_speed)%Z
    then risk_factors ++ ["Speeding"] else risk_factors in
  risk_factors <-
    (if mem (get (road_design conditions) "Straight") ["Junction"; "Curved"]
     then
       d <- item (road_design conditions) "road_design" ;;
       Return (risk_factors ++ [("Road Design: " ++ d)%string])
     else Return risk_factors) ;;
  let risk_factors :=
    if (get (driver_age conditions) 30 <? 25)%Z
    then risk_factors ++ ["Young Driver"] else risk_factors in
  let risk_factors :=
    if (get (experience conditions) 5 <? 2)%Z
    then risk_factors ++ ["Inexperienced Driver"] else risk_factors in
  Return risk_factors.

(** [predict_accident_risk].  The generator is seeded first and read four
    times; [np.random.seed] seeds a generator that is never read.  Whatever
    is raised inside the [try] becomes the failure result. *)
Definition predict_accident_risk (now : string) (location : string)
    (conditions : Conditions) : Result :=
  let body :=
    let seed := _generate_seed location conditions in
    let rng := Random.seed seed in
    total_risk <- total_risk location conditions ;;
    let normalized_risk := normalize total_risk in
    let '(final_risk, rng) := jitter normalized_risk rng in
    let '(severity, severity_code, color, risk_level) := classify final_risk in
    let '(prob_low, prob_medium, prob_high, rng) :=
      distribution severity_code final_risk rng in
    probs <- normalize_probabilities prob_low prob_medium prob_high ;;
    let '(prob_low, prob_medium, prob_high) := probs in
    let '(confidence, rng) := confidence_score final_risk rng in
    let recommendations :=
      _generate_recommendations conditions severity_code in
    risk_factors <- _identify_risk_factors conditions ;;
    Return {|
      location := location;
      timestamp := now;
      predicted_severity := risk_level;
      severity_code := severity_code;
      confidence := round confidence 3;
      risk_score := round (final_risk * 100) 1;
      probabilities := {|
        low := round prob_low 3;
        medium := round prob_medium 3;
        high := round prob_high 3
      |};
      color := color;
      recommendations := recommendations;
      risk_factors := risk_factors;
      model_info := {|
        model_type := "Advanced ML Ensemble";
        accuracy := "94.7%";
        features_analyzed := len conditions
      |}
    |} in
  match body with
  | Return result => Success result
  | Raise e => Failure "Prediction calculation failed" location
  end.

End SmartAccidentPredictor.

(** ** Vocabulary of the properties *)

Import Py SmartAccidentPredictor.

(** The thirteen fields that are looked up with [table[value]]. *)
Inductive exact_field : Type :=
| License_valid | Seatbelt | Road_surface | Visibility | Light_condition
| Road_type | Road_design | Traffic_volume | Time_of_day | Area_type
| Overtaking | Alcohol | Phone_usage.

Definition exact_fields : list exact_field :=
  [License_valid; Seatbelt; Road_surface; Visibility; Light_condition;
   Road_type; Road_design; Traffic_volume; Time_of_day; Area_type;
   Overtaking; Alcohol; Phone_usage].

(** The value [total_risk] reads for a field: the one of the dict, or the
    default of the [get] at that place. *)
Definition value_of (f : exact_field) (c : Conditions) : string :=
  match f with
  | License_valid => get (license_valid c) "yes"
  | Seatbelt => get (seatbelt c) "yes"
  | Road_surface => get (road_surface c) "Dry"
  | Visibility => get (visibility c) "high"
  | Light_condition => get (light_condition c) "Daylight"
  | Road_type => get (road_type c) "City_Road"
  | Road_design => get (road_design c) "Straight"
  | Traffic_volume => get (traffic_volume c) "Medium"
  | Time_of_day => get (time_of_day c) "Afternoon"
  | Area_type => get (area_type c) "Urban"
  | Overtaking => get (overtaking c) "no"
  | Alcohol => get (alcohol c) "no"
  | Phone_usage => get (phone_usage c) "no"
  end.

Definition table_of (f : exact_field) : dict Q :=
  match f with
  | License_valid => risk_weights.license_valid
  | Seatbelt => risk_weights.seatbelt
  | Road_surface => risk_weights.road_surface
  | Visibility => risk_weights.visibility
  | Light_condition => risk_weights.light_condition
  | Road_type => risk_weights.road_type
  | Road_design => risk_weights.road_design
  | Traffic_volume => risk_weights.traffic_volume
  | Time_of_day => risk_weights.time_of_day
  | Area_type => risk_weights.area_type
  | Overtaking => risk_weights.overtaking
  | Alcohol => risk_weights.alcohol
  | Phone_usage => risk_weights.phone_usage
  end.

(** The enumerated domain of a field: the keys of its table. *)
Definition domain (f : exact_field) : list string := keys (table_of f).

Definition in_domain (f : exact_field) (c : Conditions) : bool :=
  mem (value_of f c) (domain f).

(** Every exactly looked up field is within its domain. *)
Definition scorable (c : Conditions) : bool :=
  forallb (fun f => in_domain f c) exact_fields.

(** The values the interface lists for the two fields that fall back. *)
Definition vehicle_types : list string :=
  ["Car"; "Bike"; "Truck"; "Bus"; "Auto-rickshaw"; "Bicycle"].
Definition weather_conditions : list string :=
  ["Clear"; "Rainy"; "Foggy"; "Snowy"; "Stormy"; "Hazy"].

(** A valid input: every categorical field within its enumerated domain and
    every numeric field a non-negative integer. *)
Definition valid_conditions (c : Conditions) : bool :=
  scorable c
  && mem (get (vehicle_type c) "Car") vehicle_types
  && mem (get (weather c) "Clear") weather_conditions
  && (0 <=? get (driver_age c) 30)%Z
  && (0 <=? get (experience c) 5)%Z
  && (0 <=? get (speed_limit c) 50)%Z
  && (0 <=? get (current_speed c) 40)%Z
  && (0 <=? get (accident_history c) 0)%Z.

(** An integer that a float can hold: [float_of_int] returns on it. *)
Definition fits_float (n : Z) : bool := (Z.abs n <? float_limit)%Z.

(** The two integers of the dict that meet a float, the excess of the speed
    over the limit (when there is one) and the accident history, are ones a
    float can hold. *)
Definition speed_fits (c : Conditions) : bool :=
  (get (current_speed c) 40 <=? get (speed_limit c) 50)%Z
  || fits_float (get (current_speed c) 40 - get (speed_limit c) 50)%Z.

Definition numbers_fit (c : Conditions) : bool :=
  speed_fits c && fits_float (get (accident_history c) 0%Z).

(** The limit of speed, where a recommendation prints it (the speed it
    reads is over the limit), has at most 4300 digits: from Python 3.11 on
    a longer integer is not printed, and the f-string raises
    [ValueError]. *)
Definition limit_prints (c : Conditions) : bool :=
  (get (current_speed c) 0 <=? get (speed_limit c) 50)%Z
  || (Z.abs (get (speed_limit c) 50) <? 10 ^ 4300)%Z.

(** The integers of the dict are ones the call computes with and prints, on
    every Python. *)
Definition plain_numbers (c : Conditions) : bool :=
  numbers_fit c && limit_prints c.

(** A string of ASCII bytes only. *)
Fixpoint is_ascii (s : string) : bool :=
  match s with
  | EmptyString => true
  | String a rest => (nat_of_ascii a <? 128)%nat && is_ascii rest
  end.




Definition with_current_speed (s : option Z) (c : Conditions) : Conditions :=
  mk_conditions (vehicle_type c) (driver_age c) (experience c)
    (license_valid c) (seatbelt c) (weather c) (road_surface c)
    (visibility c) (light_condition c) (road_type c) (road_design c)
    (traffic_volume c) (speed_limit c) s (time_of_day c) (is_weekend c)
    (area_type c) (overtaking c) (alcohol c) (phone_usage c)
    (accident_history c).

Definition with_alcohol (a : option string) (c : Conditions) : Conditions :=
  mk_conditions (vehicle_type c) (driver_age c) (experience c)
    (license_valid c) (seatbelt c) (weather c) (road_surface c)
    (visibility c) (light_condition c) (road_type c) (road_design c)
    (traffic_volume c) (speed_limit c) (current_speed c) (time_of_day c)
    (is_weekend c) (area_type c) (overtaking c) a (phone_usage c)
    (accident_history c).

Definition with_accident_history (h : option Z) (c : Conditions) : Conditions :=
  mk_conditions (vehicle_type c) (driver_age c) (experience c)
    (license_valid c) (seatbelt c) (weather c) (road_surface c)
    (visibility c) (light_condition c) (road_type c) (road_design c)
    (traffic_volume c) (speed_limit c) (current_speed c) (time_of_day c)
    (is_weekend c) (area_type c) (overtaking c) (alcohol c) (phone_usage c)
    h.

(** The empty dict: every field is read at its default. *)
Definition no_conditions : Conditions :=
  mk_conditions None None None None None None None None None None None None
    None None None None None None None None None.

(** The conditions of [AccidentPredictor.test_prediction] (app/predictor.py). *)
Definition test_conditions : Conditions := {|
  vehicle_type := Some "Car";
  driver_age := Some 28%Z;
  experience := Some 5%Z;
  license_valid := Some "yes";
  seatbelt := Some "yes";
  weather := Some "Clear";
  road_surface := Some "Dry";
  visibility := Some "high";
  light_condition := Some "Daylight";
  road_type := Some "City_Road";
  road_design := Some "Straight";
  traffic_volume := Some "Medium";
  speed_limit := Some 60%Z;
  current_speed := Some 55%Z;
  time_of_day := Some "Afternoon";
  is_weekend := Some false;
  area_type := Some "Urban";
  overtaking := Some "no";
  alcohol := Some "no";
  phone_usage := Some "no";
  accident_history := Some 1%Z
|}.

(** Every entry of a dict of weights lies between [lo] and [hi]. *)
Definition within (lo hi : Q) (d : dict Q) : bool :=
  forallb (fun kv => leb lo (snd kv) && leb (snd kv) hi) d.

(** The generator as [predict_accident_risk] seeds it. *)
Definition generator (location : string) (c : Conditions) : Random.state :=
  Random.seed (_generate_seed location c).

(** [final_risk], the risk after the jitter, for a given [total_risk]. *)
Definition final_risk (location : string) (c : Conditions) (total : Q) : Q :=
  fst (jitter (normalize total) (generator location c)).

(** The three probabilities as they are before [round(_, 3)]. *)
Definition unrounded_probabilities (location : string) (c : Conditions)
    (total : Q) : exc (Q * Q * Q) :=
  let '(final_risk, rng) := jitter (normalize total) (generator location c) in
  let '(_, severity_code, _, _) := classify final_risk in
  let '(prob_low, prob_medium, prob_high, _) :=
    distribution severity_code final_risk rng in
  normalize_probabilities prob_low prob_medium prob_high.

(** The checklist of recommendations as the specification words it: the
    tests in their fixed order, each with the strings it contributes. *)
Definition checklist (c : Conditions) (severity_code : Z)
  : list (bool * list string) :=
  let limit := get (speed_limit c) 50%Z in
  [ (* adverse weather *)
    (mem (get (weather c) "Clear") ["Rainy"; "Foggy"; "Snowy"; "Stormy"],
     ["🌧️ Reduce speed due to adverse weather conditions";
      "🚗 Increase following distance"]);
    (* speeding *)
    ((limit <? get (current_speed c) 0)%Z,
     [("⚠️ Reduce speed to within " ++ str limit ++ " km/h limit")%string]);
    (* night driving *)
    (contains "Night" (get (light_condition c) "Daylight"),
     ["🌙 Use headlights and drive cautiously at night"]);
    (* two-wheeler gear *)
    (String.eqb (get (vehicle_type c) "Car") "Bike",
     ["🏍️ Wear helmet and protective gear"]);
    (* no seatbelt *)
    (String.eqb (get (seatbelt c) "yes") "no",
     ["🔒 Always wear seatbelt for safety"]);
    (* alcohol *)
    (String.eqb (get (alcohol c) "no") "yes",
     ["🚫 Never drive under influence of alcohol"]);
    (* phone usage *)
    (String.eqb (get (phone_usage c) "no") "yes",
     ["📱 Avoid phone usage while driving"]);
    (* closing remarks, by severity *)
    ((2 <=? severity_code)%Z,
     ["⚠️ Consider postponing travel if possible";
      "🚨 Extra caution required - high risk conditions"]);
    (negb (2 <=? severity_code)%Z && (severity_code =? 1)%Z,
     ["⚡ Drive with increased attention"]) ].

(** The strings of the first matches of a checklist, [n] at most. *)
Definition first_matches (n : nat) (cl : list (bool * list string))
  : list string :=
  firstn n (concat (map snd (filter fst cl))).

(** The warning [_generate_recommendations] gives for alcohol. *)
Definition alcohol_warning : string :=
  "🚫 Never drive under influence of alcohol".

(** An entry that mentions alcohol. *)
Definition alcohol_related (entry : string) : bool :=
  contains "lcohol" entry.

(** A valid input with every risk present. *)
Definition reckless_conditions : Conditions := {|
  vehicle_type := Some "Bike";
  driver_age := Some 22%Z;
  experience := Some 1%Z;
  license_valid := Some "no";
  seatbelt := Some "no";
  weather := Some "Stormy";
  road_surface := Some "Wet";
  visibility := Some "low";
  light_condition := Some "Night_without_lights";
  road_type := Some "Highway";
  road_design := Some "Junction";
  traffic_volume := Some "High";
  speed_limit := Some 60%Z;
  current_speed := Some 120%Z;
  time_of_day := Some "Night";
  is_weekend := Some true;
  area_type := Some "Rural";
  overtaking := Some "yes";
  alcohol := Some "yes";
  phone_usage := Some "yes";
  accident_history := Some 3%Z
|}.

(** ** [AccidentPredictor] of app/predictor.py *)

(** A [datetime], as far as the code reads it: [.hour], [.month],
    [.weekday()] and [.isoformat()]. *)
Record datetime : Type := mk_datetime {
  hour : Z;
  month : Z;
  weekday : Z;
  isoformat : string
}.

(** The clock is the sequence of the readings still to come; [datetime.now()]
    takes the first one. *)
Definition clock : Type := nat -> datetime.

Definition datetime_now (k : clock) : datetime * clock :=
  (k O, fun n => k (S n)).

(** The value of [x ** 0.5] for a float [x] that is a sum of squares: the
    square root of [x], kept as its radicand and compared through it;
    [float('inf')] is [Inf].  Two distances are compared as exact numbers:
    the last bits of the binary64 values, which decide between distances
    that differ by a rounding error, are not modelled. *)
Inductive distance : Type :=
| Root (radicand : Q)
| Inf.

(** [d1 < d2] between two distances. *)
Definition distance_ltb (d1 d2 : distance) : bool :=
  match d1, d2 with
  | Root a, Root b => ltb a b
  | Root _, Inf => true
  | Inf, _ => false
  end.

(** [d < r] for a distance and a non-negative literal. *)
Definition distance_below (d : distance) (r : Q) : bool :=
  match d with
  | Root a => ltb a (r * r)
  | Inf => false
  end.

(** [((lat - city_lat) ** 2 + (lon - city_lon) ** 2) ** 0.5]: each square
    raises [OverflowError] when it leaves the range of the floats; their sum
    is [inf] when it does, and so is its root. *)
Definition distance_to (lat lon city_lat city_lon : Q) : exc distance :=
  a <- square (lat - city_lat) ;;
  b <- square (lon - city_lon) ;;
  Return (if ltb (a + b) (inject_Z float_limit) then Root (a + b) else Inf).

(** The dict [predict_comprehensive_risk] builds on a success. *)
Module Formatted.

Record Location : Type := mk_location {
  address : string;
  risk_zone : bool
}.

Record Probabilities : Type := mk_probabilities {
  slight : Q;
  serious : Q;
  fatal : Q
}.

Record DebugInfo : Type := mk_debug_info {
  original_probabilities : list Q;
  prediction_raw : Z;
  features_analyzed : nat;
  model_version : string;
  ensemble_components : list string
}.

Record Prediction : Type := mk_prediction {
  location : Location;
  timestamp : string;
  predicted_severity : string;
  severity_code : Z;
  confidence : Q;
  risk_score : Q;
  probabilities : Probabilities;
  risk_level : string;
  color : string;
  recommendations : list string;
  risk_factors : list string;
  model_classes : Z;
  debug_info : DebugInfo
}.

End Formatted.

Module AccidentPredictor.

(** What [predict_comprehensive_risk] returns: the formatted dict, or the
    failure dict of the engine as it is. *)
Inductive Response : Type :=
| Formatted_result (p : Formatted.Prediction)
| Engine_failure (error : string) (location : string).

(** [predict_comprehensive_risk].  The engine reads the clock while it
    builds the dict of a success, and not at all when it fails: the reading
    is taken from the clock on a success only.  On the dicts the engine
    returns every key the body indexes is there, so its own [except] branch
    is never entered and is left out. *)
Definition predict_comprehensive_risk (location : string)
    (conditions : Conditions) (k : clock) : Response * clock :=
  let '(t, after) := datetime_now k in
  let result := predict_accident_risk (isoformat t) location conditions in
  match result with
  | Success result =>
      (Formatted_result {|
         Formatted.location := {|
           Formatted.address := location;
           Formatted.risk_zone := ltb 70 (risk_score result)
         |};
         Formatted.timestamp := timestamp result;
         Formatted.predicted_severity := predicted_severity result;
         Formatted.severity_code := severity_code result;
         Formatted.confidence := confidence result;
         Formatted.risk_score := risk_score result;
         Formatted.probabilities := {|
           Formatted.slight := low (probabilities result);
           Formatted.serious := medium (probabilities result);
           Formatted.fatal := high (probabilities result)
         |};
         Formatted.risk_level := predicted_severity result;
         Formatted.color := color result;
         Formatted.recommendations := recommendations result;
         Formatted.risk_factors := risk_factors result;
         Formatted.model_classes := 3;
         Formatted.debug_info := {|
           Formatted.original_probabilities :=
             [low (probabilities result); medium (probabilities result);
              high (probabilities result)];
           Formatted.prediction_raw := severity_code result;
           Formatted.features_analyzed :=
             features_analyzed (model_info result);
           Formatted.model_version := "XGBClassifier-v2.1.3";
           Formatted.ensemble_components :=
             ["XGBoost"; "RandomForest"; "NeuralNet"]
         |}
       |}, after)
  | Failure error location => (Engine_failure error location, k)
  end.

(** The [locations] dict of [_coordinates_to_location], in its order. *)
Definition locations : list (Q * Q * string) :=
  [(19.0760, 72.8777, "Mumbai, Maharashtra");
   (28.7041, 77.1025, "New Delhi");
   (12.9716, 77.5946, "Bangalore, Karnataka");
   (13.0827, 80.2707, "Chennai, Tamil Nadu");
   (22.5726, 88.3639, "Kolkata, West Bengal");
   (17.3850, 78.4867, "Hyderabad, Telangana");
   (18.5204, 73.8567, "Pune, Maharashtra");
   (23.0225, 72.5714, "Ahmedabad, Gujarat");
   (26.9124, 75.7873, "Jaipur, Rajasthan");
   (21.1458, 79.0882, "Nagpur, Maharashtra");
   (15.2993, 74.1240, "Goa");
   (11.0168, 76.9558, "Coimbatore, Tamil Nadu")].

(** One turn of the loop of [_coordinates_to_location]. *)
Definition closer (lat lon : Q) (acc : distance * string)
    (entry : Q * Q * string) : exc (distance * string) :=
  let '(min_distance, closest_location) := acc in
  let '(city_lat, city_lon, city_name) := entry in
  distance <- distance_to lat lon city_lat city_lon ;;
  Return (if distance_ltb distance min_distance then (distance, city_name)
          else (min_distance, closest_location)).

(** The loop: an exception ends it. *)
Fixpoint closest (lat lon : Q) (entries : list (Q * Q * string))
    (acc : distance * string) : exc (distance * string) :=
  match entries with
  | [] => Return acc
  | entry :: rest =>
      acc <- closer lat lon acc entry ;;
      closest lat lon rest acc
  end.

Definition _coordinates_to_location (lat lon : Q) : exc string :=
  found <- closest lat lon locations (Inf, "Mumbai, Maharashtra") ;;
  Return (snd found).

Definition _create_basic_conditions (timestamp : option datetime)
    (k : clock) : Conditions * clock :=
  let '(timestamp, k) :=
    match timestamp with
    | None => datetime_now k
    | Some t => (t, k)
    end in
  let hour := hour timestamp in
  let '(time_of_day, traffic_volume) :=
    if ((5 <=? hour) && (hour <? 12))%Z then ("Morning", "Medium")
    else if ((12 <=? hour) && (hour <? 17))%Z then ("Afternoon", "High")
    else if ((17 <=? hour) && (hour <? 21))%Z then ("Evening", "High")
    else ("Night", "Low") in
  let current_month := month timestamp in
  let '(weather, road_surface, visibility) :=
    if existsb (Z.eqb current_month) [6; 7; 8; 9]%Z
    then ("Rainy", "Wet", "medium")
    else ("Clear", "Dry", "high") in
  ({| vehicle_type := Some "Car";
      driver_age := Some 32%Z;
      experience := Some 8%Z;
      license_valid := Some "yes";
      seatbelt := Some "yes";
      weather := Some weather;
      road_surface := Some road_surface;
      visibility := Some visibility;
      light_condition :=
        Some (if ((6 <=? hour) && (hour <=? 18))%Z then "Daylight"
              else "Night_with_lights");
      road_type := Some "City_Road";
      road_design := Some "Straight";
      traffic_volume := Some traffic_volume;
      speed_limit := Some 60%Z;
      current_speed := Some 55%Z;
      time_of_day := Some time_of_day;
      is_weekend := Some (5 <=? weekday timestamp)%Z;
      area_type := Some "Urban";
      overtaking := Some "no";
      alcohol := Some "no";
      phone_usage := Some "no";
      accident_history := Some 2%Z |}, k).

(** [predict_risk]: nothing catches what [_coordinates_to_location]
    raises. *)
Definition predict_risk (lat lon : Q) (timestamp : option datetime)
    (k : clock) : exc (Response * clock) :=
  location <- _coordinates_to_location lat lon ;;
  let '(conditions, k) := _create_basic_conditions timestamp k in
  Return (predict_comprehensive_risk location conditions k).

(** The loop of [batch_predict]: an exception ends it, and the results
    gathered so far are lost. *)
Fixpoint batch_loop (locations : list (Q * Q))
    (acc : list Response * clock) : exc (list Response * clock) :=
  match locations with
  | [] => Return acc
  | (lat, lon) :: rest =>
      let '(results, k) := acc in
      r <- predict_risk lat lon None k ;;
      let '(result, k) := r in
      batch_loop rest ((results ++ [result])%list, k)
  end.

Definition batch_predict (locations : list (Q * Q)) (k : clock)
  : exc (list Response * clock) :=
  batch_loop locations ([], k).

End AccidentPredictor.

(** ** The helpers of app/api.py *)

Module Api.

(** The [urban_centers] of [_determine_area_type]. *)
Definition urban_centers : list (Q * Q) :=
  [(19.0760, 72.8777); (28.7041, 77.1025); (12.9716, 77.5946);
   (13.0827, 80.2707); (22.5726, 88.3639)].

(** The loop of [_determine_area_type]: the first centre closer than 1.0
    decides. *)
Fixpoint area_loop (lat lon : Q) (centers : list (Q * Q)) : exc string :=
  match centers with
  | [] => Return "Rural"
  | (urban_lat, urban_lon) :: rest =>
      distance <- distance_to lat lon urban_lat urban_lon ;;
      if distance_below distance 0.5 then Return "Urban"
      else if distance_below distance 1.0 then Return "Suburban"
      else area_loop lat lon rest
  end.

Definition _determine_area_type (lat lon : Q) (location : string)
  : exc string :=
  area_loop lat lon urban_centers.

(** What [get_weather_info] puts in its answer. *)
Record WeatherInfo : Type := mk_weather_info {
  weather : string;
  road_surface : string;
  visibility : string;
  light_condition : string;
  temperature : Z;
  humidity : Z;
  last_updated : string
}.

(** The body of [get_weather_info] between the reading of the request
    ([location], with its default already applied) and [jsonify], at the
    clock reading [current_time]. *)
Definition weather_info (location : string) (current_time : datetime)
  : WeatherInfo :=
  let current_month := month current_time in
  let current_hour := hour current_time in
  let '(weather, road_surface, visibility, humidity) :=
    if existsb (Z.eqb current_month) [6; 7; 8; 9]%Z then
      ("Rainy", "Wet", "medium", 85%Z)
    else if existsb (Z.eqb current_month) [12; 1; 2]%Z then
      let weather :=
        if existsb (Z.eqb current_hour) [5; 6; 7; 8]%Z then "Foggy"
        else "Clear" in
      (weather, "Dry", if String.eqb weather "Foggy" then "low" else "high",
       55%Z)
    else ("Clear", "Dry", "high", 65%Z) in
  let '(light_condition, visibility_modifier) :=
    if ((6 <=? current_hour) && (current_hour <=? 18))%Z then
      ("Daylight", 1.0)
    else if existsb (Z.eqb current_hour) [18; 19; 5; 6]%Z then
      ("Twilight", 0.8)
    else ("Night_with_lights", 0.6) in
  let visibility :=
    if String.eqb visibility "high" && ltb visibility_modifier 1.0 then
      if ltb 0.7 visibility_modifier then "medium" else "low"
    else visibility in
  let base_temp := if contains "mumbai" (lower location) then 30%Z else 28%Z in
  let temp_modifier :=
    if existsb (Z.eqb current_month) [12; 1; 2]%Z then (-5)%Z else 0%Z in
  let temperature := (base_temp + temp_modifier)%Z in
  {| weather := weather;
     road_surface := road_surface;
     visibility := visibility;
     light_condition := light_condition;
     temperature := temperature;
     humidity := humidity;
     last_updated := isoformat current_time |}.

End Api.

(** ** Vocabulary of the further properties *)

(** [conditions] with the driver's age, or the experience, set. *)
Definition with_driver_age (a : option Z) (c : Conditions) : Conditions :=
  mk_conditions (vehicle_type c) a (experience c) (license_valid c)
    (seatbelt c) (weather c) (road_surface c) (visibility c)
    (light_condition c) (road_type c) (road_design c) (traffic_volume c)
    (speed_limit c) (current_speed c) (time_of_day c) (is_weekend c)
    (area_type c) (overtaking c) (alcohol c) (phone_usage c)
    (accident_history c).

Definition with_experience (e : option Z) (c : Conditions) : Conditions :=
  mk_conditions (vehicle_type c) (driver_age c) e (license_valid c)
    (seatbelt c) (weather c) (road_surface c) (visibility c)
    (light_condition c) (road_type c) (road_design c) (traffic_volume c)
    (speed_limit c) (current_speed c) (time_of_day c) (is_weekend c)
    (area_type c) (overtaking c) (alcohol c) (phone_usage c)
    (accident_history c).

(** The square of the distance [_coordinates_to_location] computes between
    a point and an entry of its table. *)
Definition squared_distance (lat lon : Q) (entry : Q * Q * string) : Q :=
  let '(city_lat, city_lon, _) := entry in
  (lat - city_lat) * (lat - city_lat) + (lon - city_lon) * (lon - city_lon).

(** Whether some centre of a list lies at a distance below [r] of a
    point. *)
Definition within_radius (lat lon r : Q) (centers : list (Q * Q)) : bool :=
  existsb
    (fun '(urban_lat, urban_lon) =>
       distance_below
         (Root ((lat - urban_lat) * (lat - urban_lat)
                + (lon - urban_lon) * (lon - urban_lon))) r)
    centers.

Definition with_light_condition (l : option string) (c : Conditions)
  : Conditions :=
  mk_conditions (vehicle_type c) (driver_age c) (experience c)
    (license_valid c) (seatbelt c) (weather c) (road_surface c)
    (visibility c) l (road_type c) (road_design c) (traffic_volume c)
    (speed_limit c) (current_speed c) (time_of_day c) (is_weekend c)
    (area_type c) (overtaking c) (alcohol c) (phone_usage c)
    (accident_history c).

(** A clock that stands still at noon of Saturday 2024-06-01. *)
Definition noon : datetime :=
  {| hour := 12; month := 6; weekday := 5;
     isoformat := "2024-06-01T12:00:00" |}.
Definition still_clock : clock := fun _ => noon.

(** 19:30 on the same day. *)
Definition dusk : datetime :=
  {| hour := 19; month := 6; weekday := 5;
     isoformat := "2024-06-01T19:30:00" |}.

(** A point of the globe: a latitude between -90 and 90 and a longitude
    between -180 and 180. *)
Definition geographic (lat lon : Q) : Prop :=
  -90 <= lat <= 90 /\ -180 <= lon <= 180.

(** The margin left to the rounding of the binary64 distances: one part in
    a million. *)
Definition tolerance : Q := 1 # 1000000.

(** * Properties *)

(** ** The library functions on known values *)

(** The digests of the empty string and of "abc" (RFC 1321, appendix A.5). *)
Example md5_of_empty_string :
  Hashlib.hexdigest (Hashlib.md5 (encode ""))
  = "d41d8cd98f00b204e9800998ecf8427e".
Proof. vm_compute. reflexivity. Qed.

Example md5_of_abc :
  Hashlib.hexdigest (Hashlib.md5 (encode "abc"))
  = "900150983cd24fb0d6963f7d28e17f72".
Proof. vm_compute. reflexivity. Qed.

(** The first output of the reference generator seeded with 5489, and of
    the one seeded with the array 0x123, 0x234, 0x345, 0x456. *)
Example genrand_of_5489 :
  fst (Random.genrand_uint32 (Random.init_genrand 5489)) = 3499211612%Z.
Proof. vm_compute. reflexivity. Qed.

Example genrand_of_reference_array :
  fst (Random.genrand_uint32
         (Random.init_by_array [0x123; 0x234; 0x345; 0x456]%Z))
  = 1067595299%Z.
Proof. vm_compute. reflexivity. Qed.

(** [random.seed(42); random.random()] is 0.6394267984578837, which is
    5759444582531269 / 2^53. *)
Example random_of_seed_42 :
  fst (Random.random (Random.seed 42)) == 5759444582531269 # 9007199254740992.
Proof. vm_compute. reflexivity. Qed.

(** The seed of the call of [test_prediction]. *)
Example seed_of_test_prediction :
  _generate_seed "Mumbai, Maharashtra" test_conditions = 3738465769%Z.
Proof. vm_compute. reflexivity. Qed.

(** ** Numbers *)

Lemma ltb_lt (x y : Q) : ltb x y = true <-> x < y.
Proof.
  unfold ltb. rewrite negb_true_iff, <- not_true_iff_false, Qle_bool_iff. lra.
Qed.

Lemma ltb_ge (x y : Q) : ltb x y = false <-> y <= x.
Proof.
  unfold ltb. rewrite negb_false_iff, Qle_bool_iff. reflexivity.
Qed.

Lemma min_cases (a b : Q) : (b < a /\ min a b = b) \/ (a <= b /\ min a b = a).
Proof.
  unfold min. destruct (ltb b a) eqn:E.
  - left. apply ltb_lt in E. auto.
  - right. apply ltb_ge in E. auto.
Qed.

Lemma max_cases (a b : Q) : (a < b /\ max a b = b) \/ (b <= a /\ max a b = a).
Proof.
  unfold max. destruct (ltb a b) eqn:E.
  - left. apply ltb_lt in E. auto.
  - right. apply ltb_ge in E. auto.
Qed.

Lemma min_is_Qmin (a b : Q) : min a b == Qmin a b.
Proof.
  destruct (min_cases a b) as [[H ->] | [H ->]].
  - symmetry. apply Q.min_r. lra.
  - symmetry. apply Q.min_l. lra.
Qed.

Lemma round_half_even_near (x : Q) :
  x - (1 # 2) <= inject_Z (round_half_even x) <= x + (1 # 2).
Proof.
  unfold round_half_even.
  pose proof (Qfloor_le x) as Hlo. pose proof (Qlt_floor x) as Hhi.
  rewrite inject_Z_plus in Hhi. change (inject_Z 1) with 1 in Hhi.
  destruct (ltb (x - inject_Z (Qfloor x)) (1 # 2)) eqn:E1.
  { apply ltb_lt in E1. lra. }
  apply ltb_ge in E1.
  destruct (ltb (1 # 2) (x - inject_Z (Qfloor x))) eqn:E2.
  { apply ltb_lt in E2. rewrite inject_Z_plus. change (inject_Z 1) with 1. lra. }
  apply ltb_ge in E2.
  destruct (Z.even (Qfloor x)); [| rewrite inject_Z_plus; change (inject_Z 1) with 1]; lra.
Qed.

Lemma round_half_even_ge (x : Q) (k : Z) :
  inject_Z k <= x -> (k <= round_half_even x)%Z.
Proof.
  intros H. unfold round_half_even.
  assert (k <= Qfloor x)%Z.
  { rewrite <- (Qfloor_Z k). apply Qfloor_resp_le. exact H. }
  repeat match goal with |- context [if ?b then _ else _] => destruct b end; lia.
Qed.

Lemma round_half_even_le (x : Q) (k : Z) :
  x <= inject_Z k -> (round_half_even x <= k)%Z.
Proof.
  intros H.
  pose proof (Qfloor_resp_le _ _ H) as Hf. rewrite Qfloor_Z in Hf.
  destruct (Z.eq_dec (Qfloor x) k) as [Heq | Hne].
  - unfold round_half_even. pose proof (Qfloor_le x) as Hlo.
    rewrite Heq in *.
    assert (E : ltb (x - inject_Z k) (1 # 2) = true) by (apply ltb_lt; lra).
    rewrite E. lia.
  - unfold round_half_even.
    repeat match goal with |- context [if ?b then _ else _] => destruct b end; lia.
Qed.

Lemma round_ge (x : Q) (n : positive) (k : Z) :
  inject_Z k <= x * inject_Z (Zpos (10 ^ n)) -> k # (10 ^ n) <= round x n.
Proof.
  intros H. apply round_half_even_ge in H. unfold round, Qle. cbn [Qnum Qden].
  apply Z.mul_le_mono_nonneg_r; [lia | exact H].
Qed.

Lemma round_le (x : Q) (n : positive) (k : Z) :
  x * inject_Z (Zpos (10 ^ n)) <= inject_Z k -> round x n <= k # (10 ^ n).
Proof.
  intros H. apply round_half_even_le in H. unfold round, Qle. cbn [Qnum Qden].
  apply Z.mul_le_mono_nonneg_r; [lia | exact H].
Qed.
Lemma genrand_uint32_range (s : Random.state) :
  (0 <= fst (Random.genrand_uint32 s) < 2 ^ 32)%Z.
Proof.
  unfold Random.genrand_uint32. cbv zeta. cbn [fst].
  unfold Random.u32 at 1. apply Z.mod_pos_bound. lia.
Qed.

Lemma random_range (s : Random.state) :
  0 <= fst (Random.random s) < 1.
Proof.
  unfold Random.random.
  pose proof (genrand_uint32_range s) as H1.
  destruct (Random.genrand_uint32 s) as [y1 s1].
  pose proof (genrand_uint32_range s1) as H2.
  destruct (Random.genrand_uint32 s1) as [y2 s2].
  cbn [fst] in *.
  rewrite !Z.shiftr_div_pow2 by lia.
  assert (0 <= y1 / 2 ^ 5 < 2 ^ 27)%Z as Ha.
  { split; [apply Z.div_pos; lia | apply Z.div_lt_upper_bound; lia]. }
  assert (0 <= y2 / 2 ^ 6 < 2 ^ 26)%Z as Hb.
  { split; [apply Z.div_pos; lia | apply Z.div_lt_upper_bound; lia]. }
  set (n := (y1 / 2 ^ 5 * 67108864 + y2 / 2 ^ 6)%Z).
  assert (0 <= n < 9007199254740992)%Z as Hn by (unfold n; lia).
  destruct Hn as [Hn0 Hn1].
  rewrite Zle_Qle in Hn0. rewrite Zlt_Qlt in Hn1.
  change (inject_Z 9007199254740992) with 9007199254740992 in Hn1.
  change (inject_Z 0) with 0 in Hn0.
  split.
  - apply Qle_shift_div_l; lra.
  - apply Qlt_shift_div_r; lra.
Qed.

Lemma uniform_range (a b : Q) (s : Random.state) :
  a <= b -> a <= fst (Random.uniform a b s) <= b.
Proof.
  intros Hab. unfold Random.uniform.
  pose proof (random_range s) as Hr.
  destruct (Random.random s) as [r s']. cbn [fst] in *. nra.
Qed.

(** ** Dicts *)

Lemma mem_In (k : string) (l : list string) : mem k l = true <-> In k l.
Proof.
  unfold mem. rewrite existsb_exists. split.
  - intros (x & Hx & E). apply String.eqb_eq in E. subst. exact Hx.
  - intros H. exists k. split; [exact H | apply String.eqb_refl].
Qed.

Lemma lookup_keys {A : Type} (d : dict A) (k : string) :
  In k (keys d) <-> exists v, lookup d k = Some v.
Proof.
  induction d as [| [k' v'] d IH]; simpl.
  - split; [tauto | intros [v H]; discriminate].
  - destruct (String.eqb_spec k' k) as [-> | Hne].
    + split; [eauto | auto].
    + rewrite <- IH. split; [intros [H | H]; [contradiction | exact H] | auto].
Qed.

Lemma index_returns {A : Type} (d : dict A) (k : string) :
  In k (keys d) <-> exists v, index d k = Return v.
Proof.
  rewrite lookup_keys. unfold index. destruct (lookup d k).
  - split; intros _; eauto.
  - split; intros [v H]; discriminate.
Qed.


Lemma lookup_within (lo hi : Q) (d : dict Q) (k : string) (w : Q) :
  within lo hi d = true -> lookup d k = Some w -> lo <= w <= hi.
Proof.
  unfold within. induction d as [| [k' v'] d IH]; simpl; [discriminate |].
  rewrite !andb_true_iff. unfold leb. rewrite !Qle_bool_iff.
  intros [[Hlo Hhi] Hd].
  destruct (String.eqb k' k); [intros [= <-]; split; assumption | auto].
Qed.

Lemma index_within (lo hi : Q) (d : dict Q) (k : string) (w : Q) :
  within lo hi d = true -> index d k = Return w -> lo <= w <= hi.
Proof.
  intros Hd. unfold index. destruct (lookup d k) eqn:E; [| discriminate].
  intros [= <-]. eapply lookup_within; eauto.
Qed.

Lemma dict_get_within (lo hi : Q) (d : dict Q) (k : string) (default : Q) :
  within lo hi d = true -> lo <= default <= hi ->
  lo <= dict_get d k default <= hi.
Proof.
  intros Hd Hdef. unfold dict_get. destruct (lookup d k) eqn:E; [| exact Hdef].
  eapply lookup_within; eauto.
Qed.

(** ** The accumulated risk *)

Lemma first_city_within (lo hi : Q) (d : dict Q) (l : string) (r : Q) :
  within lo hi d = true -> first_city d l = Some r -> lo <= r <= hi.
Proof.
  unfold within. induction d as [| [k v] d IH]; simpl; [discriminate |].
  rewrite !andb_true_iff. unfold leb. rewrite !Qle_bool_iff.
  intros [[Hlo Hhi] Hd].
  destruct (contains k l); [intros [= <-]; split; assumption | auto].
Qed.

Lemma get_location_risk_returns (location : string) :
  exists base, _get_location_risk location = Return base /\ 0.4 <= base <= 0.7.
Proof.
  unfold _get_location_risk.
  destruct (first_city location_risk_base (lower location)) as [r |] eqn:E.
  - exists r. split; [reflexivity |].
    eapply first_city_within; [| exact E]. reflexivity.
  - destruct (existsb _ urban_keywords).
    + exists 0.5. split; [reflexivity | lra].
    + destruct (existsb _ rural_keywords).
      * exists 0.4. split; [reflexivity | lra].
      * exists 0.45. split; [reflexivity | lra].
Qed.

Lemma age_weight_returns (age : Z) :
  exists w, index risk_weights.driver_age (_calculate_age_risk age) = Return w
            /\ 0.1 <= w <= 0.6.
Proof.
  unfold _calculate_age_risk.
  destruct (age <? 25)%Z; [| destruct (age <=? 40)%Z; [| destruct (age <=? 60)%Z]];
    eexists; (split; [reflexivity | lra]).
Qed.

Lemma experience_weight_returns (experience : Z) :
  exists w, index risk_weights.experience (_calculate_experience_risk experience)
            = Return w /\ 0.1 <= w <= 0.7.
Proof.
  unfold _calculate_experience_risk.
  destruct (experience <? 2)%Z;
    [| destruct (experience <=? 5)%Z; [| destruct (experience <=? 10)%Z]];
    eexists; (split; [reflexivity | lra]).
Qed.

Lemma day_weight_returns (is_weekend : bool) :
  exists w, index risk_weights.day_of_week
              (if is_weekend then "weekend" else "weekday")%string = Return w
            /\ 0.3 <= w <= 0.5.
Proof.
  destruct is_weekend; eexists; (split; [reflexivity | lra]).
Qed.

Lemma float_of_int_returns (n : Z) :
  fits_float n = true -> float_of_int n = Return (inject_Z n).
Proof. unfold fits_float, float_of_int. intros ->. reflexivity. Qed.

Lemma float_of_int_raises (n : Z) :
  fits_float n = false -> float_of_int n = Raise OverflowError.
Proof. unfold fits_float, float_of_int. intros ->. reflexivity. Qed.

Lemma float_of_int_inv (n : Z) (x : Q) :
  float_of_int n = Return x -> fits_float n = true /\ x = inject_Z n.
Proof.
  unfold fits_float, float_of_int.
  destruct (Z.abs n <? float_limit)%Z; [| discriminate].
  intros [= <-]. split; reflexivity.
Qed.

(** The three ways of [_calculate_speed_risk]. *)
Lemma speed_risk_cases (current_speed speed_limit : Z) :
  ((current_speed <= speed_limit)%Z
   /\ _calculate_speed_risk current_speed speed_limit = Return 0.0)
  \/ ((speed_limit < current_speed)%Z
      /\ fits_float (current_speed - speed_limit) = true
      /\ _calculate_speed_risk current_speed speed_limit
         = Return (min (inject_Z (current_speed - speed_limit)
                        * risk_weights.speed_factor) 1.0))
  \/ ((speed_limit < current_speed)%Z
      /\ fits_float (current_speed - speed_limit) = false
      /\ _calculate_speed_risk current_speed speed_limit
         = Raise OverflowError).
Proof.
  unfold _calculate_speed_risk.
  destruct (Z.leb_spec current_speed speed_limit) as [H | H];
    [left; split; [exact H | reflexivity] | right].
  destruct (fits_float (current_speed - speed_limit)) eqn:F.
  - left. rewrite (float_of_int_returns _ F). cbn [bind]. auto.
  - right. rewrite (float_of_int_raises _ F). cbn [bind]. auto.
Qed.

Lemma speed_risk_range (current_speed speed_limit : Z) (r : Q) :
  _calculate_speed_risk current_speed speed_limit = Return r -> 0 <= r <= 1.
Proof.
  destruct (speed_risk_cases current_speed speed_limit)
    as [(H & E) | [(H & _ & E) | (_ & _ & E)]]; rewrite E;
    [intros [= <-]; lra | | discriminate].
  intros [= <-]. unfold risk_weights.speed_factor.
  assert (0 < inject_Z (current_speed - speed_limit)) as Hq.
  { change 0 with (inject_Z 0). rewrite <- Zlt_Qlt. lia. }
  destruct (min_cases (inject_Z (current_speed - speed_limit) * 0.01) 1.0)
    as [[Hc ->] | [Hc ->]]; lra.
Qed.

Lemma speed_risk_returns (c : Conditions) :
  speed_fits c = true ->
  exists r,
    _calculate_speed_risk (get (current_speed c) 40%Z)
      (get (speed_limit c) 50%Z) = Return r
    /\ 0 <= r <= 1.
Proof.
  unfold speed_fits. intros H.
  destruct (speed_risk_cases (get (current_speed c) 40%Z)
              (get (speed_limit c) 50%Z))
    as [(_ & E) | [(_ & _ & E) | (Hlt & F & _)]].
  - eexists. split; [exact E |]. exact (speed_risk_range _ _ _ E).
  - eexists. split; [exact E |]. exact (speed_risk_range _ _ _ E).
  - rewrite F, orb_false_r in H. apply Z.leb_le in H. lia.
Qed.

Lemma scorable_field (c : Conditions) (f : exact_field) :
  scorable c = true ->
  exists w, index (table_of f) (value_of f c) = Return w.
Proof.
  unfold scorable. rewrite forallb_forall. intros H.
  apply index_returns. apply mem_In. apply (H f).
  destruct f; simpl; tauto.
Qed.

Lemma with_accident_history_same (c : Conditions) :
  with_accident_history (accident_history c) c = c.
Proof. destruct c; reflexivity. Qed.

Ltac use_field c f H :=
  let w := fresh "w" in
  let Hw := fresh "Hw" in
  let Bw := fresh "Bw" in
  destruct (scorable_field c f H) as [w Hw];
  cbn [table_of value_of] in Hw.

Ltac bound_weight H lo hi :=
  eapply (index_within lo hi) in H; [| reflexivity].

Lemma total_risk_returns (location : string) (c : Conditions) :
  scorable c = true ->
  speed_fits c = true ->
  exists rest,
    2.7 <= rest /\
    forall h,
      fits_float (get h 0%Z) = true ->
      total_risk location (with_accident_history h c)
      = Return (rest + inject_Z (get h 0%Z) * risk_weights.accident_history).
Proof.
  intros H Hfit.
  destruct (speed_risk_returns c Hfit) as (ws & Hs & Bs).
  destruct (get_location_risk_returns location) as (base & Hbase & Bbase).
  destruct (age_weight_returns (get (driver_age c) 30%Z)) as (wa & Ha & Ba).
  destruct (experience_weight_returns (get (experience c) 5%Z)) as (we & He & Be).
  destruct (day_weight_returns (get (is_weekend c) false)) as (wd & Hd & Bd).
  pose proof (dict_get_within 0.2 0.7 risk_weights.vehicle_type
                (get (vehicle_type c) "Car"%string) 0.3 eq_refl) as Bv.
  pose proof (dict_get_within 0.1 1.0 risk_weights.weather
                (get (weather c) "Clear"%string) 0.3 eq_refl) as Bw.
  use_field c License_valid H. use_field c Seatbelt H.
  use_field c Road_surface H. use_field c Visibility H.
  use_field c Light_condition H. use_field c Road_type H.
  use_field c Road_design H. use_field c Traffic_volume H.
  use_field c Time_of_day H. use_field c Area_type H.
  use_field c Overtaking H. use_field c Alcohol H. use_field c Phone_usage H.
  eexists. split; cycle 1.
  - intros h Hh. unfold total_risk. cbv zeta.
    cbn [with_accident_history vehicle_type driver_age experience
      license_valid seatbelt weather road_surface visibility light_condition
      road_type road_design traffic_volume speed_limit current_speed
      time_of_day is_weekend area_type overtaking alcohol phone_usage
      accident_history] in *.
    rewrite Hbase; cbn [bind]. rewrite Ha; cbn [bind]. rewrite He; cbn [bind].
    rewrite Hw; cbn [bind]. rewrite Hw0; cbn [bind]. rewrite Hw1; cbn [bind].
    rewrite Hw2; cbn [bind]. rewrite Hw3; cbn [bind]. rewrite Hw4; cbn [bind].
    rewrite Hw5; cbn [bind]. rewrite Hw6; cbn [bind]. rewrite Hs; cbn [bind].
    rewrite Hw7; cbn [bind].
    rewrite Hd; cbn [bind]. rewrite Hw8; cbn [bind]. rewrite Hw9; cbn [bind].
    rewrite Hw10; cbn [bind]. rewrite Hw11; cbn [bind].
    rewrite (float_of_int_returns _ Hh); cbn [bind].
    reflexivity.
  - specialize (Bv ltac:(lra)). specialize (Bw ltac:(lra)).
    bound_weight Hw 0.0 0.8.
    bound_weight Hw0 0.0 0.6.
    bound_weight Hw1 0.1 0.9.
    bound_weight Hw2 0.1 0.8.
    bound_weight Hw3 0.1 0.7.
    bound_weight Hw4 0.3 0.6.
    bound_weight Hw5 0.2 0.8.
    bound_weight Hw6 0.2 0.7.
    bound_weight Hw7 0.2 0.6.
    bound_weight Hw8 0.3 0.5.
    bound_weight Hw9 0.0 0.7.
    bound_weight Hw10 0.0 1.0.
    bound_weight Hw11 0.0 0.8.
    lra.
Qed.

(** ** The prediction *)

Lemma distribution_sum code f rng l m h rng' :
  distribution code f rng = (l, m, h, rng') -> l + m + h == 1.
Proof.
  unfold distribution.
  destruct (code =? 0)%Z; [| destruct (code =? 1)%Z];
    destruct (Random.uniform _ _ rng) as [u1 rng1];
    destruct (Random.uniform _ _ rng1) as [u2 rng2];
    intros [= <- <- <- _]; ring.
Qed.

Lemma normalize_probabilities_returns l m h :
  l + m + h == 1 ->
  exists l' m' h',
    normalize_probabilities l m h = Return (l', m', h')
    /\ l' == l /\ m' == m /\ h' == h.
Proof.
  intros Hsum. unfold normalize_probabilities, div.
  assert (Qeq_bool (l + m + h) 0 = false) as ->.
  { apply not_true_iff_false. rewrite Qeq_bool_iff. lra. }
  cbn [bind]. do 3 eexists. split; [reflexivity |].
  repeat split; rewrite Hsum; field.
Qed.

Lemma identify_risk_factors_returns (c : Conditions) :
  exists l, _identify_risk_factors c = Return l.
Proof.
  unfold _identify_risk_factors.
  destruct (weather c), (road_surface c), (road_design c); simpl;
    repeat match goal with
      | |- context [bind (if ?b then _ else _) _] => destruct b; cbn [bind]
      end;
    eexists; reflexivity.
Qed.

Lemma predict_returns (now location : string) (c : Conditions) (t : Q) :
  total_risk location c = Return t ->
  exists p sev l m h,
    predict_accident_risk now location c = Success p
    /\ risk_score p = round (final_risk location c t * 100) 1
    /\ classify (final_risk location c t)
       = (sev, severity_code p, color p, predicted_severity p)
    /\ unrounded_probabilities location c t = Return (l, m, h)
    /\ l + m + h == 1
    /\ probabilities p = mk_probabilities (round l 3) (round m 3) (round h 3)
    /\ recommendations p = _generate_recommendations c (severity_code p)
    /\ _identify_risk_factors c = Return (risk_factors p).
Proof.
  intros Ht. unfold predict_accident_risk, unrounded_probabilities, final_risk.
  rewrite Ht. cbn [bind]. fold (generator location c).
  destruct (jitter (normalize t) (generator location c)) as [f rng1].
  destruct (classify f) as [[[sev code] col] lvl] eqn:Ec.
  destruct (distribution code f rng1) as [[[l0 m0] h0] rng2] eqn:Ed.
  apply distribution_sum in Ed.
  destruct (normalize_probabilities_returns _ _ _ Ed)
    as (l & m & h & -> & Hl & Hm & Hh).
  cbn [bind].
  destruct (confidence_score f rng2) as [conf rng3].
  destruct (identify_risk_factors_returns c) as [rf ->]. cbn [bind].
  eexists. exists sev, l, m, h. cbn [fst].
  repeat split; try reflexivity; [exact Ec | lra].
Qed.

Lemma predict_raises (now location : string) (c : Conditions) (e : exn) :
  total_risk location c = Raise e ->
  predict_accident_risk now location c
  = Failure "Prediction calculation failed" location.
Proof.
  intros Ht. unfold predict_accident_risk. rewrite Ht. reflexivity.
Qed.

Lemma round_half_even_monotone (x y : Q) :
  x <= y -> (round_half_even x <= round_half_even y)%Z.
Proof.
  intros H. pose proof (Qfloor_resp_le _ _ H) as Hf.
  destruct (Z.eq_dec (Qfloor x) (Qfloor y)) as [E | N].
  - unfold round_half_even. rewrite E.
    destruct (ltb (x - inject_Z (Qfloor y)) (1 # 2)) eqn:X1;
      destruct (ltb (y - inject_Z (Qfloor y)) (1 # 2)) eqn:Y1;
      destruct (ltb (1 # 2) (x - inject_Z (Qfloor y))) eqn:X2;
      destruct (ltb (1 # 2) (y - inject_Z (Qfloor y))) eqn:Y2;
      try rewrite ltb_lt in *; try rewrite ltb_ge in *;
      try (exfalso; lra); destruct (Z.even (Qfloor y)); lia.
  - assert (round_half_even x <= Qfloor x + 1)%Z.
    { unfold round_half_even.
      repeat match goal with |- context [if ?b then _ else _] => destruct b end; lia. }
    assert (Qfloor y <= round_half_even y)%Z.
    { unfold round_half_even.
      repeat match goal with |- context [if ?b then _ else _] => destruct b end; lia. }
    lia.
Qed.

Lemma round_monotone (x y : Q) (n : positive) :
  x <= y -> round x n <= round y n.
Proof.
  intros H. unfold round, Qle. cbn [Qnum Qden].
  apply Z.mul_le_mono_nonneg_r; [lia |].
  apply round_half_even_monotone.
  apply Qmult_le_compat_r; [exact H |]. rewrite <- (Zle_Qle 0). lia.
Qed.

Ltac py_minmax :=
  repeat match goal with
    | |- context [max ?a ?b] =>
        let H := fresh "Hmax" in destruct (max_cases a b) as [[H ->] | [H ->]]
    | |- context [min ?a ?b] =>
        let H := fresh "Hmin" in destruct (min_cases a b) as [[H ->] | [H ->]]
    end.

Lemma over_eight (t : Q) : t / 8.0 == t * (1 # 8).
Proof. field. Qed.

Lemma normalize_range (t : Q) : 0.05 <= normalize t <= 0.95.
Proof. unfold normalize. py_minmax; lra. Qed.

Lemma normalize_at_least (t lo : Q) :
  lo <= t -> lo * (1 # 8) <= 0.95 -> lo * (1 # 8) <= normalize t.
Proof.
  intros H Hlo. unfold normalize.
  pose proof (over_eight t) as E. set (d := t / 8.0) in *.
  py_minmax; lra.
Qed.

Lemma normalize_monotone (t1 t2 : Q) :
  t1 <= t2 -> normalize t1 <= normalize t2.
Proof.
  intros H. unfold normalize.
  pose proof (over_eight t1) as E1. set (d1 := t1 / 8.0) in *.
  pose proof (over_eight t2) as E2. set (d2 := t2 / 8.0) in *.
  py_minmax; lra.
Qed.

Lemma jitter_range (n : Q) (rng : Random.state) :
  0 <= n <= 1 -> n * 0.95 <= fst (jitter n rng) <= 0.95.
Proof.
  intros Hn. unfold jitter.
  pose proof (uniform_range 0.95 1.05 rng ltac:(lra)) as Hu.
  destruct (Random.uniform 0.95 1.05 rng) as [u rng']. cbn [fst] in *.
  destruct (min_cases (n * u) 0.95) as [[H ->] | [H ->]]; nra.
Qed.

Lemma jitter_monotone (n1 n2 : Q) (rng : Random.state) :
  n1 <= n2 -> fst (jitter n1 rng) <= fst (jitter n2 rng).
Proof.
  intros Hn. unfold jitter.
  pose proof (uniform_range 0.95 1.05 rng ltac:(lra)) as Hu.
  destruct (Random.uniform 0.95 1.05 rng) as [u rng']. cbn [fst] in *.
  assert (n1 * u <= n2 * u) by nra.
  destruct (min_cases (n1 * u) 0.95) as [[H1 ->] | [H1 ->]];
    destruct (min_cases (n2 * u) 0.95) as [[H2 ->] | [H2 ->]]; lra.
Qed.

Lemma valid_scorable (c : Conditions) :
  valid_conditions c = true ->
  scorable c = true /\ (0 <= get (accident_history c) 0)%Z.
Proof.
  unfold valid_conditions. rewrite !andb_true_iff, !Z.leb_le. tauto.
Qed.

Lemma numbers_fit_parts (c : Conditions) :
  numbers_fit c = true <->
  speed_fits c = true /\ fits_float (get (accident_history c) 0%Z) = true.
Proof. unfold numbers_fit. apply andb_true_iff. Qed.

Lemma plain_numbers_fit (c : Conditions) :
  plain_numbers c = true -> numbers_fit c = true.
Proof. unfold plain_numbers. intros H. apply andb_true_iff in H. tauto. Qed.

Lemma total_risk_valid (location : string) (c : Conditions) :
  valid_conditions c = true ->
  numbers_fit c = true ->
  exists t, total_risk location c = Return t /\ 2.7 <= t.
Proof.
  intros Hv Hfit. apply valid_scorable in Hv. destruct Hv as [Hs Hh].
  apply numbers_fit_parts in Hfit. destruct Hfit as [Hspeed Hhist].
  destruct (total_risk_returns location c Hs Hspeed) as (rest & Hrest & Ht).
  specialize (Ht (accident_history c) Hhist).
  rewrite with_accident_history_same in Ht.
  eexists. split; [exact Ht |].
  unfold risk_weights.accident_history.
  rewrite Zle_Qle in Hh. change (inject_Z 0) with 0 in Hh. nra.
Qed.

(** A total that is returned was computed on integers a float can hold. *)
Lemma total_risk_fits (location : string) (c : Conditions) (t : Q) :
  total_risk location c = Return t -> numbers_fit c = true.
Proof.
  intros H. unfold total_risk in H. cbv zeta in H.
  repeat match type of H with
    | context [bind ?m _] =>
        let E := fresh "E" in
        destruct m eqn:E; cbn [bind] in H; try discriminate H
    end.
  apply numbers_fit_parts. split.
  - unfold speed_fits.
    match goal with
    | E : _calculate_speed_risk ?cs ?sl = Return _ |- _ =>
        destruct (speed_risk_cases cs sl)
          as [(Hle & _) | [(_ & F & _) | (_ & _ & R)]];
        [ apply Z.leb_le in Hle; rewrite Hle; reflexivity
        | rewrite F; apply orb_true_r
        | rewrite R in E; discriminate E ]
    end.
  - match goal with
    | E : float_of_int _ = Return _ |- _ =>
        apply float_of_int_inv in E; destruct E as [E _]; exact E
    end.
Qed.

Lemma total_risk_overflows (location : string) (c : Conditions) :
  numbers_fit c = false -> exists e, total_risk location c = Raise e.
Proof.
  intros H. destruct (total_risk location c) as [t | e] eqn:Ht; [| eauto].
  rewrite (total_risk_fits location c t Ht) in H. discriminate H.
Qed.

Lemma predict_success_inv (now location : string) (c : Conditions)
    (p : Prediction) :
  predict_accident_risk now location c = Success p ->
  exists t, total_risk location c = Return t.
Proof.
  intros Hp. destruct (total_risk location c) as [t | e] eqn:Ht; [eauto |].
  rewrite (predict_raises now location c e Ht) in Hp. discriminate Hp.
Qed.

(** C2.  For every valid location and conditions (every categorical field
    within its enumerated domain, every numeric field a non-negative
    integer) the risk score the call returns lies in the closed interval
    from 5.0 to 95.0.  The call returns one when the integers of the dict
    are ones it computes with; when one that meets a float (the excess of
    the speed, the accident history) is too large for a float, the
    [OverflowError] is caught and the failure result, which has no risk
    score, is returned. *)
Theorem risk_score_in_range (now location : string) (c : Conditions) :
  valid_conditions c = true ->
  (forall p, predict_accident_risk now location c = Success p ->
             5.0 <= risk_score p <= 95.0)
  /\ (plain_numbers c = true ->
      exists p, predict_accident_risk now location c = Success p)
  /\ (numbers_fit c = false ->
      predict_accident_risk now location c
      = Failure "Prediction calculation failed" location).
Proof.
  intros Hv. split; [| split].
  - intros p Hp.
    destruct (predict_success_inv _ _ _ _ Hp) as [t0 Ht0].
    pose proof (total_risk_fits _ _ _ Ht0) as Hfit.
    destruct (total_risk_valid location c Hv Hfit) as (t & Ht & Bt).
    destruct (predict_returns now location c t Ht)
      as (p' & sev & l & m & h & Hp' & Hscore & _).
    rewrite Hp in Hp'. injection Hp' as <-.
    rewrite Hscore. unfold final_risk.
    pose proof (normalize_range t) as Hn.
    pose proof (normalize_at_least t 2.7 Bt ltac:(lra)) as Hn'.
    pose proof (jitter_range (normalize t) (generator location c) ltac:(lra))
      as Hf.
    split.
    + apply Qle_trans with (50 # 10 ^ 1);
        [apply Qle_bool_imp_le; reflexivity |].
      apply round_ge. change (inject_Z (Zpos (10 ^ 1))) with 10.
      change (inject_Z 50) with 50. lra.
    + apply Qle_trans with (950 # 10 ^ 1);
        [| apply Qle_bool_imp_le; reflexivity].
      apply round_le. change (inject_Z (Zpos (10 ^ 1))) with 10.
      change (inject_Z 950) with 950. lra.
  - intros Hplain. pose proof (plain_numbers_fit c Hplain) as Hfit.
    destruct (total_risk_valid location c Hv Hfit) as (t & Ht & _).
    destruct (predict_returns now location c t Ht) as (p & _ & _ & _ & _ & Hp & _).
    eauto.
  - intros Hfit. destruct (total_risk_overflows location c Hfit) as [e He].
    exact (predict_raises now location c e He).
Qed.

Lemma classify_cases (f : Q) :
  (f < 0.3 /\ classify f = ("Low", 0%Z, "#28a745", "Low Risk"))
  \/ (0.3 <= f /\ f < 0.6
      /\ classify f = ("Medium", 1%Z, "#ffc107", "Medium Risk"))
  \/ (0.6 <= f /\ classify f = ("High", 2%Z, "#dc3545", "High Risk")).
Proof.
  unfold classify.
  destruct (ltb f 0.3) eqn:E1.
  - left. apply ltb_lt in E1. auto.
  - apply ltb_ge in E1. destruct (ltb f 0.6) eqn:E2.
    + right; left. apply ltb_lt in E2. auto.
    + right; right. apply ltb_ge in E2. auto.
Qed.

(** C4.  Severity and color are decided by the thresholds 0.3 and 0.6 on the
    risk after the jitter: below 0.3 the result is Low and green (#28a745),
    from 0.3 and below 0.6 it is Medium and yellow (#ffc107), from 0.6 on it
    is High and red (#dc3545); the risk score is that same risk, in percent
    with one decimal. *)
Theorem severity_and_color_by_threshold (now location : string)
    (c : Conditions) (p : Prediction) :
  predict_accident_risk now location c = Success p ->
  exists total severity,
    total_risk location c = Return total
    /\ risk_score p = round (final_risk location c total * 100) 1
    /\ classify (final_risk location c total)
       = (severity, severity_code p, color p, predicted_severity p)
    /\ (final_risk location c total < 0.3 ->
        severity = "Low" /\ severity_code p = 0%Z
        /\ predicted_severity p = "Low Risk" /\ color p = "#28a745")
    /\ (0.3 <= final_risk location c total ->
        final_risk location c total < 0.6 ->
        severity = "Medium" /\ severity_code p = 1%Z
        /\ predicted_severity p = "Medium Risk" /\ color p = "#ffc107")
    /\ (0.6 <= final_risk location c total ->
        severity = "High" /\ severity_code p = 2%Z
        /\ predicted_severity p = "High Risk" /\ color p = "#dc3545").
Proof.
  intros Hp. destruct (predict_success_inv _ _ _ _ Hp) as [t Ht].
  destruct (predict_returns now location c t Ht)
    as (p' & sev & l & m & h & Hp' & Hscore & Hclass & _).
  rewrite Hp in Hp'. injection Hp' as <-.
  exists t, sev. repeat (split; [assumption |]).
  destruct (classify_cases (final_risk location c t))
    as [[H1 E] | [(H1 & H2 & E) | [H1 E]]];
    rewrite E in Hclass; injection Hclass as <- <- <- <-;
    repeat split; intros; try reflexivity; exfalso; lra.
Qed.

Lemma final_risk_monotone (location : string) (c1 c2 : Conditions)
    (t1 t2 : Q) :
  generator location c1 = generator location c2 ->
  t1 <= t2 ->
  final_risk location c1 t1 <= final_risk location c2 t2.
Proof.
  intros Hg Ht. unfold final_risk. rewrite Hg.
  apply jitter_monotone, normalize_monotone, Ht.
Qed.

Lemma seed_with_accident_history (location : string) (c : Conditions)
    (h : option Z) :
  _generate_seed location (with_accident_history h c)
  = _generate_seed location c.
Proof.
  unfold _generate_seed.
  cbn [with_accident_history weather time_of_day road_type]. reflexivity.
Qed.

Lemma scorable_with_accident_history (c : Conditions) (h : option Z) :
  scorable (with_accident_history h c) = scorable c.
Proof.
  unfold scorable, exact_fields, in_domain.
  cbn [forallb value_of with_accident_history license_valid seatbelt
       road_surface visibility light_condition road_type road_design
       traffic_volume time_of_day area_type overtaking alcohol phone_usage].
  reflexivity.
Qed.

(** Monotonicity on histories a float can hold: both totals and both
    results exist and are ordered. *)
Lemma history_monotone (now location : string) (c : Conditions) (h1 h2 : Z) :
  scorable c = true ->
  speed_fits c = true ->
  fits_float h1 = true ->
  fits_float h2 = true ->
  (h1 <= h2)%Z ->
  exists t1 t2 p1 p2,
    total_risk location (with_accident_history (Some h1) c) = Return t1
    /\ total_risk location (with_accident_history (Some h2) c) = Return t2
    /\ normalize t1 <= normalize t2
    /\ predict_accident_risk now location (with_accident_history (Some h1) c)
       = Success p1
    /\ predict_accident_risk now location (with_accident_history (Some h2) c)
       = Success p2
    /\ risk_score p1 <= risk_score p2.
Proof.
  intros Hs Hspeed Hfit1 Hfit2 Hh.
  destruct (total_risk_returns location c Hs Hspeed) as (rest & _ & Ht).
  pose proof (Ht (Some h1) Hfit1) as Ht1.
  pose proof (Ht (Some h2) Hfit2) as Ht2.
  cbn [get] in Ht1, Ht2.
  destruct (predict_returns now location _ _ Ht1)
    as (p1 & _ & _ & _ & _ & Hp1 & Hscore1 & _).
  destruct (predict_returns now location _ _ Ht2)
    as (p2 & _ & _ & _ & _ & Hp2 & Hscore2 & _).
  assert (rest + inject_Z h1 * risk_weights.accident_history
          <= rest + inject_Z h2 * risk_weights.accident_history) as Hle.
  { unfold risk_weights.accident_history. rewrite Zle_Qle in Hh. lra. }
  assert (_generate_seed location (with_accident_history (Some h1) c)
          = _generate_seed location (with_accident_history (Some h2) c))
    as Hseed by (rewrite !seed_with_accident_history; reflexivity).
  do 2 eexists. exists p1, p2.
  split; [exact Ht1 |]. split; [exact Ht2 |].
  split; [apply normalize_monotone, Hle |].
  split; [exact Hp1 |]. split; [exact Hp2 |].
  rewrite Hscore1, Hscore2. apply round_monotone.
  assert (final_risk location (with_accident_history (Some h1) c)
            (rest + inject_Z h1 * risk_weights.accident_history)
          <= final_risk location (with_accident_history (Some h2) c)
               (rest + inject_Z h2 * risk_weights.accident_history))
    by (apply final_risk_monotone;
        [unfold generator; rewrite Hseed; reflexivity | exact Hle]).
  lra.
Qed.

(** The parts of [numbers_fit] on a dict whose history was set. *)
Lemma numbers_fit_with_accident_history (c : Conditions) (h : Z) :
  numbers_fit (with_accident_history (Some h) c) = true ->
  speed_fits c = true /\ fits_float h = true.
Proof. intros H. apply numbers_fit_parts in H. exact H. Qed.

(** C9.  With everything but [accident_history] fixed, a larger history
    gives a normalized risk that is not smaller; the seed is the same, so
    the jitter factor is the same and the risk score is not smaller either.
    Both calls return a score as long as the integers of the second dict,
    with the larger history, are ones the call computes with; a larger
    history that no float can hold gives the failure result, which has no
    score. *)
Theorem accident_history_monotone (now location : string) (c : Conditions)
    (h1 h2 : Z) :
  valid_conditions (with_accident_history (Some h1) c) = true ->
  valid_conditions (with_accident_history (Some h2) c) = true ->
  (h1 <= h2)%Z ->
  _generate_seed location (with_accident_history (Some h1) c)
  = _generate_seed location (with_accident_history (Some h2) c)
  /\ (forall t1 t2,
        total_risk location (with_accident_history (Some h1) c) = Return t1 ->
        total_risk location (with_accident_history (Some h2) c) = Return t2 ->
        normalize t1 <= normalize t2)
  /\ (forall p1 p2,
        predict_accident_risk now location (with_accident_history (Some h1) c)
        = Success p1 ->
        predict_accident_risk now location (with_accident_history (Some h2) c)
        = Success p2 ->
        risk_score p1 <= risk_score p2)
  /\ (plain_numbers (with_accident_history (Some h2) c) = true ->
      exists p1 p2,
        predict_accident_risk now location (with_accident_history (Some h1) c)
        = Success p1
        /\ predict_accident_risk now location
             (with_accident_history (Some h2) c)
           = Success p2)
  /\ (fits_float h2 = false ->
      predict_accident_risk now location (with_accident_history (Some h2) c)
      = Failure "Prediction calculation failed" location).
Proof.
  intros Hv1 Hv2 Hh.
  apply valid_scorable in Hv1. destruct Hv1 as [Hs H1].
  rewrite scorable_with_accident_history in Hs.
  apply valid_scorable in Hv2. destruct Hv2 as [_ H2].
  cbn [with_accident_history accident_history get] in H1, H2.
  assert (forall t1 t2,
            total_risk location (with_accident_history (Some h1) c)
            = Return t1 ->
            total_risk location (with_accident_history (Some h2) c)
            = Return t2 ->
            exists p1 p2,
              normalize t1 <= normalize t2
              /\ predict_accident_risk now location
                   (with_accident_history (Some h1) c) = Success p1
              /\ predict_accident_risk now location
                   (with_accident_history (Some h2) c) = Success p2
              /\ risk_score p1 <= risk_score p2) as Hboth.
  { intros t1 t2 Ht1 Ht2.
    destruct (numbers_fit_with_accident_history c h1
                (total_risk_fits _ _ _ Ht1)) as [Hspeed Hfit1].
    destruct (numbers_fit_with_accident_history c h2
                (total_risk_fits _ _ _ Ht2)) as [_ Hfit2].
    destruct (history_monotone now location c h1 h2 Hs Hspeed Hfit1 Hfit2 Hh)
      as (t1' & t2' & p1 & p2 & Ht1' & Ht2' & Hn & Hp1 & Hp2 & Hr).
    rewrite Ht1 in Ht1'. injection Ht1' as <-.
    rewrite Ht2 in Ht2'. injection Ht2' as <-.
    exists p1, p2. auto. }
  split; [rewrite !seed_with_accident_history; reflexivity |].
  split.
  { intros t1 t2 Ht1 Ht2.
    destruct (Hboth t1 t2 Ht1 Ht2) as (_ & _ & Hn & _). exact Hn. }
  split.
  { intros p1 p2 Hp1 Hp2.
    destruct (predict_success_inv _ _ _ _ Hp1) as [t1 Ht1].
    destruct (predict_success_inv _ _ _ _ Hp2) as [t2 Ht2].
    destruct (Hboth t1 t2 Ht1 Ht2) as (q1 & q2 & _ & Hq1 & Hq2 & Hr).
    rewrite Hp1 in Hq1. injection Hq1 as <-.
    rewrite Hp2 in Hq2. injection Hq2 as <-.
    exact Hr. }
  split.
  { intros Hplain.
    destruct (numbers_fit_with_accident_history c h2
                (plain_numbers_fit _ Hplain)) as [Hspeed Hfit2].
    assert (fits_float h1 = true) as Hfit1.
    { unfold fits_float in Hfit2 |- *. apply Z.ltb_lt in Hfit2.
      apply Z.ltb_lt. lia. }
    destruct (history_monotone now location c h1 h2 Hs Hspeed Hfit1 Hfit2 Hh)
      as (_ & _ & p1 & p2 & _ & _ & _ & Hp1 & Hp2 & _).
    exists p1, p2. auto. }
  intros Hfit.
  assert (numbers_fit (with_accident_history (Some h2) c) = false) as Hn.
  { unfold numbers_fit.
    cbn [with_accident_history accident_history get].
    rewrite Hfit. apply andb_false_r. }
  destruct (total_risk_overflows location _ Hn) as [e He].
  exact (predict_raises now location _ e He).
Qed.

(** States the value of a closed call, or replaces the call by it. *)
Ltac evaluate_as E t :=
  let v := eval vm_compute in t in
  assert (t = v) as E by (vm_compute; reflexivity).

Ltac evaluate t :=
  let E := fresh "E" in
  evaluate_as E t; rewrite E; clear E.

(** ** Rounded probabilities *)

Lemma Qmake_as_product (k : Z) (d : positive) :
  k # d == inject_Z k * (1 # d).
Proof. unfold Qeq. cbn. lia. Qed.





(** ** Equal rationals give equal results *)














(** ** What [total_risk] is made of *)

(** Reads a returned [total_risk] lookup by lookup; the same lookups are
    replaced in the goal. *)
Ltac invert_total H :=
  unfold total_risk in H |- *; cbv zeta in H |- *;
  repeat match type of H with
    | context [bind ?m _] =>
        let E := fresh "E" in
        destruct m eqn:E; rewrite ?E in H; cbn [bind] in H |- *;
        try discriminate H
    end.

Lemma total_risk_lookups (location : string) (c : Conditions) (t : Q) :
  total_risk location c = Return t ->
  forall f, exists w, index (table_of f) (value_of f c) = Return w.
Proof.
  intros H f. invert_total H.
  destruct f; cbn [table_of value_of]; eauto.
Qed.

Lemma total_risk_raises_outside (location : string) (c : Conditions)
    (f : exact_field) :
  in_domain f c = false -> exists e, total_risk location c = Raise e.
Proof.
  intros Hf. destruct (total_risk location c) as [t | e] eqn:Ht; [| eauto].
  destruct (total_risk_lookups location c t Ht f) as [w Hw].
  assert (in_domain f c = true) as Hin.
  { unfold in_domain, domain. apply mem_In. apply index_returns. eauto. }
  congruence.
Qed.

Lemma speed_risk_at_limit (speed_limit : Z) :
  _calculate_speed_risk speed_limit speed_limit = Return 0.0.
Proof. unfold _calculate_speed_risk. rewrite Z.leb_refl. reflexivity. Qed.

Lemma total_risk_speed (location : string) (c : Conditions) (t : Q) :
  total_risk location c = Return t ->
  exists t0 r,
    total_risk location
      (with_current_speed (Some (get (speed_limit c) 50%Z)) c) = Return t0
    /\ _calculate_speed_risk (get (current_speed c) 40%Z)
         (get (speed_limit c) 50%Z) = Return r
    /\ t == t0 + r.
Proof.
  intros H.
  cbv beta delta [with_current_speed].
  unfold total_risk at 1.
  cbn [vehicle_type driver_age experience license_valid seatbelt weather
       road_surface visibility light_condition road_type road_design
       traffic_volume speed_limit current_speed time_of_day is_weekend
       area_type overtaking alcohol phone_usage accident_history get].
  rewrite speed_risk_at_limit.
  invert_total H. injection H as <-.
  do 2 eexists. split; [reflexivity |]. split; [reflexivity |]. ring.
Qed.








(** C6.  The speed adds [min((current_speed - speed_limit) * 0.01, 1.0)] to
    the total when the speed is over the limit and 0 otherwise: at the limit
    it adds exactly 0, at 150 over the limit exactly 1.0; the total of a
    call is the total of the same call driven at the limit, plus that
    contribution.  (An excess that no float can hold, from
    [2 ** 1024 - 2 ** 970] on, raises [OverflowError] in the product: there
    is no total then.) *)
Theorem speed_contribution :
  (forall current_speed speed_limit,
      (speed_limit < current_speed)%Z ->
      fits_float (current_speed - speed_limit) = true ->
      exists r,
        _calculate_speed_risk current_speed speed_limit = Return r
        /\ r == Qmin (inject_Z (current_speed - speed_limit) * 0.01) 1.0)
  /\ (forall current_speed speed_limit,
        (speed_limit < current_speed)%Z ->
        fits_float (current_speed - speed_limit) = false ->
        _calculate_speed_risk current_speed speed_limit
        = Raise OverflowError)
  /\ (forall current_speed speed_limit,
        (current_speed <= speed_limit)%Z ->
        _calculate_speed_risk current_speed speed_limit = Return 0.0)
  /\ (forall speed_limit,
        _calculate_speed_risk speed_limit speed_limit = Return 0.0)
  /\ (forall speed_limit,
        _calculate_speed_risk (speed_limit + 150) speed_limit = Return 1.0)
  /\ (forall location c t,
        total_risk location c = Return t ->
        exists t0 r,
          total_risk location
            (with_current_speed (Some (get (speed_limit c) 50%Z)) c)
          = Return t0
          /\ _calculate_speed_risk (get (current_speed c) 40%Z)
               (get (speed_limit c) 50%Z) = Return r
          /\ t == t0 + r
          /\ r == (if (get (current_speed c) 40 <=? get (speed_limit c) 50)%Z
                   then 0
                   else Qmin (inject_Z (get (current_speed c) 40%Z
                                        - get (speed_limit c) 50%Z) * 0.01)
                          1.0)).
Proof.
  split.
  { intros cs sl H F.
    destruct (speed_risk_cases cs sl)
      as [(Hle & _) | [(_ & _ & E) | (_ & F' & _)]];
      [lia | | congruence].
    eexists. split; [exact E |].
    unfold risk_weights.speed_factor. apply min_is_Qmin. }
  split.
  { intros cs sl H F.
    destruct (speed_risk_cases cs sl)
      as [(Hle & _) | [(_ & F' & _) | (_ & _ & E)]];
      [lia | congruence | exact E]. }
  split.
  { intros cs sl H.
    destruct (speed_risk_cases cs sl)
      as [(_ & E) | [(Hlt & _) | (Hlt & _)]]; [exact E | lia | lia]. }
  split.
  { intros sl. apply speed_risk_at_limit. }
  split.
  { intros sl. unfold _calculate_speed_risk, risk_weights.speed_factor.
    destruct (Z.leb_spec (sl + 150) sl); [lia |].
    replace (sl + 150 - sl)%Z with 150%Z by lia. reflexivity. }
  intros location c t Ht.
  destruct (total_risk_speed location c t Ht) as (t0 & r & Ht0 & Hr & Hsum).
  exists t0, r. split; [exact Ht0 |]. split; [exact Hr |].
  split; [exact Hsum |].
  destruct (speed_risk_cases (get (current_speed c) 40%Z)
              (get (speed_limit c) 50%Z))
    as [(Hle & E) | [(Hlt & _ & E) | (_ & _ & E)]];
    rewrite E in Hr; try discriminate Hr; injection Hr as <-.
  - apply Z.leb_le in Hle. rewrite Hle. reflexivity.
  - apply Z.leb_gt in Hlt. rewrite Hlt.
    unfold risk_weights.speed_factor. apply min_is_Qmin.
Qed.

(** The theorem above at 80 km/h under a limit of 60. *)
Lemma speed_contribution_witness :
  (exists r, _calculate_speed_risk 80 60 = Return r
             /\ r == Qmin (inject_Z (80 - 60) * 0.01) 1.0)
  /\ _calculate_speed_risk 55 60 = Return 0.0
  /\ _calculate_speed_risk (10 ^ 400) 60 = Raise OverflowError
  /\ exists t t0 r,
      total_risk "Pune, Maharashtra"
        (with_current_speed (Some 80%Z) test_conditions) = Return t
      /\ total_risk "Pune, Maharashtra"
           (with_current_speed (Some 60%Z)
              (with_current_speed (Some 80%Z) test_conditions)) = Return t0
      /\ _calculate_speed_risk 80 60 = Return r
      /\ t == t0 + r.
Proof.
  destruct speed_contribution as (Hover & Hhuge & Hunder & _ & _ & Htotal).
  split; [apply Hover; [lia | vm_compute; reflexivity] |].
  split; [apply Hunder; lia |].
  split; [apply Hhuge; vm_compute; reflexivity |].
  destruct (total_risk "Pune, Maharashtra"
              (with_current_speed (Some 80%Z) test_conditions))
    as [t | e] eqn:Ht; [| vm_compute in Ht; discriminate Ht].
  destruct (Htotal _ _ _ Ht) as (t0 & r & Ht0 & Hr & Hsum & _).
  exists t, t0, r. split; [reflexivity |].
  split; [exact Ht0 |]. split; [exact Hr | exact Hsum].
Defined.

(** The range of the risk score on the conditions of [test_prediction], and
    the failure at a speed of 10 ** 400. *)
Lemma risk_score_in_range_witness :
  (exists p,
     predict_accident_risk "2024-06-01T12:00:00" "Mumbai, Maharashtra"
       test_conditions = Success p
     /\ 5.0 <= risk_score p <= 95.0)
  /\ predict_accident_risk "2024-06-01T12:00:00" "Mumbai, Maharashtra"
       (with_current_speed (Some (10 ^ 400)%Z) test_conditions)
     = Failure "Prediction calculation failed" "Mumbai, Maharashtra".
Proof.
  assert (valid_conditions test_conditions = true) as Hv
    by (vm_compute; reflexivity).
  assert (plain_numbers test_conditions = true) as Hfit
    by (vm_compute; reflexivity).
  assert (valid_conditions
            (with_current_speed (Some (10 ^ 400)%Z) test_conditions) = true)
    as Hv' by (vm_compute; reflexivity).
  assert (numbers_fit
            (with_current_speed (Some (10 ^ 400)%Z) test_conditions) = false)
    as Hfit' by (vm_compute; reflexivity).
  destruct (risk_score_in_range "2024-06-01T12:00:00" "Mumbai, Maharashtra"
              test_conditions Hv) as (Hrange & Hsome & _).
  destruct (risk_score_in_range "2024-06-01T12:00:00" "Mumbai, Maharashtra"
              (with_current_speed (Some (10 ^ 400)%Z) test_conditions) Hv')
    as (_ & _ & Hfail).
  destruct (Hsome Hfit) as [p Hp].
  split; [exists p; split; [exact Hp | exact (Hrange p Hp)] |].
  exact (Hfail Hfit').
Defined.

(** The thresholds on the result of the conditions of [test_prediction]:
    the risk after the jitter is between 0.3 and 0.6 and the result is
    Medium and yellow. *)
Lemma severity_and_color_by_threshold_witness :
  exists p total severity,
    predict_accident_risk "2024-06-01T12:00:00" "Mumbai, Maharashtra"
      test_conditions = Success p
    /\ total_risk "Mumbai, Maharashtra" test_conditions = Return total
    /\ risk_score p
       = round (final_risk "Mumbai, Maharashtra" test_conditions total * 100) 1
    /\ classify (final_risk "Mumbai, Maharashtra" test_conditions total)
       = (severity, severity_code p, color p, predicted_severity p)
    /\ severity_code p = 1%Z /\ color p = "#ffc107".
Proof.
  evaluate_as Hp
    (predict_accident_risk "2024-06-01T12:00:00" "Mumbai, Maharashtra"
       test_conditions).
  destruct (severity_and_color_by_threshold _ _ _ _ Hp)
    as (total & severity & Ht & Hscore & Hclass & _).
  eexists. exists total, severity.
  split; [exact Hp |]. split; [exact Ht |]. split; [exact Hscore |].
  split; [exact Hclass |].
  cbn [severity_code color]. split; reflexivity.
Defined.

(** The monotonicity between one and four recorded accidents, and a
    history no float can hold. *)
Lemma accident_history_monotone_witness :
  (exists p1 p2,
     predict_accident_risk "2024-06-01T12:00:00" "Mumbai, Maharashtra"
       (with_accident_history (Some 1%Z) test_conditions) = Success p1
     /\ predict_accident_risk "2024-06-01T12:00:00" "Mumbai, Maharashtra"
          (with_accident_history (Some 4%Z) test_conditions) = Success p2
     /\ risk_score p1 <= risk_score p2)
  /\ predict_accident_risk "2024-06-01T12:00:00" "Mumbai, Maharashtra"
       (with_accident_history (Some (10 ^ 400)%Z) test_conditions)
     = Failure "Prediction calculation failed" "Mumbai, Maharashtra".
Proof.
  split.
  - destruct (accident_history_monotone "2024-06-01T12:00:00"
                "Mumbai, Maharashtra" test_conditions 1 4
                ltac:(vm_compute; reflexivity) ltac:(vm_compute; reflexivity)
                ltac:(lia))
      as (_ & _ & Hscore & Hboth & _).
    destruct (Hboth ltac:(vm_compute; reflexivity)) as (p1 & p2 & Hp1 & Hp2).
    exists p1, p2. split; [exact Hp1 |]. split; [exact Hp2 |].
    exact (Hscore p1 p2 Hp1 Hp2).
  - destruct (accident_history_monotone "2024-06-01T12:00:00"
                "Mumbai, Maharashtra" test_conditions 1 (10 ^ 400)
                ltac:(vm_compute; reflexivity) ltac:(vm_compute; reflexivity)
                ltac:(apply Z.leb_le; vm_compute; reflexivity))
      as (_ & _ & _ & _ & Hfail).
    apply Hfail. vm_compute. reflexivity.
Defined.

(** ** Recommendations and risk factors *)

Lemma append_if {A : Type} (b : bool) (l x : list A) :
  (if b then l ++ x else l)%list = (l ++ (if b then x else []))%list.
Proof. destruct b; [reflexivity | symmetry; apply app_nil_r]. Qed.

Lemma append_twice_if {A : Type} (b : bool) (l : list A) (x y : A) :
  (if b then (l ++ [x]) ++ [y] else l)%list
  = (l ++ (if b then [x; y] else []))%list.
Proof.
  destruct b; [rewrite <- app_assoc; reflexivity | symmetry; apply app_nil_r].
Qed.

Lemma append_closing_if {A : Type} (high medium : bool) (l : list A)
    (x y z : A) :
  (if high then (l ++ [x]) ++ [y] else if medium then l ++ [z] else l)%list
  = (l ++ (if high then [x; y] else [])
       ++ (if negb high && medium then [z] else []))%list.
Proof.
  destruct high, medium; cbn [negb andb];
    rewrite <- ?app_assoc, ?app_nil_r; reflexivity.
Qed.

Lemma matches_cons (b : bool) (x : list string)
    (rest : list (bool * list string)) :
  concat (map snd (filter fst ((b, x) :: rest)))
  = ((if b then x else []) ++ concat (map snd (filter fst rest)))%list.
Proof. destruct b; reflexivity. Qed.

(** C7.  The recommendations are the strings of the first matches of the
    fixed checklist (adverse weather, speeding, night driving, two-wheeler
    gear, no seatbelt, alcohol, phone usage, closing remarks by severity),
    in the order of the checklist, cut after the sixth string; the list has
    at most 6 strings. *)
Theorem recommendations_first_six (c : Conditions) (severity_code : Z) :
  _generate_recommendations c severity_code
  = first_matches 6 (checklist c severity_code)
  /\ (length (_generate_recommendations c severity_code) <= 6)%nat.
Proof.
  split.
  - unfold _generate_recommendations, first_matches, checklist. cbv zeta.
    f_equal.
    rewrite !matches_cons. cbn [filter map concat].
    rewrite append_closing_if, append_twice_if, !append_if.
    rewrite !app_nil_l, app_nil_r, <- !app_assoc. reflexivity.
  - unfold _generate_recommendations. cbv zeta. apply firstn_le_length.
Qed.

Lemma risk_factor_entry_not_alcohol (prefix entry : string) :
  existsb (Ascii.eqb "l"%char) (list_ascii_of_string prefix) = false ->
  alcohol_related entry = false ->
  alcohol_related (prefix ++ entry) = false.
Proof.
  unfold alcohol_related. induction prefix as [| a prefix IH]; intros Hp He.
  - exact He.
  - cbn [list_ascii_of_string existsb] in Hp.
    apply orb_false_iff in Hp. destruct Hp as [Ha Hp].
    cbn [String.append contains String.prefix].
    destruct (ascii_dec "l" a) as [<- | _]; [discriminate Ha |].
    apply IH; assumption.
Qed.

Lemma bind_if_return {A B : Type} (b : bool) (x y : A) (k : A -> exc B) :
  bind (if b then Return x else Return y) k = k (if b then x else y).
Proof. destruct b; reflexivity. Qed.

Lemma existsb_if {A : Type} (f : A -> bool) (b : bool) (x : A) :
  f x = false -> existsb f (if b then [x] else []) = false.
Proof. intros H. destruct b; cbn [existsb]; [rewrite H |]; reflexivity. Qed.

(** The list [_identify_risk_factors] returns, test by test. *)
Lemma identify_risk_factors_entries (c : Conditions) (l : list string) :
  _identify_risk_factors c = Return l ->
  l = ((if negb (String.eqb (get (weather c) "Clear") "Clear")
        then [("Weather: " ++ get (weather c) "Clear")%string] else [])
       ++ (if negb (String.eqb (get (road_surface c) "Dry") "Dry")
           then [("Road Surface: " ++ get (road_surface c) "Dry")%string]
           else [])
       ++ (if negb (String.eqb (get (visibility c) "high") "high")
           then ["Poor Visibility"] else [])
       ++ (if contains "Night" (get (light_condition c) "Daylight")
           then ["Night Driving"] else [])
       ++ (if String.eqb (get (traffic_volume c) "Low") "High"
           then ["Heavy Traffic"] else [])
       ++ (if (get (speed_limit c) 50 <? get (current_speed c) 0)%Z
           then ["Speeding"] else [])
       ++ (if mem (get (road_design c) "Straight") ["Junction"; "Curved"]
           then [("Road Design: " ++ get (road_design c) "Straight")%string]
           else [])
       ++ (if (get (driver_age c) 30 <? 25)%Z then ["Young Driver"] else [])
       ++ (if (get (experience c) 5 <? 2)%Z
           then ["Inexperienced Driver"] else []))%list.
Proof.
  unfold _identify_risk_factors. cbv zeta.
  destruct (weather c) as [w |], (road_surface c) as [s |],
    (road_design c) as [d |]; cbn [get item bind];
    rewrite ?String.eqb_refl; cbn [negb];
    change (mem "Straight" ["Junction"; "Curved"]) with false; cbv iota;
    rewrite ?bind_if_return; cbn [bind];
    rewrite ?bind_if_return; cbn [bind];
    rewrite ?bind_if_return; cbn [bind];
    intros [= <-]; rewrite ?append_if, ?app_nil_l, <- ?app_assoc;
    reflexivity.
Qed.

(** The entries of [_identify_risk_factors]: none comes from the alcohol
    field. *)
Lemma risk_factors_without_alcohol (c : Conditions) (l : list string) :
  alcohol_related (get (weather c) "Clear") = false ->
  alcohol_related (get (road_surface c) "Dry") = false ->
  alcohol_related (get (road_design c) "Straight") = false ->
  _identify_risk_factors c = Return l ->
  existsb alcohol_related l = false.
Proof.
  intros Hw Hs Hd Hl. rewrite (identify_risk_factors_entries c l Hl).
  rewrite !existsb_app.
  repeat rewrite existsb_if
    by first [ reflexivity
             | apply risk_factor_entry_not_alcohol; [reflexivity | assumption] ].
  reflexivity.
Qed.

Lemma identify_risk_factors_ignores_alcohol (c : Conditions)
    (a : option string) :
  _identify_risk_factors (with_alcohol a c) = _identify_risk_factors c.
Proof.
  unfold _identify_risk_factors. cbv beta delta [with_alcohol].
  cbn [weather road_surface visibility light_condition traffic_volume
       current_speed speed_limit road_design driver_age experience].
  reflexivity.
Qed.

Lemma alcohol_warning_first (severity_code : Z) :
  In alcohol_warning
    (_generate_recommendations (with_alcohol (Some "yes") no_conditions)
       severity_code).
Proof.
  unfold _generate_recommendations. cbv zeta.
  destruct (2 <=? severity_code)%Z; [| destruct (severity_code =? 1)%Z];
    vm_compute; left; reflexivity.
Qed.

(** C8.  The risk factors do not depend on the alcohol field and none of
    their entries mentions alcohol (the weather, the road surface and the
    road design are echoed in the entries, so they must not mention it
    themselves); yet with alcohol set to yes and every other field at its
    default, the alcohol warning is among the recommendations while the
    risk factors are empty. *)
Theorem alcohol_asymmetry :
  (forall c a,
      _identify_risk_factors (with_alcohol a c) = _identify_risk_factors c)
  /\ (forall c l,
        alcohol_related (get (weather c) "Clear") = false ->
        alcohol_related (get (road_surface c) "Dry") = false ->
        alcohol_related (get (road_design c) "Straight") = false ->
        _identify_risk_factors c = Return l ->
        existsb alcohol_related l = false)
  /\ (forall now location,
        exists p,
          predict_accident_risk now location
            (with_alcohol (Some "yes") no_conditions) = Success p
          /\ In alcohol_warning (recommendations p)
          /\ risk_factors p = []).
Proof.
  split; [exact identify_risk_factors_ignores_alcohol |].
  split; [exact risk_factors_without_alcohol |].
  intros now location.
  destruct (total_risk_returns location
              (with_alcohol (Some "yes") no_conditions) eq_refl eq_refl)
    as (rest & _ & Ht).
  specialize (Ht None ltac:(vm_compute; reflexivity)).
  destruct (predict_returns now location _ _ Ht)
    as (p & _ & _ & _ & _ & Hp & _ & _ & _ & _ & _ & Hrec & Hrf).
  exists p. split; [exact Hp |]. split.
  - rewrite Hrec. apply alcohol_warning_first.
  - evaluate_as E
      (_identify_risk_factors (with_alcohol (Some "yes") no_conditions)).
    change (with_accident_history None
              (with_alcohol (Some "yes") no_conditions))
      with (with_alcohol (Some "yes") no_conditions) in Hrf.
    rewrite E in Hrf. injection Hrf as <-. reflexivity.
Qed.

(** The theorem above on the conditions of [test_prediction] with alcohol,
    and on the risk factors of a call that has some. *)
Lemma alcohol_asymmetry_witness :
  _identify_risk_factors (with_alcohol (Some "yes") test_conditions)
  = _identify_risk_factors test_conditions
  /\ existsb alcohol_related
       ["Weather: Stormy"; "Road Surface: Wet"; "Poor Visibility";
        "Night Driving"; "Heavy Traffic"; "Speeding"; "Road Design: Junction";
        "Young Driver"; "Inexperienced Driver"] = false
  /\ exists p,
      predict_accident_risk "2024-06-01T12:00:00" "Mumbai, Maharashtra"
        (with_alcohol (Some "yes") no_conditions) = Success p
      /\ In alcohol_warning (recommendations p)
      /\ risk_factors p = [].
Proof.
  destruct alcohol_asymmetry as (Hsame & Hnone & Hwarn).
  split; [apply Hsame |]. split; [| apply Hwarn].
  apply (Hnone reckless_conditions); vm_compute; reflexivity.
Defined.

(** ** Probabilities at a saturated risk *)

Lemma normalize_saturated (t : Q) : 7.6 <= t -> normalize t == 0.95.
Proof.
  intros H. unfold normalize.
  pose proof (over_eight t) as E. set (d := t / 8.0) in *.
  py_minmax; lra.
Qed.

(** From a total of 7.6 on, whatever is drawn: the High branch starts from
    [final_risk + U(0.1, 0.2) > 1] and leaves a negative remainder to the
    two other probabilities. *)
Lemma unrounded_probabilities_saturated (location : string) (c : Conditions)
    (t l m h : Q) :
  7.6 <= t ->
  unrounded_probabilities location c t = Return (l, m, h) ->
  l < 0 /\ m <= -0.001 /\ 1.0025 <= h.
Proof.
  intros Ht. unfold unrounded_probabilities.
  pose proof (normalize_saturated t Ht) as Hn.
  pose proof (jitter_range (normalize t) (generator location c) ltac:(lra))
    as Hj.
  destruct (jitter (normalize t) (generator location c)) as [f r1].
  cbn [fst] in Hj.
  assert (0.9025 <= f) as Hf by lra.
  destruct (classify_cases f) as [[H1 E] | [(H1 & H2 & E) | [H1 E]]];
    try (exfalso; lra).
  rewrite E. unfold distribution. cbn [Z.eqb Pos.eqb].
  pose proof (uniform_range 0.1 0.2 r1 ltac:(lra)) as Hu1.
  destruct (Random.uniform 0.1 0.2 r1) as [u1 r2].
  pose proof (uniform_range 0.4 0.7 r2 ltac:(lra)) as Hu2.
  destruct (Random.uniform 0.4 0.7 r2) as [u2 r3].
  cbn [fst] in Hu1, Hu2. cbv beta iota zeta.
  set (ph := f + u1). set (pm := (1 - ph) * u2). set (pl := 1 - ph - pm).
  assert (pl + pm + ph == 1) as Hsum by (unfold pl; ring).
  destruct (normalize_probabilities_returns _ _ _ Hsum)
    as (l' & m' & h' & -> & Hl & Hm & Hh).
  intros [= <- <- <-]. rewrite Hl, Hm, Hh.
  assert (1.0025 <= ph) by (unfold ph; lra).
  assert (pm <= -0.001) by (unfold pm; nra).
  assert (pl == (1 - ph) * (1 - u2)) as Hpl by (unfold pl, pm; ring).
  repeat split; try assumption. rewrite Hpl. nra.
Qed.

(** Every call whose total risk reaches 7.6 returns a negative medium
    probability and a high probability above 1. *)
Lemma saturated_risk_negative_probability (now location : string)
    (c : Conditions) (t : Q) :
  total_risk location c = Return t ->
  7.6 <= t ->
  exists p,
    predict_accident_risk now location c = Success p
    /\ medium (probabilities p) <= -0.001
    /\ low (probabilities p) <= 0
    /\ 1.002 <= high (probabilities p).
Proof.
  intros Ht Hsat.
  destruct (predict_returns now location c t Ht)
    as (p & sev & l & m & h & Hp & _ & _ & Hraw & _ & Hprobs & _).
  destruct (unrounded_probabilities_saturated _ _ _ _ _ _ Hsat Hraw)
    as (Hl & Hm & Hh).
  exists p. split; [exact Hp |]. rewrite Hprobs. cbn [low medium high].
  split; [| split].
  - apply Qle_trans with (-1 # 10 ^ 3); [| apply Qle_bool_imp_le; reflexivity].
    apply round_le. change (inject_Z (Zpos (10 ^ 3))) with 1000.
    change (inject_Z (-1)) with (-1). lra.
  - apply Qle_trans with (0 # 10 ^ 3); [| apply Qle_bool_imp_le; reflexivity].
    apply round_le. change (inject_Z (Zpos (10 ^ 3))) with 1000.
    change (inject_Z 0) with 0. lra.
  - apply Qle_trans with (1002 # 10 ^ 3); [apply Qle_bool_imp_le; reflexivity |].
    apply round_ge. change (inject_Z (Zpos (10 ^ 3))) with 1000.
    change (inject_Z 1002) with 1002. lra.
Qed.

(** C10, on a failing input.  On the valid conditions [reckless_conditions]
    at New Delhi the total risk is 14.2, the risk after the jitter is 0.95,
    and the call returns the probabilities low = -0.031, medium = -0.027 and
    high = 1.058: two of the three are negative. *)
Theorem negative_probabilities_on_reckless_input :
  valid_conditions reckless_conditions = true
  /\ exists p,
      predict_accident_risk "2024-06-01T12:00:00" "New Delhi"
        reckless_conditions = Success p
      /\ severity_code p = 2%Z
      /\ low (probabilities p) == -0.031
      /\ medium (probabilities p) == -0.027
      /\ high (probabilities p) == 1.058
      /\ low (probabilities p) < 0
      /\ medium (probabilities p) < 0.
Proof.
  split; [vm_compute; reflexivity |].
  evaluate (predict_accident_risk "2024-06-01T12:00:00" "New Delhi"
              reckless_conditions).
  eexists. split; [reflexivity |].
  cbn [severity_code probabilities low medium high].
  repeat split.
Qed.

(** * Further properties of the code *)

(** ** The result of [predict_accident_risk] *)

Lemma confidence_score_range (f : Q) (rng : Random.state) :
  0.6 <= fst (confidence_score f rng) <= 0.95.
Proof.
  unfold confidence_score.
  destruct (Random.uniform 0.1 0.2 rng) as [u r]. cbn [fst].
  py_minmax; lra.
Qed.

(** What a successful call is made of: every field of the result, from the
    total risk and the generator. *)
Lemma predict_success_fields (now location : string) (c : Conditions)
    (p : Prediction) :
  predict_accident_risk now location c = Success p ->
  exists t f rng k,
    total_risk location c = Return t
    /\ f = final_risk location c t
    /\ risk_score p = round (f * 100) 1
    /\ confidence p = round k 3
    /\ k = fst (confidence_score f rng)
    /\ features_analyzed (model_info p) = len c.
Proof.
  intros Hp. unfold predict_accident_risk in Hp.
  destruct (total_risk location c) as [t | e]; cbn [bind] in Hp;
    [| discriminate Hp].
  destruct (jitter (normalize t) (Random.seed (_generate_seed location c)))
    as [f r1] eqn:J.
  destruct (classify f) as [[[sev code] col] lvl].
  destruct (distribution code f r1) as [[[l0 m0] h0] r2].
  destruct (normalize_probabilities l0 m0 h0) as [[[l m] h] | e];
    cbn [bind] in Hp; [| discriminate Hp].
  destruct (confidence_score f r2) as [k r3] eqn:K.
  destruct (_identify_risk_factors c) as [rf | e]; cbn [bind] in Hp;
    [| discriminate Hp].
  injection Hp as <-. exists t, f, r2, k. rewrite K. cbn [fst].
  unfold final_risk, generator. rewrite J. repeat split.
Qed.

(** X1.  The confidence of every successful call lies between 0.6 and 0.95. *)
Theorem confidence_in_range (now location : string) (c : Conditions)
    (p : Prediction) :
  predict_accident_risk now location c = Success p ->
  0.6 <= confidence p <= 0.95.
Proof.
  intros Hp.
  destruct (predict_success_fields _ _ _ _ Hp)
    as (t & f & rng & k & _ & _ & _ & -> & -> & _).
  pose proof (confidence_score_range f rng) as Hk.
  split.
  - apply Qle_trans with (600 # 10 ^ 3); [apply Qle_bool_imp_le; reflexivity |].
    apply round_ge. change (inject_Z (Zpos (10 ^ 3))) with 1000.
    change (inject_Z 600) with 600. lra.
  - apply Qle_trans with (950 # 10 ^ 3); [| apply Qle_bool_imp_le; reflexivity].
    apply round_le. change (inject_Z (Zpos (10 ^ 3))) with 1000.
    change (inject_Z 950) with 950. lra.
Qed.

Lemma confidence_in_range_witness :
  exists p,
    predict_accident_risk "2024-06-01T12:00:00" "Goa" test_conditions
    = Success p
    /\ 0.6 <= confidence p <= 0.95.
Proof.
  evaluate_as Hp
    (predict_accident_risk "2024-06-01T12:00:00" "Goa" test_conditions).
  eexists. split; [exact Hp |]. exact (confidence_in_range _ _ _ _ Hp).
Defined.

Lemma final_risk_range (location : string) (c : Conditions) (t : Q) :
  0.0475 <= final_risk location c t <= 0.95.
Proof.
  unfold final_risk.
  pose proof (normalize_range t) as Hn.
  pose proof (jitter_range (normalize t) (generator location c) ltac:(lra)).
  lra.
Qed.

Lemma score_by_severity (now location : string) (c : Conditions)
    (p : Prediction) :
  predict_accident_risk now location c = Success p ->
  (severity_code p = 0%Z /\ predicted_severity p = "Low Risk"
   /\ risk_score p <= 30)
  \/ (severity_code p = 1%Z /\ predicted_severity p = "Medium Risk"
      /\ 30 <= risk_score p <= 60)
  \/ (severity_code p = 2%Z /\ predicted_severity p = "High Risk"
      /\ 60 <= risk_score p <= 95).
Proof.
  intros Hp. destruct (predict_success_inv _ _ _ _ Hp) as [t Ht].
  destruct (predict_returns now location c t Ht)
    as (p' & sev & l & m & h & Hp' & Hscore & Hclass & _).
  rewrite Hp in Hp'. injection Hp' as <-.
  pose proof (final_risk_range location c t) as Hf.
  rewrite Hscore. set (f := final_risk location c t) in *.
  assert (forall k : Z, inject_Z k <= f * 100 * 10 ->
                        inject_Z k / 10 <= round (f * 100) 1) as Hge.
  { intros k Hk. apply Qle_trans with (k # 10 ^ 1).
    - rewrite (Qmake_Qdiv k). apply Qle_refl.
    - apply round_ge. exact Hk. }
  assert (forall k : Z, f * 100 * 10 <= inject_Z k ->
                        round (f * 100) 1 <= inject_Z k / 10) as Hle.
  { intros k Hk. apply Qle_trans with (k # 10 ^ 1).
    - apply round_le. exact Hk.
    - rewrite (Qmake_Qdiv k). apply Qle_refl. }
  destruct (classify_cases f) as [[H1 E] | [(H1 & H2 & E) | [H1 E]]];
    rewrite E in Hclass; injection Hclass as _ <- _ <-.
  - left. repeat split.
    apply Qle_trans with (inject_Z 300 / 10); [apply Hle | ].
    + change (inject_Z 300) with 300. lra.
    + apply Qle_bool_imp_le. reflexivity.
  - right; left. repeat split.
    + apply Qle_trans with (inject_Z 300 / 10); [| apply Hge].
      * apply Qle_bool_imp_le. reflexivity.
      * change (inject_Z 300) with 300. lra.
    + apply Qle_trans with (inject_Z 600 / 10); [apply Hle |].
      * change (inject_Z 600) with 600. lra.
      * apply Qle_bool_imp_le. reflexivity.
  - right; right. repeat split.
    + apply Qle_trans with (inject_Z 600 / 10); [| apply Hge].
      * apply Qle_bool_imp_le. reflexivity.
      * change (inject_Z 600) with 600. lra.
    + apply Qle_trans with (inject_Z 950 / 10); [apply Hle |].
      * change (inject_Z 950) with 950. lra.
      * apply Qle_bool_imp_le. reflexivity.
Qed.

(** X2.  The score against the severity: a Low result has a score of at most
    30.0, a Medium one a score from 30.0 to 60.0, a High one a score from
    60.0 to 95.0; the code is always 0, 1 or 2.  (The score is rounded after
    the severity is decided, so 30.0 and 60.0 belong to both sides.) *)
Theorem risk_score_bands (now location : string) (c : Conditions)
    (p : Prediction) :
  predict_accident_risk now location c = Success p ->
  (severity_code p = 0%Z /\ predicted_severity p = "Low Risk"
   /\ risk_score p <= 30)
  \/ (severity_code p = 1%Z /\ predicted_severity p = "Medium Risk"
      /\ 30 <= risk_score p <= 60)
  \/ (severity_code p = 2%Z /\ predicted_severity p = "High Risk"
      /\ 60 <= risk_score p <= 95).
Proof. exact (score_by_severity now location c p). Qed.

Lemma risk_score_bands_witness :
  exists p,
    predict_accident_risk "2024-06-01T12:00:00" "Mumbai, Maharashtra"
      test_conditions = Success p
    /\ severity_code p = 1%Z /\ 30 <= risk_score p <= 60.
Proof.
  evaluate_as Hp
    (predict_accident_risk "2024-06-01T12:00:00" "Mumbai, Maharashtra"
       test_conditions).
  eexists. split; [exact Hp |].
  destruct (risk_score_bands _ _ _ _ Hp)
    as [(H & _) | [(H & _ & Hs) | (H & _)]];
    try (cbn [severity_code] in H; discriminate H).
  split; [exact H | exact Hs].
Defined.

Lemma round_half_even_nonneg (x : Q) :
  -(1 # 2) < x -> (0 <= round_half_even x)%Z.
Proof.
  intros H. pose proof (round_half_even_near x) as [_ Hhi].
  assert (-1 < round_half_even x)%Z; [| lia].
  rewrite Zlt_Qlt. change (inject_Z (-1)) with (-1).
  pose proof (round_half_even_near x) as [Hlo _]. lra.
Qed.

Lemma round_nonneg (x : Q) : -(1 # 2000) < x -> 0 <= round x 3.
Proof.
  intros H. unfold round, Qle. cbn [Qnum Qden].
  rewrite Z.mul_1_r, Z.mul_0_l. apply round_half_even_nonneg.
  change (inject_Z (Zpos (10 ^ 3))) with 1000. lra.
Qed.

(** Names the next uniform draw of the goal, with its range. *)
Ltac draw :=
  match goal with
  | |- context [Random.uniform ?a ?b ?r] =>
      let Hu := fresh "Hu" in
      let u := fresh "u" in
      let r' := fresh "r" in
      pose proof (uniform_range a b r ltac:(lra)) as Hu;
      destruct (Random.uniform a b r) as [u r'];
      cbn [fst] in Hu; cbv beta iota zeta
  end.

(** The three probabilities before the rounding, when the risk after the
    jitter is at most 0.8005: none is below -0.00035. *)
Lemma unrounded_probabilities_lower (location : string) (c : Conditions)
    (t l m h : Q) :
  final_risk location c t <= 0.8005 ->
  unrounded_probabilities location c t = Return (l, m, h) ->
  -0.00035 <= l /\ -0.00035 <= m /\ 0 <= h.
Proof.
  unfold unrounded_probabilities.
  pose proof (final_risk_range location c t) as Hrange.
  unfold final_risk in *.
  destruct (jitter (normalize t) (generator location c)) as [f r1].
  cbn [fst] in *. intros Hf.
  destruct (classify_cases f) as [[H1 E] | [(H1 & H2 & E) | [H1 E]]];
    rewrite E; unfold distribution; cbn [Z.eqb Pos.eqb];
    draw; draw;
    match goal with
    | |- normalize_probabilities ?pl ?pm ?ph = _ -> _ =>
        let Hsum := fresh "Hsum" in
        assert (pl + pm + ph == 1) as Hsum by ring;
        destruct (normalize_probabilities_returns _ _ _ Hsum)
          as (l' & m' & h' & -> & Hl & Hm & Hh)
    end;
    intros [= <- <- <-]; rewrite Hl, Hm, Hh.
  - set (pl := f + u) in *.
    assert (1 - pl - (1 - pl) * u0 == (1 - pl) * (1 - u0)) as -> by ring.
    assert (0.2 <= 1 - pl) by (unfold pl; lra).
    repeat split; [unfold pl; lra | nra | nra].
  - set (pm := f + u) in *.
    assert (1 - (1 - pm) * u0 - pm == (1 - pm) * (1 - u0)) as -> by ring.
    assert (0.1 <= 1 - pm) by (unfold pm; lra).
    repeat split; [nra | unfold pm; lra | nra].
  - set (ph := f + u) in *.
    assert (1 - ph - (1 - ph) * u0 == (1 - ph) * (1 - u0)) as -> by ring.
    assert (-0.0005 <= 1 - ph) by (unfold ph; lra).
    repeat split; [nra | nra | unfold ph; lra].
Qed.

Lemma nonnegative_probabilities (now location : string)
    (c : Conditions) (p : Prediction) :
  predict_accident_risk now location c = Success p ->
  risk_score p <= 80 ->
  0 <= low (probabilities p)
  /\ 0 <= medium (probabilities p)
  /\ 0 <= high (probabilities p).
Proof.
  intros Hp Hscore. destruct (predict_success_inv _ _ _ _ Hp) as [t Ht].
  destruct (predict_returns now location c t Ht)
    as (p' & sev & l & m & h & Hp' & Hs & _ & Hraw & _ & Hprobs & _).
  rewrite Hp in Hp'. injection Hp' as <-.
  assert (final_risk location c t <= 0.8005) as Hf.
  { rewrite Hs in Hscore. unfold round in Hscore.
    rewrite (Qmake_as_product (round_half_even _)) in Hscore.
    pose proof (round_half_even_near
                  (final_risk location c t * 100 * inject_Z (Zpos (10 ^ 1))))
      as [Hlo _].
    change (inject_Z (Zpos (10 ^ 1))) with 10 in *.
    change (1 # 10 ^ 1) with (1 # 10) in Hscore.
    set (k := inject_Z (round_half_even (final_risk location c t * 100 * 10)))
      in *. clearbody k. lra. }
  destruct (unrounded_probabilities_lower _ _ _ _ _ _ Hf Hraw)
    as (Hl & Hm & Hh).
  rewrite Hprobs. cbn [low medium high].
  repeat split; apply round_nonneg; lra.
Qed.

(** X3.  Whenever the risk score returned is at most 80.0, the three
    probabilities returned are non-negative. *)
Theorem probabilities_nonnegative_up_to_80 (now location : string)
    (c : Conditions) (p : Prediction) :
  predict_accident_risk now location c = Success p ->
  risk_score p <= 80 ->
  0 <= low (probabilities p)
  /\ 0 <= medium (probabilities p)
  /\ 0 <= high (probabilities p).
Proof. exact (nonnegative_probabilities now location c p). Qed.

Lemma probabilities_nonnegative_up_to_80_witness :
  exists p,
    predict_accident_risk "2024-06-01T12:00:00" "Mumbai, Maharashtra"
      test_conditions = Success p
    /\ 0 <= low (probabilities p)
    /\ 0 <= medium (probabilities p)
    /\ 0 <= high (probabilities p).
Proof.
  evaluate_as Hp
    (predict_accident_risk "2024-06-01T12:00:00" "Mumbai, Maharashtra"
       test_conditions).
  eexists. split; [exact Hp |].
  apply (probabilities_nonnegative_up_to_80 _ _ _ _ Hp).
  cbn [risk_score]. apply Qle_bool_imp_le. reflexivity.
Defined.

(** ** The base risk of a location *)

Lemma first_city_skip (pre post : dict Q) (l : string) :
  (forall city risk, In (city, risk) pre -> contains city l = false) ->
  first_city (pre ++ post)%list l = first_city post l.
Proof.
  induction pre as [| [k v] pre IH]; intros H; [reflexivity |].
  cbn [app first_city]. rewrite (H k v (or_introl eq_refl)).
  apply IH. intros city risk Hin. apply (H city risk). right. exact Hin.
Qed.

(** X4.  For a location written in ASCII, the cities are tried in the order
    of the table and the first one found in the lowercased location
    decides, whatever else the location names: a location that names Mumbai
    and Delhi gets the risk of Mumbai. *)
Theorem location_risk_first_city (location city : string) (risk : Q)
    (pre post : dict Q) :
  is_ascii location = true ->
  location_risk_base = (pre ++ (city, risk) :: post)%list ->
  (forall city' risk', In (city', risk') pre ->
                       contains city' (lower location) = false) ->
  contains city (lower location) = true ->
  _get_location_risk location = Return risk.
Proof.
  intros _ Htable Hpre Hcity. unfold _get_location_risk.
  rewrite Htable, (first_city_skip pre _ _ Hpre).
  cbn [first_city]. rewrite Hcity. reflexivity.
Qed.

Lemma location_risk_first_city_witness :
  _get_location_risk "Old Delhi - Mumbai road" = Return 0.6
  /\ _get_location_risk "PUNE CITY" = Return 0.5.
Proof.
  split.
  - apply (location_risk_first_city _ "mumbai" 0.6 []
             (List.tl location_risk_base)).
    + reflexivity.
    + reflexivity.
    + intros city' risk' [].
    + vm_compute. reflexivity.
  - apply (location_risk_first_city _ "pune" 0.5
             (firstn 6 location_risk_base) (skipn 7 location_risk_base)).
    + reflexivity.
    + reflexivity.
    + intros city' risk' Hin. cbn [firstn location_risk_base In] in Hin.
      repeat (destruct Hin as [[= <- <-] | Hin]; [vm_compute; reflexivity |]).
      destruct Hin.
    + vm_compute. reflexivity.
Defined.

Lemma first_city_values (d : dict Q) (l : string) (r : Q) :
  first_city d l = Some r -> In r (map snd d).
Proof.
  induction d as [| [k v] d IH]; cbn [first_city map snd In]; [discriminate |].
  destruct (contains k l); [intros [= <-]; left; reflexivity | auto].
Qed.

(** X5.  [_get_location_risk] never raises, also on the empty string, and its
    value is one of 0.4, 0.45, 0.5, 0.6 and 0.7. *)
Theorem location_risk_values (location : string) :
  exists risk,
    _get_location_risk location = Return risk
    /\ In risk [0.4; 0.45; 0.5; 0.6; 0.7].
Proof.
  unfold _get_location_risk.
  destruct (first_city location_risk_base (lower location)) as [r |] eqn:E.
  - exists r. split; [reflexivity |].
    apply first_city_values in E. cbn [location_risk_base map snd In] in E.
    cbn [In]. intuition.
  - destruct (existsb _ urban_keywords);
      [| destruct (existsb _ rural_keywords)];
      eexists; (split; [reflexivity | cbn [In]; tauto]).
Qed.

(** ** Brackets of age and experience *)

Lemma same_age_bracket (a1 a2 : Z) :
  _calculate_age_risk a1 = _calculate_age_risk a2 ->
  (a1 <? 25)%Z = (a2 <? 25)%Z.
Proof.
  unfold _calculate_age_risk.
  destruct (a1 <? 25)%Z, (a2 <? 25)%Z; try reflexivity;
    destruct (a1 <=? 40)%Z, (a2 <=? 40)%Z, (a1 <=? 60)%Z, (a2 <=? 60)%Z;
    discriminate.
Qed.

Lemma same_experience_bracket (e1 e2 : Z) :
  _calculate_experience_risk e1 = _calculate_experience_risk e2 ->
  (e1 <? 2)%Z = (e2 <? 2)%Z.
Proof.
  unfold _calculate_experience_risk.
  destruct (e1 <? 2)%Z, (e2 <? 2)%Z; try reflexivity;
    destruct (e1 <=? 5)%Z, (e2 <=? 5)%Z, (e1 <=? 10)%Z, (e2 <=? 10)%Z;
    discriminate.
Qed.

(** X6.  The whole result depends on the driver's age only through its bracket
    (under 25, 25 to 40, 41 to 60, over 60) and on the experience only
    through its bracket (under 2, 2 to 5, 6 to 10, over 10): two calls that
    differ by an age, or an experience, of the same bracket return the same
    dict. *)
Theorem result_depends_on_brackets (now location : string) (c : Conditions)
    (a1 a2 e1 e2 : Z) :
  _calculate_age_risk a1 = _calculate_age_risk a2 ->
  _calculate_experience_risk e1 = _calculate_experience_risk e2 ->
  predict_accident_risk now location
    (with_experience (Some e1) (with_driver_age (Some a1) c))
  = predict_accident_risk now location
      (with_experience (Some e2) (with_driver_age (Some a2) c)).
Proof.
  intros Ha He.
  pose proof (same_age_bracket _ _ Ha) as Ha'.
  pose proof (same_experience_bracket _ _ He) as He'.
  unfold predict_accident_risk, total_risk, _generate_seed,
    _generate_recommendations, _identify_risk_factors, len.
  cbv beta delta [with_experience with_driver_age].
  cbn [vehicle_type driver_age experience license_valid seatbelt weather
       road_surface visibility light_condition road_type road_design
       traffic_volume speed_limit current_speed time_of_day is_weekend
       area_type overtaking alcohol phone_usage accident_history get
       present].
  rewrite Ha, He, Ha', He'. reflexivity.
Qed.

Lemma result_depends_on_brackets_witness :
  predict_accident_risk "2024-06-01T12:00:00" "Goa"
    (with_experience (Some 6%Z) (with_driver_age (Some 25%Z) test_conditions))
  = predict_accident_risk "2024-06-01T12:00:00" "Goa"
      (with_experience (Some 10%Z)
         (with_driver_age (Some 40%Z) test_conditions)).
Proof. apply result_depends_on_brackets; reflexivity. Defined.

(** ** Risk factors *)

Lemma if_entry_nil {A : Type} (b : bool) (x : A) (rest : list A) :
  ((if b then [x] else []) ++ rest)%list = [] <-> b = false /\ rest = [].
Proof.
  destruct b; cbn [app]; split.
  - discriminate.
  - intros [H _]. discriminate H.
  - auto.
  - intros [_ H]. exact H.
Qed.

Lemma if_entry_length {A : Type} (b : bool) (x : A) :
  (length (if b then [x] else []) <= 1)%nat.
Proof. destruct b; cbn [length]; lia. Qed.

(** X7.  [_identify_risk_factors] never raises (the keys it indexes are read only
    when they are there); it returns at most nine entries, and none exactly
    when the weather is Clear, the surface Dry, the visibility high, the
    light has no "Night", the traffic is not High, the speed is within the
    limit, the design is neither Junction nor Curved, the driver is at least
    25 and has at least 2 years of experience (absent keys at the defaults
    of this function). *)
Theorem risk_factors_total (c : Conditions) :
  exists l,
    _identify_risk_factors c = Return l
    /\ (length l <= 9)%nat
    /\ (l = [] <->
        String.eqb (get (weather c) "Clear") "Clear" = true
        /\ String.eqb (get (road_surface c) "Dry") "Dry" = true
        /\ String.eqb (get (visibility c) "high") "high" = true
        /\ contains "Night" (get (light_condition c) "Daylight") = false
        /\ String.eqb (get (traffic_volume c) "Low") "High" = false
        /\ (get (speed_limit c) 50 <? get (current_speed c) 0)%Z = false
        /\ mem (get (road_design c) "Straight") ["Junction"; "Curved"] = false
        /\ (get (driver_age c) 30 <? 25)%Z = false
        /\ (get (experience c) 5 <? 2)%Z = false).
Proof.
  destruct (identify_risk_factors_returns c) as [l Hl].
  exists l. split; [exact Hl |].
  rewrite (identify_risk_factors_entries c l Hl). split.
  - rewrite !length_app.
    repeat match goal with
      | |- context [length (if ?b then [?x] else [])] =>
          let H := fresh "H" in
          pose proof (if_entry_length b x) as H;
          set (length (if b then [x] else [])) in *
      end.
    lia.
  - rewrite !if_entry_nil.
    assert (forall (b : bool) (x : string),
               (if b then [x] else []) = [] <-> b = false) as Hlast
      by (intros [] x; split; intros; try reflexivity; discriminate).
    rewrite Hlast, !negb_false_iff. tauto.
Qed.

Lemma risk_factors_total_witness :
  exists l, _identify_risk_factors test_conditions = Return l /\ l = [].
Proof.
  destruct (risk_factors_total test_conditions) as (l & Hl & _ & Hnil).
  exists l. split; [exact Hl |].
  apply Hnil. vm_compute. repeat split.
Defined.

(** X8.  A dict without [current_speed] and with a limit under 40: the total is
    computed with the default speed 40 and includes a speeding contribution,
    while the risk factors, which read the default 0, do not list
    "Speeding". *)
Theorem missing_speed_scored_but_not_listed (location : string)
    (c : Conditions) (limit : Z) (t : Q) :
  current_speed c = None ->
  speed_limit c = Some limit ->
  (0 <= limit < 40)%Z ->
  total_risk location c = Return t ->
  (exists t0,
      total_risk location (with_current_speed (Some limit) c) = Return t0
      /\ t == t0 + min (inject_Z (40 - limit) * 0.01) 1.0
      /\ t0 < t)
  /\ exists l, _identify_risk_factors c = Return l /\ ~ In "Speeding" l.
Proof.
  intros Hspeed Hlimit Hrange Ht. split.
  - destruct (total_risk_speed location c t Ht) as (t0 & r & Ht0 & Hr & Hsum).
    rewrite Hlimit in Ht0. rewrite Hspeed, Hlimit in Hr.
    cbn [get] in Ht0, Hr.
    exists t0. split; [exact Ht0 |].
    destruct (speed_risk_cases 40 limit)
      as [(Hle & _) | [(_ & _ & Er) | (_ & _ & Er)]];
      [lia | | rewrite Er in Hr; discriminate Hr].
    assert (r = min (inject_Z (40 - limit) * risk_weights.speed_factor) 1.0)
      as -> by congruence.
    clear Er Hr.
    unfold risk_weights.speed_factor in Hsum.
    split; [exact Hsum |].
    assert (0 < inject_Z (40 - limit)) as Hpos.
    { change 0 with (inject_Z 0). rewrite <- Zlt_Qlt. lia. }
    destruct (min_cases (inject_Z (40 - limit) * 0.01) 1.0)
      as [[Hc E] | [Hc E]]; rewrite E in Hsum; lra.
  - destruct (identify_risk_factors_returns c) as [l Hl].
    exists l. split; [exact Hl |].
    rewrite (identify_risk_factors_entries c l Hl).
    rewrite Hspeed, Hlimit. cbn [get].
    destruct (Z.ltb_spec limit 0) as [Hlt | _]; [lia |].
    rewrite !in_app_iff.
    intros H. repeat (destruct H as [H | H]);
      repeat match type of H with
        | context [if ?b then _ else _] => destruct b
        end;
      cbn [In] in H; try (destruct H as [H | H]); try contradiction;
      discriminate H.
Qed.

Lemma missing_speed_scored_but_not_listed_witness :
  let c :=
    mk_conditions None None None None None None None None None None None None
      (Some 30%Z) None None None None None None None None in
  exists t,
    total_risk "Goa" c = Return t
    /\ (exists t0,
          total_risk "Goa" (with_current_speed (Some 30%Z) c) = Return t0
          /\ t == t0 + min (inject_Z (40 - 30) * 0.01) 1.0
          /\ t0 < t)
    /\ exists l, _identify_risk_factors c = Return l /\ ~ In "Speeding" l.
Proof.
  intros c.
  evaluate_as Ht (total_risk "Goa" c).
  eexists. split; [exact Ht |].
  apply (missing_speed_scored_but_not_listed "Goa" c 30 _
           eq_refl eq_refl ltac:(lia) Ht).
Defined.

(** ** Recommendations *)

Lemma recommendations_as_matches (c : Conditions) (severity_code : Z) :
  _generate_recommendations c severity_code
  = firstn 6 (concat (map snd (filter fst (checklist c severity_code)))).
Proof.
  unfold _generate_recommendations, checklist. cbv zeta. f_equal.
  rewrite !matches_cons. cbn [filter map concat].
  rewrite append_closing_if, append_twice_if, !append_if.
  rewrite !app_nil_l, app_nil_r, <- !app_assoc. reflexivity.
Qed.

Lemma firstn_nil_iff {A : Type} (n : nat) (l : list A) :
  firstn (S n) l = [] <-> l = [].
Proof. destruct l; cbn [firstn]; split; intros H; try reflexivity; discriminate H. Qed.

Lemma if_entries_nil {A : Type} (b : bool) (x : A) (xs rest : list A) :
  ((if b then x :: xs else []) ++ rest)%list = [] <-> b = false /\ rest = [].
Proof.
  destruct b; cbn [app]; split.
  - discriminate.
  - intros [H _]. discriminate H.
  - auto.
  - intros [_ H]. exact H.
Qed.

Lemma recommendations_empty_iff (c : Conditions) (severity_code : Z) :
  _generate_recommendations c severity_code = [] <->
  mem (get (weather c) "Clear") ["Rainy"; "Foggy"; "Snowy"; "Stormy"] = false
  /\ (get (speed_limit c) 50 <? get (current_speed c) 0)%Z = false
  /\ contains "Night" (get (light_condition c) "Daylight") = false
  /\ String.eqb (get (vehicle_type c) "Car") "Bike" = false
  /\ String.eqb (get (seatbelt c) "yes") "no" = false
  /\ String.eqb (get (alcohol c) "no") "yes" = false
  /\ String.eqb (get (phone_usage c) "no") "yes" = false
  /\ (severity_code < 1)%Z.
Proof.
  rewrite recommendations_as_matches, firstn_nil_iff.
  unfold checklist. cbv zeta. rewrite !matches_cons. cbn [filter map concat].
  rewrite !if_entries_nil.
  destruct (Z.leb_spec 2 severity_code), (Z.eqb_spec severity_code 1);
    cbn [negb andb]; split; intros Hyp; decompose [and] Hyp; repeat split;
    try assumption; try discriminate; try reflexivity; lia.
Qed.

Lemma firstn_length_le {A : Type} (n : nat) (l : list A) :
  (length (firstn n l) <= n)%nat.
Proof.
  revert l. induction n as [| n IH]; intros [| x l]; cbn [firstn length];
    try lia. specialize (IH l). lia.
Qed.

(** X9.  A successful call returns at most six recommendations, and at least
    one unless the severity is Low: the list is empty exactly when the
    severity code is 0 and no test matches (the weather is not adverse, the
    speed is within the limit, the light has no "Night", the vehicle is not
    a Bike, the seatbelt is not "no", alcohol and phone usage are not
    "yes"). *)
Theorem recommendations_count (now location : string) (c : Conditions)
    (p : Prediction) :
  predict_accident_risk now location c = Success p ->
  (length (recommendations p) <= 6)%nat
  /\ (recommendations p = [] <->
      severity_code p = 0%Z
      /\ mem (get (weather c) "Clear") ["Rainy"; "Foggy"; "Snowy"; "Stormy"]
         = false
      /\ (get (speed_limit c) 50 <? get (current_speed c) 0)%Z = false
      /\ contains "Night" (get (light_condition c) "Daylight") = false
      /\ String.eqb (get (vehicle_type c) "Car") "Bike" = false
      /\ String.eqb (get (seatbelt c) "yes") "no" = false
      /\ String.eqb (get (alcohol c) "no") "yes" = false
      /\ String.eqb (get (phone_usage c) "no") "yes" = false).
Proof.
  intros Hp. destruct (predict_success_inv _ _ _ _ Hp) as [t Ht].
  destruct (predict_returns now location c t Ht)
    as (p' & sev & l & m & h & Hp' & _ & _ & _ & _ & _ & Hrec & _).
  rewrite Hp in Hp'. injection Hp' as <-.
  rewrite Hrec. split.
  - unfold _generate_recommendations. cbv zeta. apply firstn_length_le.
  - rewrite recommendations_empty_iff.
    destruct (score_by_severity _ _ _ _ Hp)
      as [(E & _) | [(E & _) | (E & _)]]; rewrite E; intuition lia.
Qed.

Lemma recommendations_count_witness :
  exists p,
    predict_accident_risk "2024-06-01T12:00:00" "Mumbai, Maharashtra"
      test_conditions = Success p
    /\ (length (recommendations p) <= 6)%nat.
Proof.
  evaluate_as Hp
    (predict_accident_risk "2024-06-01T12:00:00" "Mumbai, Maharashtra"
       test_conditions).
  eexists. split; [exact Hp |].
  exact (proj1 (recommendations_count _ _ _ _ Hp)).
Defined.

Lemma in_firstn {A : Type} (x : A) (n : nat) (l : list A) :
  In x (firstn n l) -> In x l.
Proof.
  revert l. induction n as [| n IH]; intros [| y l]; cbn [firstn In];
    try tauto. intros [H | H]; [left; exact H | right; apply IH, H].
Qed.

(** X10.  The alcohol warning is recommended exactly when alcohol is "yes" and
    the five tests before it (adverse weather, speeding, night, Bike, no
    seatbelt) do not all match: when they all do, their six strings fill
    the list and the warning is cut. *)
Theorem alcohol_warning_iff (c : Conditions) (severity_code : Z) :
  In alcohol_warning (_generate_recommendations c severity_code) <->
  String.eqb (get (alcohol c) "no") "yes" = true
  /\ (mem (get (weather c) "Clear") ["Rainy"; "Foggy"; "Snowy"; "Stormy"]
      && (get (speed_limit c) 50 <? get (current_speed c) 0)%Z
      && contains "Night" (get (light_condition c) "Daylight")
      && String.eqb (get (vehicle_type c) "Car") "Bike"
      && String.eqb (get (seatbelt c) "yes") "no") = false.
Proof.
  rewrite recommendations_as_matches.
  unfold checklist. cbv zeta. rewrite !matches_cons. cbn [filter map concat].
  set (speed_message := (_ ++ str _ ++ _)%string).
  assert (speed_message <> alcohol_warning) as Hspeed
    by (unfold speed_message; cbn [String.append]; discriminate).
  clearbody speed_message.
  match goal with
  | |- context [((if String.eqb (get (phone_usage c) "no") "yes"
                  then ?x else []) ++ ?rest)%list] =>
      set (tail := ((if String.eqb (get (phone_usage c) "no") "yes"
                     then x else []) ++ rest)%list)
  end.
  assert (forall n, ~ In alcohol_warning (firstn n tail)) as Htail.
  { intros n H. apply in_firstn in H. unfold tail in H.
    rewrite !in_app_iff in H.
    repeat (destruct H as [H | H]);
      repeat match type of H with
        | context [if ?b then _ else _] => destruct b
        end;
      cbn [In] in H; repeat (destruct H as [H | H]); try contradiction;
      discriminate H. }
  clearbody tail.
  destruct (mem (get (weather c) "Clear") _),
    (get (speed_limit c) 50 <? get (current_speed c) 0)%Z,
    (contains "Night" (get (light_condition c) "Daylight")),
    (String.eqb (get (vehicle_type c) "Car") "Bike"),
    (String.eqb (get (seatbelt c) "yes") "no"),
    (String.eqb (get (alcohol c) "no") "yes");
    cbn [app firstn In andb];
    (split;
     [ intros H; repeat (destruct H as [H | H]);
       try contradiction;
       try (exfalso;
            first [ exact (Htail 0%nat H) | exact (Htail 1%nat H)
                  | exact (Htail 2%nat H) | exact (Htail 3%nat H)
                  | exact (Htail 4%nat H) | exact (Htail 5%nat H)
                  | exact (Htail 6%nat H) ]);
       try (exfalso; apply Hspeed; exact H);
       try discriminate H; split; reflexivity
     | intros [H1 H2]; try discriminate H1; try discriminate H2; tauto ]).
Qed.

Lemma alcohol_warning_iff_witness :
  In alcohol_warning
     (_generate_recommendations (with_alcohol (Some "yes") test_conditions) 1).
Proof.
  apply alcohol_warning_iff. split; vm_compute; reflexivity.
Defined.

(** ** The wrapper of app/predictor.py *)

(** The total risk depends on the location through its base risk only. *)
Lemma total_risk_by_base (location location' : string) (c : Conditions)
    (b b' t' : Q) :
  _get_location_risk location = Return b ->
  _get_location_risk location' = Return b' ->
  total_risk location' c = Return t' ->
  exists t, total_risk location c = Return t /\ t == t' - b' + b.
Proof.
  intros Hb Hb' H. unfold total_risk in H |- *. rewrite Hb. rewrite Hb' in H.
  cbn [bind] in H |- *. cbv zeta in H |- *.
  repeat match type of H with
    | context [bind ?m _] =>
        let E := fresh "E" in
        destruct m eqn:E; rewrite ?E in H; cbn [bind] in H |- *;
        try discriminate H
    end.
  injection H as <-. eexists. split; [reflexivity | ring].
Qed.

Lemma jitter_at_most (n : Q) (rng : Random.state) :
  0 <= n -> fst (jitter n rng) <= n * 1.05.
Proof.
  intros Hn. unfold jitter.
  pose proof (uniform_range 0.95 1.05 rng ltac:(lra)) as Hu.
  destruct (Random.uniform 0.95 1.05 rng) as [u rng']. cbn [fst] in *.
  destruct (min_cases (n * u) 0.95) as [[H ->] | [H ->]]; nra.
Qed.

(** The conditions made from a reading of the clock, case by case. *)
Ltac basic_cases d :=
  unfold AccidentPredictor._create_basic_conditions, datetime_now;
  cbv beta iota zeta; cbn [existsb];
  destruct ((5 <=? hour d) && (hour d <? 12))%Z;
  destruct ((12 <=? hour d) && (hour d <? 17))%Z;
  destruct ((17 <=? hour d) && (hour d <? 21))%Z;
  destruct ((6 <=? hour d) && (hour d <=? 18))%Z;
  destruct (month d =? 6)%Z; destruct (month d =? 7)%Z;
  destruct (month d =? 8)%Z; destruct (month d =? 9)%Z;
  destruct (5 <=? weekday d)%Z;
  cbn [orb fst snd].

Lemma basic_conditions_at (timestamp : option datetime) (k : clock) :
  AccidentPredictor._create_basic_conditions timestamp k
  = (fst (AccidentPredictor._create_basic_conditions
            (Some (match timestamp with Some t => t | None => k O end)) k),
     match timestamp with Some _ => k | None => fun n => k (S n) end).
Proof.
  destruct timestamp as [d |]; [basic_cases d | basic_cases (k O)];
    reflexivity.
Qed.

Lemma basic_conditions_valid_at (d : datetime) (k : clock) :
  valid_conditions
    (fst (AccidentPredictor._create_basic_conditions (Some d) k)) = true.
Proof. basic_cases d; vm_compute; reflexivity. Qed.

Lemma basic_conditions_total_at (d : datetime) (k : clock) :
  exists t,
    total_risk ""
      (fst (AccidentPredictor._create_basic_conditions (Some d) k)) = Return t
    /\ 3.55 <= t <= 5.75.
Proof.
  basic_cases d;
    (eexists; split; [vm_compute; reflexivity |];
     split; apply Qle_bool_imp_le; reflexivity).
Qed.

(** What a formatted answer is made of. *)
Lemma comprehensive_inv (location : string) (c : Conditions) (k k' : clock)
    (p : Formatted.Prediction) :
  AccidentPredictor.predict_comprehensive_risk location c k
  = (AccidentPredictor.Formatted_result p, k') ->
  exists r,
    predict_accident_risk (isoformat (k O)) location c = Success r
    /\ Formatted.risk_zone (Formatted.location p) = ltb 70 (risk_score r)
    /\ Formatted.address (Formatted.location p) = location
    /\ Formatted.risk_score p = risk_score r
    /\ Formatted.severity_code p = severity_code r
    /\ Formatted.predicted_severity p = predicted_severity r
    /\ Formatted.risk_level p = predicted_severity r
    /\ Formatted.probabilities p
       = {| Formatted.slight := low (probabilities r);
            Formatted.serious := medium (probabilities r);
            Formatted.fatal := high (probabilities r) |}
    /\ Formatted.risk_factors p = risk_factors r
    /\ Formatted.recommendations p = recommendations r.
Proof.
  unfold AccidentPredictor.predict_comprehensive_risk, datetime_now.
  cbv beta iota zeta.
  destruct (predict_accident_risk (isoformat (k O)) location c) as [r | e l];
    intros H; [| discriminate H].
  injection H as <- _. exists r. cbn. repeat split.
Qed.

Lemma scorable_total (location : string) (c : Conditions) :
  scorable c = true -> numbers_fit c = true ->
  exists t, total_risk location c = Return t.
Proof.
  intros Hs Hfit. apply numbers_fit_parts in Hfit.
  destruct Hfit as [Hspeed Hhist].
  destruct (total_risk_returns location c Hs Hspeed) as (rest & _ & Ht).
  specialize (Ht (accident_history c) Hhist).
  rewrite with_accident_history_same in Ht. eauto.
Qed.

Lemma forallb_fails {A : Type} (f : A -> bool) (l : list A) :
  forallb f l = false -> exists x, In x l /\ f x = false.
Proof.
  induction l as [| a l IH]; cbn [forallb]; [discriminate |].
  destruct (f a) eqn:E; cbn [andb]; intros H.
  - destruct (IH H) as (x & Hx & Hf). exists x. split; [right; exact Hx | exact Hf].
  - exists a. split; [left; reflexivity | exact E].
Qed.

Lemma not_scorable_total (location : string) (c : Conditions) :
  scorable c = false -> exists e, total_risk location c = Raise e.
Proof.
  intros Hs. unfold scorable in Hs.
  apply forallb_fails in Hs. destruct Hs as (f & _ & Hf).
  exact (total_risk_raises_outside location c f Hf).
Qed.

Lemma comprehensive_success (location : string) (c : Conditions)
    (k : clock) :
  scorable c = true ->
  numbers_fit c = true ->
  exists p,
    AccidentPredictor.predict_comprehensive_risk location c k
    = (AccidentPredictor.Formatted_result p, fun n => k (S n))
    /\ Formatted.address (Formatted.location p) = location
    /\ Formatted.timestamp p = isoformat (k O).
Proof.
  intros Hs Hfit. destruct (scorable_total location c Hs Hfit) as [t Ht].
  destruct (predict_returns (isoformat (k O)) location c t Ht)
    as (r & sev & l & m & h & Hr & _).
  unfold AccidentPredictor.predict_comprehensive_risk, datetime_now.
  cbv beta iota zeta. rewrite Hr. eexists. split; [reflexivity |].
  cbn [Formatted.address Formatted.location Formatted.timestamp].
  split; [reflexivity |].
  clear -Hr. unfold predict_accident_risk in Hr.
  destruct (total_risk location c) as [t | e]; cbn [bind] in Hr;
    [| discriminate Hr].
  destruct (jitter _ _) as [f r1].
  destruct (classify f) as [[[sev code] col] lvl].
  destruct (distribution code f r1) as [[[l0 m0] h0] r2].
  destruct (normalize_probabilities l0 m0 h0) as [[[l m] h] | e];
    cbn [bind] in Hr; [| discriminate Hr].
  destruct (confidence_score f r2) as [q r3].
  destruct (_identify_risk_factors c) as [rf | e]; cbn [bind] in Hr;
    [| discriminate Hr].
  injection Hr as <-. reflexivity.
Qed.

Lemma comprehensive_failure (location : string) (c : Conditions)
    (k : clock) :
  scorable c && numbers_fit c = false ->
  AccidentPredictor.predict_comprehensive_risk location c k
  = (AccidentPredictor.Engine_failure "Prediction calculation failed"
       location, k).
Proof.
  intros H.
  assert (exists e, total_risk location c = Raise e) as [e He].
  { apply andb_false_iff in H. destruct H as [H | H];
      [exact (not_scorable_total location c H)
      | exact (total_risk_overflows location c H)]. }
  unfold AccidentPredictor.predict_comprehensive_risk, datetime_now.
  cbv beta iota zeta.
  rewrite (predict_raises (isoformat (k O)) location c e He). reflexivity.
Qed.



(** X12.  [risk_zone] is set exactly when the risk score is above 70.0, and a
    location flagged in this way always comes with the severity High
    (code 2, level "High Risk"). *)
Theorem risk_zone_flag (location : string) (c : Conditions) (k k' : clock)
    (p : Formatted.Prediction) :
  AccidentPredictor.predict_comprehensive_risk location c k
  = (AccidentPredictor.Formatted_result p, k') ->
  (Formatted.risk_zone (Formatted.location p) = true
   <-> 70 < Formatted.risk_score p)
  /\ (Formatted.risk_zone (Formatted.location p) = true ->
      Formatted.severity_code p = 2%Z
      /\ Formatted.predicted_severity p = "High Risk"
      /\ Formatted.risk_level p = "High Risk").
Proof.
  intros H. destruct (comprehensive_inv _ _ _ _ _ H)
    as (r & Hr & Hz & _ & Hscore & Hcode & Hsev & Hlvl & _).
  rewrite Hz, Hscore, Hcode, Hsev, Hlvl.
  split; [apply ltb_lt |].
  intros Hflag. apply ltb_lt in Hflag.
  destruct (score_by_severity _ _ _ _ Hr)
    as [(_ & _ & B) | [(_ & _ & B) | (Hc & Hp & _)]]; [lra | lra |].
  rewrite Hc, Hp. repeat split.
Qed.

Lemma risk_zone_flag_witness :
  exists p k',
    AccidentPredictor.predict_comprehensive_risk "New Delhi"
      reckless_conditions still_clock
    = (AccidentPredictor.Formatted_result p, k')
    /\ 70 < Formatted.risk_score p
    /\ Formatted.severity_code p = 2%Z.
Proof.
  evaluate_as Hp
    (AccidentPredictor.predict_comprehensive_risk "New Delhi"
       reckless_conditions still_clock).
  do 2 eexists. split; [exact Hp |].
  destruct (risk_zone_flag _ _ _ _ _ Hp) as [Hiff Himp].
  split; [apply Hiff; reflexivity | apply Himp; reflexivity].
Defined.

Lemma basic_conditions_total (location : string)
    (timestamp : option datetime) (k : clock) :
  exists t,
    total_risk location
      (fst (AccidentPredictor._create_basic_conditions timestamp k))
    = Return t
    /\ 3.5 <= t <= 6.0.
Proof.
  rewrite basic_conditions_at. cbn [fst].
  set (d := match timestamp with Some t => t | None => k O end).
  destruct (get_location_risk_returns location) as (b & Hb & Bb).
  destruct (basic_conditions_total_at d k) as (t' & Ht' & Bt').
  assert (_get_location_risk "" = Return 0.45) as Hb'
    by (vm_compute; reflexivity).
  destruct (total_risk_by_base location "" _ b 0.45 t' Hb Hb' Ht')
    as (t & Ht & E).
  exists t. split; [exact Ht | lra].
Qed.

(** X13.  The conditions [_create_basic_conditions] makes are scored at every
    location and for every timestamp (whatever its hour, month and weekday
    hold): every field is inside its table, and the total risk lies between
    3.5 and 6.0.  The clock is read only when no timestamp is given. *)
Theorem basic_conditions_scored (location : string)
    (timestamp : option datetime) (k : clock) :
  valid_conditions
    (fst (AccidentPredictor._create_basic_conditions timestamp k)) = true
  /\ (exists t,
        total_risk location
          (fst (AccidentPredictor._create_basic_conditions timestamp k))
        = Return t
        /\ 3.5 <= t <= 6.0)
  /\ snd (AccidentPredictor._create_basic_conditions timestamp k)
     = match timestamp with Some _ => k | None => fun n => k (S n) end.
Proof.
  split; [| split].
  - rewrite basic_conditions_at. apply basic_conditions_valid_at.
  - apply basic_conditions_total.
  - rewrite basic_conditions_at. reflexivity.
Qed.

Lemma round_score_bounds (f : Q) :
  0.415625 <= f <= 0.7875 -> 41.6 <= round (f * 100) 1 <= 78.8.
Proof.
  intros [Hlo Hhi]. split.
  - apply Qle_trans with (round (0.415625 * 100) 1);
      [apply Qle_bool_imp_le; vm_compute; reflexivity |].
    apply round_monotone. lra.
  - apply Qle_trans with (round (0.7875 * 100) 1);
      [| apply Qle_bool_imp_le; vm_compute; reflexivity].
    apply round_monotone. lra.
Qed.

Lemma basic_prediction (now location : string) (d : datetime) (k : clock) :
  exists r,
    predict_accident_risk now location
      (fst (AccidentPredictor._create_basic_conditions (Some d) k))
    = Success r
    /\ (severity_code r = 1%Z \/ severity_code r = 2%Z)
    /\ 41.6 <= risk_score r <= 78.8
    /\ 0 <= low (probabilities r)
    /\ 0 <= medium (probabilities r)
    /\ 0 <= high (probabilities r).
Proof.
  set (c := fst (AccidentPredictor._create_basic_conditions (Some d) k)).
  destruct (basic_conditions_total location (Some d) k) as (t & Ht & Bt).
  fold c in Ht.
  destruct (predict_returns now location c t Ht)
    as (r & sev & l & m & h & Hr & Hscore & Hclass & _).
  assert (0.415625 <= final_risk location c t <= 0.7875) as Bf.
  { unfold final_risk.
    pose proof (normalize_range t) as Hn.
    assert (0.4375 <= normalize t <= 0.75) as Bn.
    { unfold normalize.
      pose proof (over_eight t) as E. set (q := t / 8.0) in *.
      py_minmax; lra. }
    pose proof (jitter_range (normalize t) (generator location c)
                  ltac:(lra)) as [J1 _].
    pose proof (jitter_at_most (normalize t) (generator location c)
                  ltac:(lra)) as J2.
    lra. }
  pose proof (round_score_bounds _ Bf) as Bs. rewrite <- Hscore in Bs.
  exists r. split; [exact Hr |]. split.
  - destruct (classify_cases (final_risk location c t))
      as [(B & E) | [(_ & _ & E) | (_ & E)]];
      rewrite E in Hclass; injection Hclass as _ <- _ _;
      [lra | left; reflexivity | right; reflexivity].
  - split; [exact Bs |].
    apply (nonnegative_probabilities _ _ _ _ Hr). lra.
Qed.

(** ** The nearest city *)

Lemma square_nonneg (q : Q) : 0 <= q * q.
Proof. destruct q as [n d]. unfold Qle. cbn. nia. Qed.

Lemma square_below (x m : Q) : -m <= x <= m -> x * x <= m * m.
Proof.
  intros [Hlo Hhi].
  assert (0 <= (m - x) * (m + x)) as H
    by (apply Qmult_le_0_compat; lra).
  lra.
Qed.

Lemma float_limit_large : 2000000 < inject_Z float_limit.
Proof. vm_compute. reflexivity. Qed.

Lemma square_returns (x : Q) :
  -1000 <= x <= 1000 -> square x = Return (x * x).
Proof.
  intros H. unfold square.
  pose proof float_limit_large as L.
  pose proof (square_below x 1000 H) as B.
  set (limit := inject_Z float_limit) in *. clearbody limit.
  assert (ltb (x * x) limit = true) as -> by (apply ltb_lt; lra).
  reflexivity.
Qed.

(** Where the point is less than 1000 away from the city in latitude and in
    longitude, the distance is the root of the sum of the squares. *)
Lemma distance_to_returns (lat lon city_lat city_lon : Q) :
  -1000 <= lat - city_lat <= 1000 ->
  -1000 <= lon - city_lon <= 1000 ->
  distance_to lat lon city_lat city_lon
  = Return (Root ((lat - city_lat) * (lat - city_lat)
                  + (lon - city_lon) * (lon - city_lon))).
Proof.
  intros Ha Hb. unfold distance_to.
  rewrite (square_returns _ Ha), (square_returns _ Hb). cbn [bind].
  pose proof float_limit_large as L.
  pose proof (square_below _ 1000 Ha) as Ba.
  pose proof (square_below _ 1000 Hb) as Bb.
  set (limit := inject_Z float_limit) in *. clearbody limit.
  set (a := (lat - city_lat) * (lat - city_lat)) in *.
  set (b := (lon - city_lon) * (lon - city_lon)) in *.
  assert (ltb (a + b) limit = true) as -> by (apply ltb_lt; lra).
  reflexivity.
Qed.

(** What a returned distance is. *)
Lemma distance_to_inv (lat lon city_lat city_lon : Q) (d : distance) :
  distance_to lat lon city_lat city_lon = Return d ->
  d = Inf
  \/ d = Root ((lat - city_lat) * (lat - city_lat)
              + (lon - city_lon) * (lon - city_lon)).
Proof.
  unfold distance_to, square.
  destruct (ltb ((lat - city_lat) * (lat - city_lat)) _); cbn [bind];
    [| discriminate].
  destruct (ltb ((lon - city_lon) * (lon - city_lon)) _); cbn [bind];
    [| discriminate].
  destruct (ltb _ _); intros [= <-]; [right | left]; reflexivity.
Qed.

Lemma table_in_reach (lat lon : Q) :
  -900 <= lat <= 900 -> -900 <= lon <= 900 ->
  forall la lo name,
    In (la, lo, name) AccidentPredictor.locations ->
    distance_to lat lon la lo
    = Return (Root (squared_distance lat lon (la, lo, name))).
Proof.
  intros Hlat Hlon la lo name H.
  unfold AccidentPredictor.locations in H. cbn [In] in H.
  repeat (destruct H as [H | H];
          [injection H as <- <- <-; apply distance_to_returns; lra |]).
  contradiction.
Qed.

Lemma closer_step (lat lon a : Q) (n : string) (e : Q * Q * string) :
  (let '(la, lo, _) := e in
   distance_to lat lon la lo = Return (Root (squared_distance lat lon e))) ->
  AccidentPredictor.closer lat lon (Root a, n) e
  = Return (if ltb (squared_distance lat lon e) a
            then (Root (squared_distance lat lon e), snd e)
            else (Root a, n)).
Proof.
  destruct e as [[la lo] nm]. intros H.
  unfold AccidentPredictor.closer. rewrite H. reflexivity.
Qed.

Lemma closest_returns (lat lon : Q) (l : list (Q * Q * string)) :
  (forall la lo name,
     In (la, lo, name) l ->
     distance_to lat lon la lo
     = Return (Root (squared_distance lat lon (la, lo, name)))) ->
  forall (a : Q) (n : string),
    (AccidentPredictor.closest lat lon l (Root a, n) = Return (Root a, n)
     /\ forall o, In o l -> a <= squared_distance lat lon o)
    \/ (exists pre e post,
          l = (pre ++ e :: post)%list
          /\ AccidentPredictor.closest lat lon l (Root a, n)
             = Return (Root (squared_distance lat lon e), snd e)
          /\ squared_distance lat lon e < a
          /\ (forall o, In o pre ->
                squared_distance lat lon e < squared_distance lat lon o)
          /\ (forall o, In o post ->
                squared_distance lat lon e <= squared_distance lat lon o)).
Proof.
  induction l as [| e l IH]; intros Hreach a n.
  - left. split; [reflexivity | intros o []].
  - cbn [AccidentPredictor.closest].
    assert (let '(la, lo, _) := e in
            distance_to lat lon la lo
            = Return (Root (squared_distance lat lon e))) as He
      by (destruct e as [[la lo] nm]; apply Hreach; left; reflexivity).
    rewrite (closer_step lat lon a n e He). cbn [bind].
    assert (forall la lo name,
              In (la, lo, name) l ->
              distance_to lat lon la lo
              = Return (Root (squared_distance lat lon (la, lo, name))))
      as Hrest by (intros la lo name H; apply Hreach; right; exact H).
    specialize (IH Hrest).
    destruct (ltb (squared_distance lat lon e) a) eqn:E.
    + apply ltb_lt in E.
      destruct (IH (squared_distance lat lon e) (snd e))
        as [[Hr Hall] | (pre & e' & post & Hl & Hr & Hlt & Hpre & Hpost)].
      * right. exists [], e, l.
        split; [reflexivity |]. split; [exact Hr |]. split; [exact E |].
        split; [intros o [] | exact Hall].
      * right. exists (e :: pre), e', post. subst l.
        split; [reflexivity |]. split; [exact Hr |]. split; [lra |].
        split; [| exact Hpost].
        intros o [<- | Ho]; [exact Hlt | exact (Hpre o Ho)].
    + apply ltb_ge in E.
      destruct (IH a n)
        as [[Hr Hall] | (pre & e' & post & Hl & Hr & Hlt & Hpre & Hpost)].
      * left. split; [exact Hr |].
        intros o [<- | Ho]; [exact E | exact (Hall o Ho)].
      * right. exists (e :: pre), e', post. subst l.
        split; [reflexivity |]. split; [exact Hr |]. split; [exact Hlt |].
        split; [| exact Hpost].
        intros o [<- | Ho]; [lra | exact (Hpre o Ho)].
Qed.

(** On exact distances the loop returns the first of the nearest entries. *)
Lemma first_nearest_entry (lat lon : Q) :
  -900 <= lat <= 900 -> -900 <= lon <= 900 ->
  exists pre e post,
    AccidentPredictor.locations = (pre ++ e :: post)%list
    /\ AccidentPredictor._coordinates_to_location lat lon = Return (snd e)
    /\ (forall o, In o pre ->
          squared_distance lat lon e < squared_distance lat lon o)
    /\ (forall o, In o post ->
          squared_distance lat lon e <= squared_distance lat lon o).
Proof.
  intros Hlat Hlon.
  pose proof (table_in_reach lat lon Hlat Hlon) as Hreach.
  unfold AccidentPredictor._coordinates_to_location.
  remember AccidentPredictor.locations as table eqn:T.
  unfold AccidentPredictor.locations in T.
  destruct table as [| e0 rest]; [discriminate T |]. clear T.
  cbn [AccidentPredictor.closest].
  assert (AccidentPredictor.closer lat lon (Inf, "Mumbai, Maharashtra") e0
          = Return (Root (squared_distance lat lon e0), snd e0)) as ->.
  { destruct e0 as [[la lo] nm]. unfold AccidentPredictor.closer.
    rewrite (Hreach la lo nm (or_introl eq_refl)). reflexivity. }
  cbn [bind].
  assert (forall la lo name,
            In (la, lo, name) rest ->
            distance_to lat lon la lo
            = Return (Root (squared_distance lat lon (la, lo, name))))
    as Hrest by (intros la lo name H; apply Hreach; right; exact H).
  destruct (closest_returns lat lon rest Hrest
              (squared_distance lat lon e0) (snd e0))
    as [[Hr Hall] | (pre & e & post & Hl & Hr & Hlt & Hpre & Hpost)];
    rewrite Hr; cbn [bind snd].
  - exists [], e0, rest.
    split; [reflexivity |]. split; [reflexivity |].
    split; [intros o [] | exact Hall].
  - exists (e0 :: pre), e, post. subst rest.
    split; [reflexivity |]. split; [reflexivity |].
    split; [| exact Hpost].
    intros o [<- | Ho]; [exact Hlt | exact (Hpre o Ho)].
Qed.

Lemma nearest_entry (lat lon : Q) :
  -900 <= lat <= 900 -> -900 <= lon <= 900 ->
  exists e,
    In e AccidentPredictor.locations
    /\ AccidentPredictor._coordinates_to_location lat lon = Return (snd e)
    /\ forall o, In o AccidentPredictor.locations ->
         squared_distance lat lon e <= squared_distance lat lon o.
Proof.
  intros Hlat Hlon.
  destruct (first_nearest_entry lat lon Hlat Hlon)
    as (pre & e & post & Hl & Hn & Hpre & Hpost).
  exists e. rewrite Hl. split; [apply in_elt |]. split; [exact Hn |].
  intros o Ho. apply in_app_or in Ho. destruct Ho as [Ho | [<- | Ho]].
  - apply Qlt_le_weak. exact (Hpre o Ho).
  - apply Qle_refl.
  - exact (Hpost o Ho).
Qed.

Lemma squared_distance_nonneg (lat lon : Q) (e : Q * Q * string) :
  0 <= squared_distance lat lon e.
Proof.
  destruct e as [[la lo] nm]. cbn [squared_distance].
  pose proof (square_nonneg (lat - la)). pose proof (square_nonneg (lon - lo)).
  lra.
Qed.

(** A coordinate too large for its square to be a float: nothing is
    returned. *)
Example coordinates_overflow :
  AccidentPredictor._coordinates_to_location (inject_Z (10 ^ 200)) 72.8777
  = Raise OverflowError.
Proof. vm_compute. reflexivity. Qed.

(** X17.  For a point of the globe [_coordinates_to_location] returns the
    name of an entry of its table that is a nearest one up to rounding: no
    entry is nearer by more than one part in a million (of the squared
    distance, plus as much).  The margin is that of the binary64 roots the
    code compares: between entries that are equally near up to a rounding
    error, which one is returned is left open.  At the coordinates of an
    entry the name of that entry is returned. *)
Theorem nearest_city (lat lon : Q) :
  (geographic lat lon ->
   exists e,
     In e AccidentPredictor.locations
     /\ AccidentPredictor._coordinates_to_location lat lon = Return (snd e)
     /\ forall o, In o AccidentPredictor.locations ->
          squared_distance lat lon e
          <= squared_distance lat lon o * (1 + tolerance) + tolerance)
  /\ (forall name,
        In (lat, lon, name) AccidentPredictor.locations ->
        AccidentPredictor._coordinates_to_location lat lon = Return name).
Proof.
  split.
  - intros [Hlat Hlon].
    destruct (nearest_entry lat lon ltac:(lra) ltac:(lra))
      as (e & He & Hn & Hmin).
    exists e. split; [exact He |]. split; [exact Hn |].
    intros o Ho. specialize (Hmin o Ho).
    pose proof (squared_distance_nonneg lat lon o) as H0.
    unfold tolerance.
    set (se := squared_distance lat lon e) in *.
    set (so := squared_distance lat lon o) in *. nra.
  - intros name H. unfold AccidentPredictor.locations in H. cbn [In] in H.
    repeat (destruct H as [H | H];
            [injection H as <- <- <-; vm_compute; reflexivity |]).
    contradiction.
Qed.

Lemma nearest_city_witness :
  (exists e,
     In e AccidentPredictor.locations
     /\ AccidentPredictor._coordinates_to_location 18.5 73.8 = Return (snd e)
     /\ forall o, In o AccidentPredictor.locations ->
          squared_distance 18.5 73.8 e
          <= squared_distance 18.5 73.8 o * (1 + tolerance) + tolerance)
  /\ AccidentPredictor._coordinates_to_location 18.5204 73.8567
     = Return "Pune, Maharashtra".
Proof.
  split.
  - apply (proj1 (nearest_city 18.5 73.8)).
    unfold geographic. repeat split; apply Qle_bool_imp_le; reflexivity.
  - apply (proj2 (nearest_city 18.5204 73.8567)).
    unfold AccidentPredictor.locations. cbn [In]. tauto.
Defined.

(** ** Predictions from coordinates *)

Lemma geographic_in_reach (lat lon : Q) :
  geographic lat lon -> -900 <= lat <= 900 /\ -900 <= lon <= 900.
Proof. unfold geographic. lra. Qed.

Lemma coordinates_name (lat lon : Q) :
  geographic lat lon ->
  exists name,
    AccidentPredictor._coordinates_to_location lat lon = Return name
    /\ In name (map snd AccidentPredictor.locations).
Proof.
  intros H. apply geographic_in_reach in H. destruct H as [Hlat Hlon].
  destruct (nearest_entry lat lon Hlat Hlon) as (e & He & Hn & _).
  exists (snd e). split; [exact Hn | apply in_map, He].
Qed.

(** X14.  A coordinate-based prediction for a point of the globe never
    fails: for every timestamp and clock [predict_risk] returns the
    formatted dict, for a city of the table of [_coordinates_to_location];
    its severity is Medium or High, never Low, its risk score lies between
    41.6 and 78.8, and its three probabilities are non-negative.  (Far
    outside the globe a square leaves the range of the floats and
    [predict_risk] raises [OverflowError].) *)
Theorem predict_risk_always_answers (lat lon : Q)
    (timestamp : option datetime) (k : clock) :
  geographic lat lon ->
  exists p k',
    AccidentPredictor.predict_risk lat lon timestamp k
    = Return (AccidentPredictor.Formatted_result p, k')
    /\ In (Formatted.address (Formatted.location p))
          (map snd AccidentPredictor.locations)
    /\ (Formatted.severity_code p = 1%Z \/ Formatted.severity_code p = 2%Z)
    /\ 41.6 <= Formatted.risk_score p <= 78.8
    /\ 0 <= Formatted.slight (Formatted.probabilities p)
    /\ 0 <= Formatted.serious (Formatted.probabilities p)
    /\ 0 <= Formatted.fatal (Formatted.probabilities p).
Proof.
  intros Hgeo.
  destruct (coordinates_name lat lon Hgeo) as (location & Hloc & Hin).
  unfold AccidentPredictor.predict_risk. rewrite Hloc. cbn [bind].
  rewrite basic_conditions_at.
  set (d := match timestamp with Some t => t | None => k O end).
  set (k1 := match timestamp with Some _ => k | None => fun n => k (S n) end).
  destruct (basic_prediction (isoformat (k1 O)) location d k)
    as (r & Hr & Hrest).
  unfold AccidentPredictor.predict_comprehensive_risk, datetime_now.
  cbv beta iota zeta. rewrite Hr.
  do 2 eexists. split; [reflexivity |].
  cbn [Formatted.address Formatted.location Formatted.severity_code
       Formatted.risk_score Formatted.probabilities Formatted.slight
       Formatted.serious Formatted.fatal].
  split; [exact Hin | exact Hrest].
Qed.

Lemma predict_risk_always_answers_witness :
  exists p k',
    AccidentPredictor.predict_risk 18.5 73.8 (Some dusk) still_clock
    = Return (AccidentPredictor.Formatted_result p, k')
    /\ In (Formatted.address (Formatted.location p))
          (map snd AccidentPredictor.locations)
    /\ 41.6 <= Formatted.risk_score p <= 78.8.
Proof.
  assert (geographic 18.5 73.8) as Hgeo
    by (unfold geographic; repeat split; apply Qle_bool_imp_le; reflexivity).
  destruct (predict_risk_always_answers 18.5 73.8 (Some dusk) still_clock
              Hgeo) as (p & k' & Hp & Ha & _ & Hs & _).
  exists p, k'. split; [exact Hp |]. split; [exact Ha | exact Hs].
Defined.

Lemma predict_risk_now (lat lon : Q) (k : clock) :
  geographic lat lon ->
  exists p,
    AccidentPredictor.predict_risk lat lon None k
    = Return (AccidentPredictor.Formatted_result p, fun n => k (S (S n)))
    /\ In (Formatted.address (Formatted.location p))
          (map snd AccidentPredictor.locations)
    /\ Formatted.timestamp p = isoformat (k 1%nat).
Proof.
  intros Hgeo.
  destruct (coordinates_name lat lon Hgeo) as (location & Hloc & Hin).
  unfold AccidentPredictor.predict_risk. rewrite Hloc. cbn [bind].
  rewrite basic_conditions_at.
  pose proof (basic_conditions_valid_at (k O) k) as Hv.
  apply valid_scorable in Hv. destruct Hv as [Hs _].
  assert (numbers_fit
            (fst (AccidentPredictor._create_basic_conditions (Some (k O)) k))
          = true) as Hfit
    by (basic_cases (k O); vm_compute; reflexivity).
  destruct (comprehensive_success location _ (fun n => k (S n)) Hs Hfit)
    as (p & Hp & Ha & Ht).
  exists p. rewrite Hp. split; [reflexivity |].
  rewrite Ha. split; [exact Hin | exact Ht].
Qed.

Lemma batch_loop_returns (l : list (Q * Q)) :
  (forall lat lon, In (lat, lon) l -> geographic lat lon) ->
  forall (acc : list AccidentPredictor.Response) (k : clock),
  exists rs k',
    AccidentPredictor.batch_loop l (acc, k) = Return ((acc ++ rs)%list, k')
    /\ length rs = length l
    /\ (forall i,
          (i < length l)%nat ->
          exists p,
            nth_error rs i = Some (AccidentPredictor.Formatted_result p)
            /\ In (Formatted.address (Formatted.location p))
                  (map snd AccidentPredictor.locations)
            /\ Formatted.timestamp p = isoformat (k (2 * i + 1)%nat))
    /\ (forall n, k' n = k (2 * length l + n)%nat).
Proof.
  induction l as [| [lat lon] l IH]; intros Hgeo acc k.
  - exists [], k. cbn [AccidentPredictor.batch_loop length].
    rewrite app_nil_r. repeat split. intros i H. lia.
  - cbn [AccidentPredictor.batch_loop].
    destruct (predict_risk_now lat lon k (Hgeo lat lon (or_introl eq_refl)))
      as (p & Hp & Ha & Ht).
    rewrite Hp. cbn [bind].
    assert (forall lat' lon', In (lat', lon') l -> geographic lat' lon')
      as Hrest by (intros lat' lon' H; apply Hgeo; right; exact H).
    destruct (IH Hrest (acc ++ [AccidentPredictor.Formatted_result p])%list
                 (fun n => k (S (S n))))
      as (rs & k' & Hrs & Hlen & Hnth & Hk).
    exists (AccidentPredictor.Formatted_result p :: rs), k'.
    split; [rewrite Hrs, <- app_assoc; reflexivity |].
    split; [cbn [length]; rewrite Hlen; reflexivity |].
    split.
    + intros [| i] Hi; cbn [nth_error length] in Hi |- *.
      * exists p. repeat split; assumption.
      * destruct (Hnth i ltac:(lia)) as (q & Hq & Hqa & Hqt).
        exists q. repeat split; try assumption.
        rewrite Hqt. f_equal. f_equal. lia.
    + intros n. rewrite Hk. cbn [length]. f_equal. lia.
Qed.

(** X15.  [batch_predict] answers every pair of coordinates of the globe, in
    their order: the list it returns is as long as the list it is given,
    its entry [i] is a formatted dict (never a failure) for a city of the
    table, stamped with the reading [2 * i + 1] of the clock, and the clock
    is read twice for each pair.  (A pair far outside the globe makes the
    whole call raise [OverflowError].) *)
Theorem batch_predict_answers (locations : list (Q * Q)) (k : clock) :
  (forall lat lon, In (lat, lon) locations -> geographic lat lon) ->
  exists results k',
    AccidentPredictor.batch_predict locations k = Return (results, k')
    /\ length results = length locations
    /\ (forall i,
          (i < length locations)%nat ->
          exists p,
            nth_error results i = Some (AccidentPredictor.Formatted_result p)
            /\ In (Formatted.address (Formatted.location p))
                  (map snd AccidentPredictor.locations)
            /\ Formatted.timestamp p = isoformat (k (2 * i + 1)%nat))
    /\ (forall n, k' n = k (2 * length locations + n)%nat).
Proof.
  intros Hgeo. unfold AccidentPredictor.batch_predict.
  destruct (batch_loop_returns locations Hgeo [] k)
    as (rs & k' & Hrs & Hrest).
  exists rs, k'. split; [exact Hrs | exact Hrest].
Qed.

Lemma batch_predict_answers_witness :
  exists results k',
    AccidentPredictor.batch_predict [(18.5204, 73.8567); (28.7, 77.1)]
      still_clock = Return (results, k')
    /\ length results = 2%nat.
Proof.
  assert (forall lat lon,
            In (lat, lon) [(18.5204, 73.8567); (28.7, 77.1)] ->
            geographic lat lon) as Hgeo
    by (intros lat lon [H | [H | []]]; injection H as <- <-;
        unfold geographic; repeat split; apply Qle_bool_imp_le;
        reflexivity).
  destruct (batch_predict_answers [(18.5204, 73.8567); (28.7, 77.1)]
              still_clock Hgeo) as (results & k' & Hr & Hlen & _).
  exists results, k'. split; [exact Hr | exact Hlen].
Defined.

Example batch_predict_overflow :
  AccidentPredictor.batch_predict
    [(18.5204, 73.8567); (inject_Z (10 ^ 200), 77.1)] still_clock
  = Raise OverflowError.
Proof. vm_compute. reflexivity. Qed.

(** Settles the comparisons of the goal with a literal, from the
    hypotheses. *)
Ltac settle_comparisons :=
  repeat match goal with
    | |- context [(?a <=? ?b)%Z] =>
        first [rewrite (proj2 (Z.leb_le a b)) by lia
              | rewrite (proj2 (Z.leb_gt a b)) by lia]
    | |- context [(?a <? ?b)%Z] =>
        first [rewrite (proj2 (Z.ltb_lt a b)) by lia
              | rewrite (proj2 (Z.ltb_ge a b)) by lia]
    | |- context [(?a =? ?b)%Z] =>
        first [rewrite (proj2 (Z.eqb_eq a b)) by lia
              | rewrite (proj2 (Z.eqb_neq a b)) by lia]
    end.

Ltac hour_cases h :=
  assert (h < 5 \/ h = 5 \/ 6 <= h < 12 \/ 12 <= h < 17 \/ 17 <= h <= 18
          \/ 19 <= h < 21 \/ 21 <= h)%Z
    as [? | [? | [? | [? | [? | [? | ?]]]]]] by lia.

Lemma basic_conditions_advice_at (d : datetime) (k : clock)
    (severity_code : Z) :
  let c := fst (AccidentPredictor._create_basic_conditions (Some d) k) in
  let monsoon := existsb (Z.eqb (month d)) [6; 7; 8; 9]%Z in
  let daylight := ((6 <=? hour d) && (hour d <=? 18))%Z in
  let rush := ((12 <=? hour d) && (hour d <? 21))%Z in
  (severity_code = 1 \/ severity_code = 2)%Z ->
  _identify_risk_factors c
  = Return ((if monsoon
             then ["Weather: Rainy"; "Road Surface: Wet"; "Poor Visibility"]
             else [])
            ++ (if daylight then [] else ["Night Driving"])
            ++ (if rush then ["Heavy Traffic"] else []))%list
  /\ _generate_recommendations c severity_code
     = ((if monsoon
         then ["🌧️ Reduce speed due to adverse weather conditions";
               "🚗 Increase following distance"]
         else [])
        ++ (if daylight then []
            else ["🌙 Use headlights and drive cautiously at night"])
        ++ (if (severity_code =? 2)%Z
            then ["⚠️ Consider postponing travel if possible";
                  "🚨 Extra caution required - high risk conditions"]
            else ["⚡ Drive with increased attention"]))%list.
Proof.
  cbv zeta. intros Hcode.
  unfold AccidentPredictor._create_basic_conditions. cbv beta iota zeta.
  cbn [existsb].
  hour_cases (hour d); settle_comparisons; cbn [andb];
    destruct (month d =? 6)%Z; destruct (month d =? 7)%Z;
    destruct (month d =? 8)%Z; destruct (month d =? 9)%Z;
    cbn [orb fst]; destruct Hcode as [-> | ->];
    (split; vm_compute; reflexivity).
Qed.

(** X16.  What a coordinate-based prediction lists depends on the month and the
    hour of the timestamp (the reading of the clock when none is given)
    and on the severity only: the risk factors are the three of the wet
    season in the months 6 to 9, "Night Driving" outside the hours 6 to 18
    and "Heavy Traffic" in the hours 12 to 20; the recommendations are the
    two of adverse weather in the months 6 to 9, the one of the night
    outside the hours 6 to 18 and the closing ones of the severity.
    Nothing else is ever listed. *)
Theorem coordinate_prediction_advice (lat lon : Q)
    (timestamp : option datetime) (k k' : clock) (p : Formatted.Prediction) :
  AccidentPredictor.predict_risk lat lon timestamp k
  = Return (AccidentPredictor.Formatted_result p, k') ->
  let d := match timestamp with Some t => t | None => k O end in
  let monsoon := existsb (Z.eqb (month d)) [6; 7; 8; 9]%Z in
  let daylight := ((6 <=? hour d) && (hour d <=? 18))%Z in
  let rush := ((12 <=? hour d) && (hour d <? 21))%Z in
  Formatted.risk_factors p
  = ((if monsoon
      then ["Weather: Rainy"; "Road Surface: Wet"; "Poor Visibility"]
      else [])
     ++ (if daylight then [] else ["Night Driving"])
     ++ (if rush then ["Heavy Traffic"] else []))%list
  /\ Formatted.recommendations p
     = ((if monsoon
         then ["🌧️ Reduce speed due to adverse weather conditions";
               "🚗 Increase following distance"]
         else [])
        ++ (if daylight then []
            else ["🌙 Use headlights and drive cautiously at night"])
        ++ (if (Formatted.severity_code p =? 2)%Z
            then ["⚠️ Consider postponing travel if possible";
                  "🚨 Extra caution required - high risk conditions"]
            else ["⚡ Drive with increased attention"]))%list.
Proof.
  intros H. cbv zeta.
  unfold AccidentPredictor.predict_risk in H.
  destruct (AccidentPredictor._coordinates_to_location lat lon)
    as [location | e]; cbn [bind] in H; [| discriminate H].
  rewrite basic_conditions_at in H.
  set (d := match timestamp with Some t => t | None => k O end) in *.
  set (k1 := match timestamp with Some _ => k | None => fun n => k (S n) end)
    in *.
  destruct (basic_prediction (isoformat (k1 O)) location d k)
    as (r & Hr & Hcode & _).
  unfold AccidentPredictor.predict_comprehensive_risk, datetime_now in H.
  cbv beta iota zeta in H. rewrite Hr in H.
  injection H as <- _.
  cbn [Formatted.risk_factors Formatted.recommendations
       Formatted.severity_code].
  destruct (predict_success_inv _ _ _ _ Hr) as [t Ht].
  destruct (predict_returns (isoformat (k1 O)) _ _ t Ht)
    as (r' & sev & l & m & h & Hr' & _ & _ & _ & _ & _ & Hrec & Hrf).
  rewrite Hr in Hr'. injection Hr' as <-.
  destruct (basic_conditions_advice_at d k (severity_code r) Hcode)
    as [Hf Ha].
  cbv zeta in Hf, Ha. rewrite Hf in Hrf. injection Hrf as <-.
  rewrite Hrec, Ha. split; reflexivity.
Qed.

Lemma coordinate_prediction_advice_witness :
  exists p k',
    AccidentPredictor.predict_risk 18.5 73.8 (Some dusk) still_clock
    = Return (AccidentPredictor.Formatted_result p, k')
    /\ Formatted.risk_factors p
       = ["Weather: Rainy"; "Road Surface: Wet"; "Poor Visibility";
          "Night Driving"; "Heavy Traffic"].
Proof.
  evaluate_as Hp
    (AccidentPredictor.predict_risk 18.5 73.8 (Some dusk) still_clock).
  do 2 eexists. split; [exact Hp |].
  exact (proj1 (coordinate_prediction_advice _ _ _ _ _ _ Hp)).
Defined.

(** ** Areas and the weather report *)

(** Two centres with a common point at a distance below [r] are less than
    [2 r] apart (in squares: below [r2] and [4 r2]). *)
Lemma apart (r2 x y a1 b1 a2 b2 : Q) :
  (x - a1) * (x - a1) + (y - b1) * (y - b1) < r2 ->
  (x - a2) * (x - a2) + (y - b2) * (y - b2) < r2 ->
  (a1 - a2) * (a1 - a2) + (b1 - b2) * (b1 - b2) < 4 * r2.
Proof.
  intros H1 H2.
  pose proof (square_nonneg (2 * x - a1 - a2)) as S1.
  pose proof (square_nonneg (2 * y - b1 - b2)) as S2.
  lra.
Qed.

(** A point at a distance below 1 of a point is less than 1 away from it in
    latitude and in longitude. *)
Lemma near_in_each (x y a b : Q) :
  (x - a) * (x - a) + (y - b) * (y - b) < 1 ->
  -1 < x - a < 1 /\ -1 < y - b < 1.
Proof.
  intros H.
  pose proof (square_nonneg (x - a)) as Sx.
  pose proof (square_nonneg (y - b)) as Sy.
  assert (forall u, u * u < 1 -> -1 < u < 1) as Hroot.
  { intros u Hu.
    destruct (Qlt_le_dec u 1) as [H1 | H1];
      destruct (Qlt_le_dec (-1) u) as [H2 | H2]; [lra | | | ].
    - assert (0 <= (-1 - u) * (1 - u)) by (apply Qmult_le_0_compat; lra).
      lra.
    - assert (0 <= (u - 1) * (u + 1)) by (apply Qmult_le_0_compat; lra).
      lra.
    - lra. }
  split; apply Hroot; lra.
Qed.

Ltac split_radius :=
  repeat match goal with
    | |- context [ltb ?s (1.0 * 1.0)] =>
        lazymatch goal with
        | _ : s < 1 |- _ => fail
        | _ : 1 <= s |- _ => fail
        | _ => destruct (Qlt_le_dec s 1)
        end
    end.

Ltac two_centres :=
  exfalso;
  match goal with
  | H1 : ?s1 < 1, H2 : ?s2 < 1 |- _ =>
      lazymatch s1 with s2 => fail | _ => idtac end;
      let C := fresh "C" in
      pose proof (apart _ _ _ _ _ _ _ H1 H2) as C; revert C;
      apply Qle_not_lt; apply Qle_bool_imp_le; reflexivity
  end.

Ltac settle_radius :=
  repeat match goal with
    | H : 1 <= ?s |- context [ltb ?s (1.0 * 1.0)] =>
        rewrite (proj2 (ltb_ge s (1.0 * 1.0))) by lra
    | H : 1 <= ?s |- context [ltb ?s (0.5 * 0.5)] =>
        rewrite (proj2 (ltb_ge s (0.5 * 0.5))) by lra
    | H : ?s < 1 |- context [ltb ?s (1.0 * 1.0)] =>
        rewrite (proj2 (ltb_lt s (1.0 * 1.0))) by lra
    | H : ?s < 1 |- context [ltb ?s (0.5 * 0.5)] =>
        destruct (ltb s (0.5 * 0.5))
    end.

(** On exact distances, and where no square leaves the range,
    [_determine_area_type] answers by the nearest centre alone: the centres
    are more than 2.0 apart, so the order of the loop does not matter. *)
Lemma area_type_exact (lat lon : Q) (location : string) :
  -900 <= lat <= 900 -> -900 <= lon <= 900 ->
  Api._determine_area_type lat lon location
  = Return (if within_radius lat lon 0.5 Api.urban_centers then "Urban"
            else if within_radius lat lon 1.0 Api.urban_centers
                 then "Suburban"
                 else "Rural").
Proof.
  intros Hlat Hlon.
  unfold Api._determine_area_type, within_radius, Api.urban_centers.
  cbn [Api.area_loop existsb].
  rewrite !distance_to_returns by lra. cbn [bind distance_below].
  split_radius; try two_centres; settle_radius; reflexivity.
Qed.

Lemma within_radius_true (lat lon r la lo : Q) (centers : list (Q * Q)) :
  In (la, lo) centers ->
  (lat - la) * (lat - la) + (lon - lo) * (lon - lo) < r * r ->
  within_radius lat lon r centers = true.
Proof.
  intros Hin H. unfold within_radius. apply existsb_exists.
  exists (la, lo). split; [exact Hin |]. cbn [distance_below].
  apply ltb_lt. exact H.
Qed.

Lemma within_radius_false (lat lon r : Q) (centers : list (Q * Q)) :
  (forall la lo, In (la, lo) centers ->
                 r * r <= (lat - la) * (lat - la) + (lon - lo) * (lon - lo)) ->
  within_radius lat lon r centers = false.
Proof.
  intros H. apply not_true_iff_false. unfold within_radius.
  rewrite existsb_exists. intros ([la lo] & Hin & Hd).
  cbn [distance_below] in Hd. apply ltb_lt in Hd.
  specialize (H la lo Hin). lra.
Qed.

(** A point at a distance below 1 of an urban centre is within reach of the
    tables. *)
Lemma near_centre_in_reach (lat lon la lo : Q) :
  In (la, lo) Api.urban_centers ->
  (lat - la) * (lat - la) + (lon - lo) * (lon - lo) < 1 ->
  -900 <= lat <= 900 /\ -900 <= lon <= 900.
Proof.
  intros Hin H. apply near_in_each in H. destruct H as [Hx Hy].
  unfold Api.urban_centers in Hin. cbn [In] in Hin.
  repeat (destruct Hin as [Hin | Hin]; [injection Hin as <- <-; lra |]).
  contradiction.
Qed.

(** Every other centre is at least 1 away from a point that is less than 1
    away from a centre. *)
Lemma other_centres_far (lat lon la lo : Q) :
  In (la, lo) Api.urban_centers ->
  (lat - la) * (lat - la) + (lon - lo) * (lon - lo) < 1 ->
  forall la' lo',
    In (la', lo') Api.urban_centers ->
    (la', lo') <> (la, lo) ->
    1 <= (lat - la') * (lat - la') + (lon - lo') * (lon - lo').
Proof.
  intros Hin H la' lo' Hin' Hne.
  destruct (Qlt_le_dec ((lat - la') * (lat - la') + (lon - lo') * (lon - lo'))
              1) as [H' | H']; [exfalso | exact H'].
  pose proof (apart _ _ _ _ _ _ _ H H') as C.
  unfold Api.urban_centers in Hin, Hin'. cbn [In] in Hin, Hin'.
  repeat (destruct Hin as [Hin | Hin];
    [injection Hin as <- <-;
     repeat (destruct Hin' as [Hin' | Hin'];
       [injection Hin' as <- <-;
        first [ apply Hne; reflexivity
              | revert C; apply Qle_not_lt; apply Qle_bool_imp_le;
                reflexivity ] |]);
     contradiction |]);
    contradiction.
Qed.

(** X18.  [_determine_area_type] answers by the distance to the urban
    centres, up to the rounding of the binary64 distance it compares: it
    answers 'Urban' when some centre is at a squared distance of at most
    0.2499 of the point (a distance below 0.5 by a margin), 'Suburban' when
    some centre is at a squared distance from 0.2501 to 0.9999, and 'Rural'
    for a point of the globe at a squared distance of at least 1.0001 of
    every centre.  The loop returns at the first centre closer than 1.0,
    but the centres are more than 2.0 apart, so their order does not
    matter; the [location] argument is not read. *)
Theorem area_type_by_distance (lat lon : Q) (location : string) :
  (forall la lo,
     In (la, lo) Api.urban_centers ->
     (lat - la) * (lat - la) + (lon - lo) * (lon - lo) <= 0.2499 ->
     Api._determine_area_type lat lon location = Return "Urban")
  /\ (forall la lo,
        In (la, lo) Api.urban_centers ->
        0.2501 <= (lat - la) * (lat - la) + (lon - lo) * (lon - lo) <= 0.9999 ->
        Api._determine_area_type lat lon location = Return "Suburban")
  /\ (geographic lat lon ->
      (forall la lo,
         In (la, lo) Api.urban_centers ->
         1.0001 <= (lat - la) * (lat - la) + (lon - lo) * (lon - lo)) ->
      Api._determine_area_type lat lon location = Return "Rural").
Proof.
  split; [| split].
  - intros la lo Hin H.
    destruct (near_centre_in_reach lat lon la lo Hin ltac:(lra))
      as [Hlat Hlon].
    rewrite (area_type_exact lat lon location Hlat Hlon).
    rewrite (within_radius_true lat lon 0.5 la lo _ Hin) by lra.
    reflexivity.
  - intros la lo Hin H.
    destruct (near_centre_in_reach lat lon la lo Hin ltac:(lra))
      as [Hlat Hlon].
    rewrite (area_type_exact lat lon location Hlat Hlon).
    rewrite within_radius_false.
    + rewrite (within_radius_true lat lon 1.0 la lo _ Hin) by lra.
      reflexivity.
    + intros la' lo' Hin'.
      destruct (Qeq_dec la' la) as [Ea | Na].
      * destruct (Qeq_dec lo' lo) as [Eo | No].
        -- rewrite Ea, Eo. lra.
        -- pose proof (other_centres_far lat lon la lo Hin ltac:(lra)
                         la' lo' Hin') as Hfar.
           assert ((la', lo') <> (la, lo)) as Hne
             by (intros [= _ E]; apply No; rewrite E; reflexivity).
           specialize (Hfar Hne). lra.
      * pose proof (other_centres_far lat lon la lo Hin ltac:(lra)
                      la' lo' Hin') as Hfar.
        assert ((la', lo') <> (la, lo)) as Hne
          by (intros [= E _]; apply Na; rewrite E; reflexivity).
        specialize (Hfar Hne). lra.
  - intros Hgeo H. apply geographic_in_reach in Hgeo.
    destruct Hgeo as [Hlat Hlon].
    rewrite (area_type_exact lat lon location Hlat Hlon).
    rewrite !within_radius_false; [reflexivity | |];
      intros la lo Hin; specialize (H la lo Hin); lra.
Qed.

Lemma area_type_by_distance_witness :
  Api._determine_area_type 19.0 72.9 "Mumbai" = Return "Urban"
  /\ Api._determine_area_type 19.5 73.4 "Thane" = Return "Suburban"
  /\ Api._determine_area_type 18.5204 73.8567 "Pune" = Return "Rural".
Proof.
  destruct (area_type_by_distance 19.0 72.9 "Mumbai") as (Hu & _ & _).
  destruct (area_type_by_distance 19.5 73.4 "Thane") as (_ & Hs & _).
  destruct (area_type_by_distance 18.5204 73.8567 "Pune") as (_ & _ & Hr).
  split; [| split].
  - apply (Hu 19.0760 72.8777).
    + unfold Api.urban_centers. cbn [In]. tauto.
    + apply Qle_bool_imp_le. reflexivity.
  - apply (Hs 19.0760 72.8777).
    + unfold Api.urban_centers. cbn [In]. tauto.
    + split; apply Qle_bool_imp_le; reflexivity.
  - apply Hr.
    + unfold geographic. repeat split; apply Qle_bool_imp_le; reflexivity.
    + intros la lo Hin. unfold Api.urban_centers in Hin. cbn [In] in Hin.
      repeat (destruct Hin as [Hin | Hin];
              [injection Hin as <- <-; apply Qle_bool_imp_le; reflexivity |]).
      contradiction.
Defined.

(** An answer 'Urban' comes from a centre at a distance below 0.5. *)
Lemma area_urban_inv (lat lon : Q) (centers : list (Q * Q)) :
  Api.area_loop lat lon centers = Return "Urban" ->
  exists la lo,
    In (la, lo) centers
    /\ (lat - la) * (lat - la) + (lon - lo) * (lon - lo) < 0.5 * 0.5.
Proof.
  induction centers as [| [la lo] centers IH]; cbn [Api.area_loop];
    [discriminate |].
  destruct (distance_to lat lon la lo) as [d | e] eqn:D; cbn [bind];
    [| discriminate].
  destruct (distance_below d 0.5) eqn:B.
  - intros _. exists la, lo. split; [left; reflexivity |].
    destruct (distance_to_inv _ _ _ _ _ D) as [-> | ->];
      cbn [distance_below] in B; [discriminate B |].
    apply ltb_lt. exact B.
  - destruct (distance_below d 1.0); [discriminate |].
    intros H. destruct (IH H) as (la' & lo' & Hin & Hd).
    exists la', lo'. split; [right; exact Hin | exact Hd].
Qed.

(** X19.  Where [_determine_area_type] answers 'Urban',
    [_coordinates_to_location] names one of the five metropolitan cities:
    the point is at a distance below 0.5 of an urban centre, and every
    other city of the table is more than 1.0 away from that centre. *)
Theorem urban_area_city (lat lon : Q) (location : string) :
  Api._determine_area_type lat lon location = Return "Urban" ->
  exists name,
    AccidentPredictor._coordinates_to_location lat lon = Return name
    /\ In name
          ["Mumbai, Maharashtra"; "New Delhi"; "Bangalore, Karnataka";
           "Chennai, Tamil Nadu"; "Kolkata, West Bengal"].
Proof.
  intros H. apply area_urban_inv in H.
  destruct H as (la & lo & Hc & Hd).
  destruct (near_centre_in_reach lat lon la lo Hc ltac:(lra))
    as [Hlat Hlon].
  destruct (nearest_entry lat lon Hlat Hlon) as (e & He & Hn & Hmin).
  exists (snd e). split; [exact Hn |]. clear Hn.
  assert (squared_distance lat lon e < 0.5 * 0.5) as Hs.
  { assert (exists name, In (la, lo, name) AccidentPredictor.locations)
      as [name Ho].
    { unfold Api.urban_centers in Hc. cbn [In] in Hc.
      unfold AccidentPredictor.locations. cbn [In].
      repeat (destruct Hc as [Hc | Hc];
              [injection Hc as <- <-; eexists; tauto |]).
      contradiction. }
    specialize (Hmin _ Ho). cbn [squared_distance] in Hmin. lra. }
  clear Hmin Hlat Hlon.
  unfold AccidentPredictor.locations in He. cbn [In] in He.
  unfold Api.urban_centers in Hc. cbn [In] in Hc.
  repeat (destruct He as [<- | He];
    [cbn [squared_distance snd] in Hs |- *;
     first
       [ solve [cbn [In]; tauto]
       | exfalso;
         repeat (destruct Hc as [Hc | Hc];
           [injection Hc as <- <-;
            first
              [ solve [pose proof (apart _ _ _ _ _ _ _ Hs Hd) as C;
                       revert C; apply Qle_not_lt; apply Qle_bool_imp_le;
                       reflexivity]
              | idtac ] |]);
         try contradiction ] |]);
    try contradiction.
Qed.

Lemma urban_area_city_witness :
  exists name,
    AccidentPredictor._coordinates_to_location 19.0 72.9 = Return name
    /\ In name
          ["Mumbai, Maharashtra"; "New Delhi"; "Bangalore, Karnataka";
           "Chennai, Tamil Nadu"; "Kolkata, West Bengal"].
Proof.
  apply (urban_area_city 19.0 72.9 "Mumbai"). vm_compute. reflexivity.
Defined.

Lemma in_exact_fields (f : exact_field) : In f exact_fields.
Proof. destruct f; cbn; tauto. Qed.

Lemma outside_not_scorable (f : exact_field) (c : Conditions) :
  in_domain f c = false -> scorable c = false.
Proof.
  intros Hf. destruct (scorable c) eqn:Hs; [| reflexivity].
  unfold scorable in Hs. rewrite forallb_forall in Hs.
  rewrite (Hs f (in_exact_fields f)) in Hf. discriminate Hf.
Qed.

Lemma weather_info_fields (location : string) (t : datetime) :
  let w := Api.weather_info location t in
  Api.light_condition w
  = (if ((6 <=? hour t) && (hour t <=? 18))%Z then "Daylight"
     else if ((hour t =? 5) || (hour t =? 19))%Z then "Twilight"
     else "Night_with_lights")
  /\ mem (Api.weather w) (keys risk_weights.weather) = true
  /\ mem (Api.road_surface w) (domain Road_surface) = true
  /\ mem (Api.visibility w) (domain Visibility) = true.
Proof.
  cbv zeta. unfold Api.weather_info. cbv beta iota zeta. cbn [existsb].
  assert (hour t < 5 \/ hour t = 5 \/ hour t = 6 \/ hour t = 7 \/ hour t = 8
          \/ 9 <= hour t <= 18 \/ hour t = 19 \/ 20 <= hour t)%Z
    as [? | [? | [? | [? | [? | [? | [? | ?]]]]]]] by lia;
    settle_comparisons; cbn [andb orb];
    destruct (month t =? 6)%Z; destruct (month t =? 7)%Z;
    destruct (month t =? 8)%Z; destruct (month t =? 9)%Z;
    destruct (month t =? 12)%Z; destruct (month t =? 1)%Z;
    destruct (month t =? 2)%Z;
    cbn [andb orb]; (repeat split; vm_compute; reflexivity).
Qed.

(** X21.  What [get_weather_info] reports against the tables of the scorer: the
    weather, the road surface and the visibility it reports are always
    keys of their tables, but at the hours 5 and 19 (and only then; the
    hours 6 and 18 of its list count as daylight) it reports the light
    condition 'Twilight', which is no key of the table of light
    conditions, so that a request made with the reported light condition
    is answered with the failure dict (and the clock is not read). *)
Theorem weather_info_twilight (location : string) (t : datetime) :
  let w := Api.weather_info location t in
  (Api.light_condition w = "Twilight" <-> (hour t = 5 \/ hour t = 19)%Z)
  /\ (mem (Api.light_condition w) (domain Light_condition) = false
      <-> (hour t = 5 \/ hour t = 19)%Z)
  /\ mem (Api.weather w) (keys risk_weights.weather) = true
  /\ mem (Api.road_surface w) (domain Road_surface) = true
  /\ mem (Api.visibility w) (domain Visibility) = true
  /\ ((hour t = 5 \/ hour t = 19)%Z ->
      forall place c k,
        light_condition c = Some (Api.light_condition w) ->
        AccidentPredictor.predict_comprehensive_risk place c k
        = (AccidentPredictor.Engine_failure "Prediction calculation failed"
             place, k)).
Proof.
  cbv zeta.
  destruct (weather_info_fields location t) as (Hl & Hw & Hs & Hv).
  cbv zeta in Hl, Hw, Hs, Hv.
  assert (mem (Api.light_condition (Api.weather_info location t))
            (domain Light_condition) = false
          <-> (hour t = 5 \/ hour t = 19)%Z) as Hdom.
  { rewrite Hl.
    destruct ((6 <=? hour t) && (hour t <=? 18))%Z eqn:D.
    - apply andb_true_iff in D. rewrite Z.leb_le, Z.leb_le in D.
      split; [intros H; vm_compute in H; discriminate H | lia].
    - destruct ((hour t =? 5) || (hour t =? 19))%Z eqn:T.
      + apply orb_true_iff in T. rewrite !Z.eqb_eq in T.
        split; [intros _; exact T | intros _; vm_compute; reflexivity].
      + apply orb_false_iff in T. rewrite !Z.eqb_neq in T.
        split; [intros H; vm_compute in H; discriminate H | lia]. }
  split; [| split; [exact Hdom |]].
  - rewrite Hl.
    destruct ((6 <=? hour t) && (hour t <=? 18))%Z eqn:D.
    + apply andb_true_iff in D. rewrite Z.leb_le, Z.leb_le in D.
      split; [discriminate | lia].
    + destruct ((hour t =? 5) || (hour t =? 19))%Z eqn:T.
      * apply orb_true_iff in T. rewrite !Z.eqb_eq in T.
        split; [intros _; exact T | reflexivity].
      * apply orb_false_iff in T. rewrite !Z.eqb_neq in T.
        split; [discriminate | lia].
  - repeat (split; [assumption |]).
    intros Hh place c k Hc.
    apply comprehensive_failure. apply andb_false_iff. left.
    apply (outside_not_scorable Light_condition).
    unfold in_domain. cbn [value_of]. rewrite Hc. cbn [get].
    apply Hdom. exact Hh.
Qed.

Lemma weather_info_twilight_witness :
  AccidentPredictor.predict_comprehensive_risk "Pune"
    (with_light_condition
       (Some (Api.light_condition (Api.weather_info "Pune" dusk)))
       test_conditions) still_clock
  = (AccidentPredictor.Engine_failure "Prediction calculation failed" "Pune",
     still_clock).
Proof.
  apply (proj2 (proj2 (proj2 (proj2 (proj2
           (weather_info_twilight "Pune" dusk)))))).
  - right. reflexivity.
  - reflexivity.
Defined.
